(** * Google-Photos-Metadata-Merger: a shallow embedding of [main.py] and
    [arrange_photo.py], and the properties of their specification.

    Python [str] values are modelled by [string]: sequences of characters
    with code points 0..255, classified the way Python's Unicode-aware [re]
    module classifies that range.  Exceptions are explicit results; the
    filesystem is an explicit store threaded through every operation.

    The files of the store are readable and writable, and the paths it
    holds have names the system accepted when they were made.  A path a
    script builds from data (a candidate sidecar name, the name
    [<timestamp>_<name>], the output directory it is given) can be refused:
    a NUL character makes the interpreter raise [ValueError] before any
    system call, and a component over 255 bytes or a path of 4096 bytes or
    more makes the system answer "name too long", an [OSError]; names are
    counted in UTF-8, where the characters from U+0080 on take two
    bytes. *)

From Stdlib Require Import String Ascii List ZArith Lia Bool.
From Stdlib Require Import Floats.SpecFloat.
From Stdlib Require Import DecimalString.
Import ListNotations.
Open Scope string_scope.
Set Warnings "-register-all".

(* ================================================================== *)
(** * Characters and character classes *)

Definition code (c : ascii) : N := N_of_ascii c.

(** [\d] : decimal digits. *)
Definition is_digit (c : ascii) : bool :=
  ((48 <=? code c) && (code c <=? 57))%N.

(** [\s] : whitespace, as [str.isspace] has it below U+0100. *)
Definition is_space (c : ascii) : bool :=
  let n := code c in
  (((9 <=? n) && (n <=? 13)) || ((28 <=? n) && (n <=? 32))
   || (n =? 133) || (n =? 160))%N.

(** [\w] : alphanumerics and the underscore, as [str.isalnum] has them
    below U+0100. *)
Definition is_word (c : ascii) : bool :=
  let n := code c in
  (((48 <=? n) && (n <=? 57)) || ((65 <=? n) && (n <=? 90))
   || ((97 <=? n) && (n <=? 122)) || (n =? 95)
   || (n =? 170) || (n =? 178) || (n =? 179) || (n =? 181)
   || (n =? 185) || (n =? 186) || ((188 <=? n) && (n <=? 190))
   || ((192 <=? n) && (n <=? 214)) || ((216 <=? n) && (n <=? 246))
   || ((248 <=? n) && (n <=? 255)))%N.

Definition newline : ascii := ascii_of_N 10.

(* ================================================================== *)
(** * String helpers *)

Fixpoint take (n : nat) (s : string) : string :=
  match n, s with
  | S k, String c r => String c (take k r)
  | _, _ => ""
  end.

Fixpoint drop (n : nat) (s : string) : string :=
  match n, s with
  | S k, String _ r => drop k r
  | _, _ => s
  end.

Fixpoint startswith (s p : string) : bool :=
  match p, s with
  | "", _ => true
  | String a p', String b s' => Ascii.eqb a b && startswith s' p'
  | _, _ => false
  end.

(** [sub in s], Python's substring test. *)
Fixpoint str_in (sub s : string) : bool :=
  startswith s sub ||
  match s with
  | "" => false
  | String _ r => str_in sub r
  end.

Fixpoint endswith (s p : string) : bool :=
  String.eqb s p ||
  match s with
  | "" => false
  | String _ r => endswith r p
  end.

Fixpoint forallb_str (f : ascii -> bool) (s : string) : bool :=
  match s with
  | "" => true
  | String c r => f c && forallb_str f r
  end.

Fixpoint last_char (s : string) : option ascii :=
  match s with
  | "" => None
  | String c "" => Some c
  | String _ r => last_char r
  end.

(* ================================================================== *)
(** * The fragment of [re] the two scripts use

    A compiled pattern is a function that tries to match at the start of
    its input: [p s = Some (groups, rest)] when a prefix of [s] matches,
    [groups] being the captured groups and [rest] what follows the match.
    Every pattern of the scripts matches at least one character and has a
    single way to match at a position, so the backtracking of [re] never
    shows. *)

Definition pattern : Type := string -> option (list string * string).

Definition bind {A B} (o : option A) (f : A -> option B) : option B :=
  match o with Some a => f a | None => None end.

Notation "x <- e ;; k" := (bind e (fun x => k))
  (at level 61, e at next level, right associativity).
Notation "' p <- e ;; k" := (bind e (fun p => k))
  (at level 61, p pattern, e at next level, right associativity).

(** A literal character. *)
Definition eat_char (c : ascii) (s : string) : option string :=
  match s with
  | String a r => if Ascii.eqb a c then Some r else None
  | "" => None
  end.

(** A literal string. *)
Fixpoint eat_lit (lit s : string) : option string :=
  match lit with
  | "" => Some s
  | String c l => r <- eat_char c s ;; eat_lit l r
  end.

(** [cls{n}] : exactly [n] characters of a class; the text and the rest. *)
Fixpoint eat_n (cls : ascii -> bool) (n : nat) (s : string)
  : option (string * string) :=
  match n with
  | O => Some ("", s)
  | S k =>
      match s with
      | String c r =>
          if cls c
          then '(t, r') <- eat_n cls k r ;; Some (String c t, r')
          else None
      | "" => None
      end
  end.

(** [cls*], greedy: the longest run of a class; the text and the rest. *)
Fixpoint eat_star (cls : ascii -> bool) (s : string) : string * string :=
  match s with
  | String c r =>
      if cls c then let '(t, r') := eat_star cls r in (String c t, r')
      else ("", s)
  | "" => ("", "")
  end.

(** [cls+], greedy. *)
Definition eat_plus (cls : ascii -> bool) (s : string)
  : option (string * string) :=
  match eat_star cls s with
  | ("", _) => None
  | tr => Some tr
  end.

(** [$] : the end of the string, or just before a final newline. *)
Definition at_end (s : string) : bool :=
  match s with
  | "" => true
  | String c "" => Ascii.eqb c newline
  | _ => false
  end.

(** [re.sub(p, repl, s)] : scan from the left; where the pattern matches,
    emit the replacement and jump over the match ([skip] counts the
    characters of the match still to jump over); elsewhere copy one
    character. *)
Fixpoint re_sub_skip (p : pattern) (repl : list string -> string)
    (skip : nat) (s : string) : string :=
  match s with
  | "" => ""
  | String c r =>
      match skip with
      | S k => re_sub_skip p repl k r
      | O =>
          match p s with
          | Some (gs, rest) =>
              repl gs
              ++ re_sub_skip p repl
                   (String.length s - String.length rest - 1) r
          | None => String c (re_sub_skip p repl 0 r)
          end
      end
  end.

Definition re_sub (p : pattern) (repl : list string -> string) (s : string)
  : string := re_sub_skip p repl 0 s.

Definition delete : list string -> string := fun _ => "".

(** [re.search(p, s)] : the groups of the leftmost match. *)
Fixpoint re_search (p : pattern) (s : string) : option (list string) :=
  match p s with
  | Some (gs, _) => Some gs
  | None =>
      match s with
      | "" => None
      | String _ r => re_search p r
      end
  end.

(** [re.sub] with a pattern anchored by [^] : one attempt, at the start. *)
Definition re_sub_anchored (p : pattern) (repl : list string -> string)
    (s : string) : string :=
  match p s with
  | Some (gs, rest) => repl gs ++ rest
  | None => s
  end.

(** ** The patterns of [main.py] *)

(** [\(\d+\)] *)
Definition pat_numbering : pattern := fun s =>
  r <- eat_char "(" s ;;
  '(_, r) <- eat_plus is_digit r ;;
  r <- eat_char ")" r ;;
  Some ([], r).

(** [\(\d+\)$] *)
Definition pat_numbering_end : pattern := fun s =>
  '(_, r) <- pat_numbering s ;;
  if at_end r then Some ([], r) else None.

(** [lit$], for [-edited$] and [_p$]. *)
Definition pat_lit_end (lit : string) : pattern := fun s =>
  r <- eat_lit lit s ;;
  if at_end r then Some ([], r) else None.

(** [(\d{4})-(\d{2})-(\d{2})\s+(\d{2})\.(\d{2})\.(\d{2})] *)
Definition pat_human_date : pattern := fun s =>
  '(g1, r) <- eat_n is_digit 4 s ;;
  r <- eat_char "-" r ;;
  '(g2, r) <- eat_n is_digit 2 r ;;
  r <- eat_char "-" r ;;
  '(g3, r) <- eat_n is_digit 2 r ;;
  '(_, r) <- eat_plus is_space r ;;
  '(g4, r) <- eat_n is_digit 2 r ;;
  r <- eat_char "." r ;;
  '(g5, r) <- eat_n is_digit 2 r ;;
  r <- eat_char "." r ;;
  '(g6, r) <- eat_n is_digit 2 r ;;
  Some ([g1; g2; g3; g4; g5; g6], r).

(** The template [\1\2\3_\4\5\6]. *)
Definition repl_human_date (gs : list string) : string :=
  match gs with
  | [g1; g2; g3; g4; g5; g6] => g1 ++ g2 ++ g3 ++ "_" ++ g4 ++ g5 ++ g6
  | _ => ""
  end.

(** [\s+] *)
Definition pat_spaces : pattern := fun s =>
  '(_, r) <- eat_plus is_space s ;; Some ([], r).

(** [\.] *)
Definition pat_dot : pattern := fun s =>
  r <- eat_char "." s ;; Some ([], r).

(** [_+$] *)
Definition pat_underscores_end : pattern := fun s =>
  '(_, r) <- eat_plus (Ascii.eqb "_") s ;;
  if at_end r then Some ([], r) else None.

(** [(\d{8}_\d{6})] *)
Definition pat_date_token : pattern := fun s =>
  '(d, r) <- eat_n is_digit 8 s ;;
  r <- eat_char "_" r ;;
  '(t, r) <- eat_n is_digit 6 r ;;
  Some ([d ++ "_" ++ t], r).

(** [-\w+$] and [_\w+$] *)
Definition pat_word_suffix (sep : ascii) : pattern := fun s =>
  r <- eat_char sep s ;;
  '(_, r) <- eat_plus is_word r ;;
  if at_end r then Some ([], r) else None.

(** [p|q] : the first alternative that matches at the position. *)
Definition pat_alt (p q : pattern) : pattern := fun s =>
  match p s with
  | Some m => Some m
  | None => q s
  end.

(** [\(\d+\)|-\w+$|_\w+$] *)
Definition pat_clean : pattern :=
  pat_alt pat_numbering (pat_alt (pat_word_suffix "-") (pat_word_suffix "_")).

(* ================================================================== *)
(** * [main.py] : the filename normalizer *)

Definition normalize_filename (name : string) : string :=
  (* Remove (x) numbering *)
  let name := re_sub pat_numbering delete name in
  (* Remove -edited suffix *)
  let name := re_sub (pat_lit_end "-edited") delete name in
  (* Remove _p suffix *)
  let name := re_sub (pat_lit_end "_p") delete name in
  (* Remove spaces and dots from date format *)
  let name := re_sub pat_human_date repl_human_date name in
  (* Remove any remaining spaces *)
  let name := re_sub pat_spaces delete name in
  (* Remove any remaining dots *)
  let name := re_sub pat_dot delete name in
  (* Remove any remaining underscores at the end *)
  let name := re_sub pat_underscores_end delete name in
  name.

(* ================================================================== *)
(** * [pathlib] : pure paths

    A path is the list of its parts, the last one being the file name. *)

Definition Path : Type := list string.

Definition path_name (p : Path) : string := last p "".
Definition path_parent (p : Path) : Path := removelast p.

Definition path_eqb (p q : Path) : bool :=
  if list_eq_dec string_dec p q then true else false.

(** [name.rfind('.')] *)
Fixpoint rfind_dot (s : string) : option nat :=
  match s with
  | "" => None
  | String c r =>
      match rfind_dot r with
      | Some i => Some (S i)
      | None => if Ascii.eqb c "." then Some 0 else None
      end
  end.

(** The stem and the suffix of a name: the name is cut at its last dot
    when that dot is neither its first nor its last character. *)
Definition split_suffix (name : string) : string * string :=
  match rfind_dot name with
  | Some i =>
      if ((0 <? i) && (i <? String.length name - 1))%nat
      then (take i name, drop i name)
      else (name, "")
  | None => (name, "")
  end.

Definition name_stem (name : string) : string := fst (split_suffix name).
Definition name_suffix (name : string) : string := snd (split_suffix name).

Definition path_stem (p : Path) : string := name_stem (path_name p).
Definition path_suffix (p : Path) : string := name_suffix (path_name p).

(* ================================================================== *)
(** * [main.py] : the sidecar matcher *)

Notation "a 'orelse' b" :=
  (match a with Some x => Some x | None => b end)
  (at level 70, right associativity, only parsing).

(** First attempt: exact match *)
Definition first_attempt (base_name : string) (json_files : list Path)
  : option Path :=
  find (fun json_file => startswith (path_stem json_file) base_name)
       json_files.

(** Second attempt: try matching after normalizing *)
Definition second_attempt (normalized_base : string)
    (json_files : list Path) : option Path :=
  find (fun json_file =>
          let json_base := normalize_filename (path_stem json_file) in
          String.eqb json_base normalized_base)
       json_files.

(** Third attempt: try matching without the (1) suffix *)
Definition third_attempt (normalized_base : string)
    (json_files : list Path) : option Path :=
  let base_without_number := re_sub pat_numbering_end delete normalized_base in
  find (fun json_file =>
          let json_base := normalize_filename (path_stem json_file) in
          let json_without_number := re_sub pat_numbering_end delete json_base in
          String.eqb json_without_number base_without_number)
       json_files.

(** Fourth attempt: try matching the base date-time pattern *)
Definition fourth_attempt (normalized_base : string)
    (json_files : list Path) : option Path :=
  match re_search pat_date_token normalized_base with
  | Some gs =>
      let date_str := nth 0 gs "" in
      find (fun json_file =>
              let json_base := normalize_filename (path_stem json_file) in
              str_in date_str json_base)
           json_files
  | None => None
  end.

(** Fifth attempt: try matching without any numbering or suffixes *)
Definition fifth_attempt (normalized_base : string)
    (json_files : list Path) : option Path :=
  let base_clean := re_sub pat_clean delete normalized_base in
  find (fun json_file =>
          let json_base := normalize_filename (path_stem json_file) in
          let json_clean := re_sub pat_clean delete json_base in
          String.eqb json_clean base_clean)
       json_files.

Definition find_json_for_photo (photo_path : Path) (json_files : list Path)
  : option Path :=
  let base_name := path_stem photo_path in
  let normalized_base := normalize_filename base_name in
  first_attempt base_name json_files orelse
  second_attempt normalized_base json_files orelse
  third_attempt normalized_base json_files orelse
  fourth_attempt normalized_base json_files orelse
  fifth_attempt normalized_base json_files.

(** The rung of the ladder that produced the match, for stating the order
    of the rules; [find_json_for_photo] itself only returns the file. *)
Definition ladder (photo_path : Path) (json_files : list Path)
  : list (option Path) :=
  let base_name := path_stem photo_path in
  let normalized_base := normalize_filename base_name in
  [ first_attempt base_name json_files;
    second_attempt normalized_base json_files;
    third_attempt normalized_base json_files;
    fourth_attempt normalized_base json_files;
    fifth_attempt normalized_base json_files ].

Fixpoint first_success {A} (l : list (option A)) : option (nat * A) :=
  match l with
  | [] => None
  | Some a :: _ => Some (1, a)
  | None :: r =>
      match first_success r with
      | Some (k, a) => Some (S k, a)
      | None => None
      end
  end.

(** The normal forms of the normalizer: no ["(n)"] group left, and neither
    ["-edited"] nor ["_p"] at the end. *)
Definition has_numbering (s : string) : bool :=
  match re_search pat_numbering s with Some _ => true | None => false end.

Definition settled (s : string) : bool :=
  negb (has_numbering s) && negb (endswith s "-edited")
  && negb (endswith s "_p").

(** Auxiliary predicates for the statements below. *)
Definition suffix_of (r s : string) : Prop := exists pre, s = pre ++ r.

Definition no_space (s : string) : bool :=
  forallb_str (fun c => negb (is_space c)) s.

Definition no_dot (s : string) : bool :=
  forallb_str (fun c => negb (Ascii.eqb c ".")) s.

Definition no_trailing_underscore (s : string) : bool :=
  match last_char s with
  | Some c => negb (Ascii.eqb c "_")
  | None => true
  end.

(* ================================================================== *)
(** * Python values and exceptions *)

Inductive exn : Type :=
| ValueError | TypeError | OverflowError | AttributeError | NameError
| OSError | LibraryError.

Definition exn_eqb (a b : exn) : bool :=
  match a, b with
  | ValueError, ValueError | TypeError, TypeError
  | OverflowError, OverflowError | AttributeError, AttributeError
  | NameError, NameError | OSError, OSError
  | LibraryError, LibraryError => true
  | _, _ => false
  end.

Inductive result (A : Type) : Type :=
| Ok (a : A)
| Raise (e : exn).
Arguments Ok {A} a.
Arguments Raise {A} e.

Definition rbind {A B} (r : result A) (f : A -> result B) : result B :=
  match r with Ok a => f a | Raise e => Raise e end.

Notation "x <-- e ;; k" := (rbind e (fun x => k))
  (at level 61, e at next level, right associativity).
Notation "' p <-- e ;; k" := (rbind e (fun p => k))
  (at level 61, p pattern, e at next level, right associativity).

(** The values [json.load] produces and the scripts build: floats are
    IEEE 754 binary64 numbers, dictionaries keep their insertion order. *)
Inductive pyval : Type :=
| VNone
| VBool (b : bool)
| VInt (z : Z)
| VFloat (f : spec_float)
| VStr (s : string)
| VList (l : list pyval)
| VTuple (l : list pyval)
| VDict (d : list (string * pyval)).

Fixpoint dict_get (d : list (string * pyval)) (key : string) : option pyval :=
  match d with
  | [] => None
  | (k, v) :: r => if String.eqb k key then Some v else dict_get r key
  end.

(** [v.get(key, default)] *)
Definition py_get (v : pyval) (key : string) (default : pyval) : result pyval :=
  match v with
  | VDict d =>
      Ok (match dict_get d key with Some x => x | None => default end)
  | _ => Raise AttributeError
  end.

(** Truth value testing, [if v:]. *)
Definition truthy (v : pyval) : bool :=
  match v with
  | VNone => false
  | VBool b => b
  | VInt z => negb (z =? 0)%Z
  | VFloat (S754_zero _) => false
  | VFloat _ => true
  | VStr s => negb (String.eqb s "")
  | VList l | VTuple l => match l with [] => false | _ => true end
  | VDict d => match d with [] => false | _ => true end
  end.

(* ================================================================== *)
(** * binary64 arithmetic *)

Definition prec : Z := 53.
Definition emax : Z := 1024.

Definition f_sub : spec_float -> spec_float -> spec_float := SFsub prec emax.
Definition f_mul : spec_float -> spec_float -> spec_float := SFmul prec emax.
Definition f_div : spec_float -> spec_float -> spec_float := SFdiv prec emax.

(** [float(z)] for an [int]: the nearest binary64 number. *)
Definition float_of_Z (z : Z) : result spec_float :=
  match binary_normalize prec emax z 0 false with
  | S754_infinity _ => Raise OverflowError
  | f => Ok f
  end.

(** An [int] operand of a mixed [float]/[int] operation; the operands the
    encoder meets are exactly representable. *)
Definition to_float (z : Z) : spec_float :=
  binary_normalize prec emax z 0 false.

(** [int(f)] for a [float]: the integer part, towards zero. *)
Definition int_of_float (f : spec_float) : result Z :=
  match f with
  | S754_zero _ => Ok 0%Z
  | S754_finite s m e =>
      Ok (cond_Zopp s (if (0 <=? e)%Z then Z.pos m * 2 ^ e
                       else Z.pos m / 2 ^ (- e)))%Z
  | S754_infinity _ => Raise OverflowError
  | S754_nan => Raise ValueError
  end.

(** [z] is the integer part of [f]: same sign, and
    [|z| <= |f| < |z| + 1]. *)
Definition integer_part_of (f : spec_float) (z : Z) : Prop :=
  match f with
  | S754_zero _ => z = 0%Z
  | S754_finite s m e =>
      exists a : Z,
        z = cond_Zopp s a /\ (0 <= a)%Z /\
        (a * 2 ^ Z.max 0 (- e) <= Z.pos m * 2 ^ Z.max 0 e
           < (a + 1) * 2 ^ Z.max 0 (- e))%Z
  | _ => False
  end.

(* ================================================================== *)
(** * [main.py] : the GPS coordinate encoder *)

(** [abs(v)] *)
Definition py_abs (v : pyval) : result pyval :=
  match v with
  | VInt z => Ok (VInt (Z.abs z))
  | VBool b => Ok (VInt (if b then 1 else 0))
  | VFloat f => Ok (VFloat (SFabs f))
  | _ => Raise TypeError
  end.

(** [v >= 0] *)
Definition py_ge_zero (v : pyval) : result bool :=
  match v with
  | VInt z => Ok (0 <=? z)%Z
  | VBool _ => Ok true
  | VFloat f =>
      Ok (match SFcompare f (S754_zero false) with
          | Some Gt | Some Eq => true
          | _ => false
          end)
  | _ => Raise TypeError
  end.

(** [float(value)], for the numbers [abs] returns. *)
Definition py_float (v : pyval) : result spec_float :=
  match v with
  | VInt z => float_of_Z z
  | VFloat f => Ok f
  | _ => Raise TypeError
  end.

Definition rational (n : Z) : pyval := VTuple [VInt n; VInt 1].

(** The float whose integer part is the minutes, and the one whose integer
    part is the seconds. *)
Definition minutes_float (d : spec_float) (degrees : Z) : spec_float :=
  f_mul (f_sub d (to_float degrees)) (to_float 60).

Definition seconds_float (d : spec_float) (degrees minutes : Z) : spec_float :=
  f_mul (f_sub (f_mul (f_sub d (to_float degrees)) (to_float 60))
               (to_float minutes))
        (to_float 60).

Definition convert_to_degrees (value : pyval) : result (Z * Z * Z) :=
  d <-- py_float value ;;
  degrees <-- int_of_float d ;;
  minutes <-- int_of_float (minutes_float d degrees) ;;
  seconds <-- int_of_float (seconds_float d degrees minutes) ;;
  Ok (degrees, minutes, seconds).

Definition dms (t : Z * Z * Z) : pyval :=
  let '(degrees, minutes, seconds) := t in
  VTuple [rational degrees; rational minutes; rational seconds].

Definition get_exif_gps_dict (lat lon : pyval) : result pyval :=
  abs_lat <-- py_abs lat ;;
  lat_deg <-- convert_to_degrees abs_lat ;;
  abs_lon <-- py_abs lon ;;
  lon_deg <-- convert_to_degrees abs_lon ;;
  lat_nonneg <-- py_ge_zero lat ;;
  let lat_ref := if lat_nonneg then "N" else "S" in
  lon_nonneg <-- py_ge_zero lon ;;
  let lon_ref := if lon_nonneg then "E" else "W" in
  let zero3 := VTuple [rational 0; rational 0; rational 0] in
  Ok (VDict
    [ ("GPSLatitude", dms lat_deg);
      ("GPSLatitudeRef", VStr lat_ref);
      ("GPSLongitude", dms lon_deg);
      ("GPSLongitudeRef", VStr lon_ref);
      ("GPSVersionID", VTuple [VInt 2; VInt 2; VInt 0; VInt 0]);
      ("GPSAltitudeRef", VInt 0);
      ("GPSAltitude", rational 0);
      ("GPSTimeStamp", zero3);
      ("GPSSatellites", VStr "");
      ("GPSStatus", VStr "A");
      ("GPSMeasureMode", VStr "3");
      ("GPSDOP", rational 0);
      ("GPSSpeedRef", VStr "K");
      ("GPSSpeed", rational 0);
      ("GPSTrackRef", VStr "T");
      ("GPSTrack", rational 0);
      ("GPSImgDirectionRef", VStr "M");
      ("GPSImgDirection", rational 0);
      ("GPSMapDatum", VStr "WGS-84");
      ("GPSDestLatitudeRef", VStr "N");
      ("GPSDestLatitude", zero3);
      ("GPSDestLongitudeRef", VStr "E");
      ("GPSDestLongitude", zero3);
      ("GPSDestBearingRef", VStr "M");
      ("GPSDestBearing", rational 0);
      ("GPSDestDistanceRef", VStr "K");
      ("GPSDestDistance", rational 0);
      ("GPSProcessingMethod", VStr "");
      ("GPSAreaInformation", VStr "");
      ("GPSDateStamp", VStr "");
      ("GPSDifferential", VInt 0) ]).

(** The float literals [33.86] and [151.2]: the binary64 numbers nearest
    to 3386/100 and 1512/10. *)
Definition lit_33_86 : spec_float := f_div (to_float 3386) (to_float 100).
Definition lit_151_2 : spec_float := f_div (to_float 1512) (to_float 10).

(* ================================================================== *)
(** * Conversions between [str] and [int] *)

(** [str(z)] for an [int]. *)
Definition string_of_Z (z : Z) : string := NilZero.string_of_int (Z.to_int z).

Definition digit_value (c : ascii) : Z := Z.of_N (code c) - 48.

Fixpoint digits_value_from (acc : Z) (s : string) : Z :=
  match s with
  | "" => acc
  | String c r => digits_value_from (10 * acc + digit_value c) r
  end.

(** The value of a run of decimal digits. *)
Definition digits_value (s : string) : Z := digits_value_from 0 s.

(** The whitespace [int] skips around a literal: the ASCII blanks, and the
    two whitespace characters above U+007F, which it first turns into
    blanks.  The separators U+001C to U+001F, which [str.isspace] accepts,
    are left in place and make the literal invalid. *)
Definition is_int_space (c : ascii) : bool :=
  let n := code c in
  (((9 <=? n) && (n <=? 13)) || (n =? 32) || (n =? 133) || (n =? 160))%N.

Fixpoint lstrip (s : string) : string :=
  match s with
  | String c r => if is_int_space c then lstrip r else s
  | "" => ""
  end.

Fixpoint rstrip (s : string) : string :=
  match s with
  | "" => ""
  | String c r =>
      match rstrip r with
      | "" => if is_int_space c then "" else String c ""
      | r' => String c r'
      end
  end.

Definition strip (s : string) : string := rstrip (lstrip s).

(** Decimal digits, single underscores allowed between two digits. *)
Fixpoint int_literal (acc : Z) (after_digit : bool) (s : string) : option Z :=
  match s with
  | "" => if after_digit then Some acc else None
  | String c r =>
      if is_digit c then int_literal (10 * acc + digit_value c) true r
      else if Ascii.eqb c "_" && after_digit then int_literal acc false r
      else None
  end.

Fixpoint count_digits (s : string) : nat :=
  match s with
  | "" => 0
  | String c r => (if is_digit c then 1 else 0) + count_digits r
  end.

(** [int(s)] for a [str]: surrounding whitespace, an optional sign, a
    decimal literal; [max_str_digits] is the interpreter's limit on the
    number of digits, when it has one. *)
Definition int_of_string (max_str_digits : option nat) (s : string)
  : result Z :=
  let t := strip s in
  let '(negative, body) :=
    match t with
    | String "+" r => (false, r)
    | String "-" r => (true, r)
    | _ => (false, t)
    end in
  match int_literal 0 false body with
  | Some z =>
      match max_str_digits with
      | Some n =>
          if (n <? count_digits body)%nat then Raise ValueError
          else Ok (if negative then - z else z)%Z
      | None => Ok (if negative then - z else z)%Z
      end
  | None => Raise ValueError
  end.

(** [s.lower()] *)
Definition lower_char (c : ascii) : ascii :=
  let n := code c in
  if (((65 <=? n) && (n <=? 90))
      || ((192 <=? n) && (n <=? 222) && negb (n =? 215)))%N
  then ascii_of_N (n + 32) else c.

Fixpoint lower (s : string) : string :=
  match s with
  | "" => ""
  | String c r => String (lower_char c) (lower r)
  end.

(** [f"{n:02d}"] *)
Definition two_digits (n : Z) : string :=
  if ((0 <=? n) && (n <? 10))%Z then "0" ++ string_of_Z n else string_of_Z n.

(* ================================================================== *)
(** * [datetime] *)

Record datetime : Type := mk_datetime
  { year : Z; month : Z; day : Z; hour : Z; minute : Z; second : Z }.

Definition is_leap (y : Z) : bool :=
  (((y mod 4 =? 0) && negb (y mod 100 =? 0)) || (y mod 400 =? 0))%Z.

Definition days_in_month (y m : Z) : Z :=
  if (m =? 2)%Z then (if is_leap y then 29 else 28)%Z
  else if ((m =? 4) || (m =? 6) || (m =? 9) || (m =? 11))%Z then 30%Z
  else 31%Z.

(** [datetime.strptime(date_str, '%Y%m%d')] on a run of eight digits, which
    is what [\d{8}] hands over: four digits of year, two of month, two of
    day, and the date has to exist. *)
Definition strptime_Ymd (date_str : string) : result datetime :=
  let y := digits_value (take 4 date_str) in
  let m := digits_value (take 2 (drop 4 date_str)) in
  let d := digits_value (take 2 (drop 6 date_str)) in
  if ((1 <=? y) && (1 <=? m) && (m <=? 12) && (1 <=? d)
      && (d <=? days_in_month y m))%Z
  then Ok (mk_datetime y m d 0 0 0)
  else Raise ValueError.

(* ================================================================== *)
(** * Files, and what lies outside the two scripts *)

(** What [image._getexif()] returns when it returns a dictionary: tag
    identifiers and their values, in the dictionary's order. *)
Definition exif_tags : Type := list (Z * pyval).

(** What [Image.open] finds in a file: its format, what [_getexif()]
    returns or raises where the class of the image has that method, and
    the rest. *)
Record image : Type := mk_image
  { format : string;
    getexif : result (option exif_tags);
    pixels : string }.

Inductive content : Type :=
| ImageFile (img : image)
| JsonFile (v : pyval)
| OtherFile (data : string).

(** A regular file carries its content and, once [os.utime] has set them,
    its access and modification time. *)
Inductive node : Type :=
| File (c : content) (times : option Z)
| Dir.

(** The directory tree: paths and their nodes, in listing order.  The
    empty path is the current directory. *)
Definition filesystem : Type := list (Path * node).

(** The interpreter, its libraries and the clock: everything the scripts
    call that is not theirs. *)
Class Platform : Type := {
  (** [datetime.now().year] *)
  now_year : Z;
  (** [datetime.fromtimestamp], in the local time zone *)
  fromtimestamp : Z -> result datetime;
  (** [datetime.strptime(v, '%Y:%m:%d %H:%M:%S')] *)
  strptime_exif : pyval -> result datetime;
  (** [PIL.ExifTags.TAGS] *)
  TAGS : Z -> option string;
  (** [str(v)] for floats and containers *)
  py_repr : pyval -> string;
  (** [sys.get_int_max_str_digits()] *)
  max_str_digits : option nat;
  (** the timestamps [os.utime] accepts *)
  utime_accepts : Z -> bool;
  (** [piexif.dump] of the dictionary and [piexif.insert] into a file *)
  piexif_insert : pyval -> content -> result content;
  (** timestamps of the 32-bit era are converted without error *)
  fromtimestamp_32bit :
    forall ts, (0 <= ts < 2 ^ 31)%Z -> exists d, fromtimestamp ts = Ok d
}.

(** Printed lines. *)
Inductive event : Type :=
| ErrorReadingExif (image_path : Path) (e : exn)
| ErrorReadingJson (json_path : Path) (e : exn)
| OutputDirectoryNotFound
| Moved (name : string) (month_folder : Path)
| ErrorMoving (name : string) (e : exn)
| CouldNotGetDate (name : string)
| WarnTimestamp (name : string) (e : exn)
| WarnFileTime (name : string) (e : exn)
| WarnExif (name : string) (e : exn)
| Processed (name new_name : string)
| PeopleInPhoto (names : string)
| SkippingMissingTimestamp (name : string)
| NoJsonFound (name : string)
| ErrorProcessing (name : string) (e : exn).

(** ** The filesystem primitives *)

Fixpoint fs_lookup (fs : filesystem) (p : Path) : option node :=
  match fs with
  | [] => None
  | (q, n) :: r => if path_eqb q p then Some n else fs_lookup r p
  end.

Fixpoint fs_write (fs : filesystem) (p : Path) (n : node) : filesystem :=
  match fs with
  | [] => [(p, n)]
  | (q, m) :: r =>
      if path_eqb q p then (q, n) :: r else (q, m) :: fs_write r p n
  end.

Definition fs_remove (fs : filesystem) (p : Path) : filesystem :=
  filter (fun e => negb (path_eqb (fst e) p)) fs.

Definition is_dir (fs : filesystem) (p : Path) : bool :=
  match p with
  | [] => true
  | _ => match fs_lookup fs p with Some Dir => true | _ => false end
  end.

Definition is_file (fs : filesystem) (p : Path) : bool :=
  match fs_lookup fs p with Some (File _ _) => true | _ => false end.

Definition path_exists (fs : filesystem) (p : Path) : bool :=
  is_dir fs p || is_file fs p.

(** ** Names the system refuses *)

Definition NAME_MAX : nat := 255.
Definition PATH_MAX : nat := 4096.

(** The length of [os.fsencode(s)]. *)
Fixpoint byte_length (s : string) : nat :=
  match s with
  | "" => 0
  | String c r => (if (code c <? 128)%N then 1 else 2) + byte_length r
  end.

Definition has_nul (s : string) : bool :=
  negb (forallb_str (fun c => negb (code c =? 0)%N) s).

Fixpoint joined_bytes (parts : list string) : nat :=
  match parts with
  | [] => 0
  | [s] => byte_length s
  | s :: r => byte_length s + 1 + joined_bytes r
  end.

(** The length of [os.fsencode(p)]. *)
Definition path_bytes (p : Path) : nat :=
  match p with
  | [] => 1
  | "/" :: r => 1 + joined_bytes r
  | _ => joined_bytes p
  end.

(** The walk along a path the filesystem does not hold: the first part
    that is missing decides between "not found" and "name too long"; a
    regular file on the way gives "not a directory". *)
Fixpoint stat_error_from (fs : filesystem) (pre : Path) (rest : list string)
  : option exn :=
  match rest with
  | [] => None
  | x :: r =>
      match fs_lookup fs (pre ++ [x])%list with
      | Some Dir => stat_error_from fs (pre ++ [x])%list r
      | Some (File _ _) => None
      | None => if (NAME_MAX <? byte_length x)%nat then Some OSError else None
      end
  end.

(** [os.stat(p)] for a path the filesystem does not hold: [None] stands
    for the errors [Path.exists] takes for "no" ([ENOENT], [ENOTDIR]). *)
Definition stat_error (fs : filesystem) (p : Path) : option exn :=
  if existsb has_nul p then Some ValueError
  else if (PATH_MAX <=? path_bytes p)%nat then Some OSError
  else stat_error_from fs [] p.

(** [p.exists()] for a path built from data, as pathlib of CPython 3.11
    has it: stat errors other than ENOENT, ENOTDIR, EBADF and ELOOP are
    raised again, so "embedded null byte" counts as "no" and "name too
    long" is raised. *)
Definition py_exists (fs : filesystem) (p : Path) : result bool :=
  if path_exists fs p then Ok true
  else match stat_error fs p with
       | Some ValueError | None => Ok false
       | Some e => Raise e
       end.

(** Creating [p] in a directory that exists. *)
Definition create_error (p : Path) : option exn :=
  if existsb has_nul p then Some ValueError
  else if (PATH_MAX <=? path_bytes p)%nat
          || (NAME_MAX <? byte_length (path_name p))%nat
       then Some OSError
  else None.

(** The entries of a directory. *)
Definition children (fs : filesystem) (dir : Path) : list Path :=
  if is_dir fs dir then
    filter (fun p => match p with
                     | [] => false
                     | _ => path_eqb (path_parent p) dir
                     end)
           (map fst fs)
  else [].

(** [dir.glob("*" + ext)] *)
Definition glob_suffix (fs : filesystem) (dir : Path) (ext : string)
  : list Path :=
  filter (fun p => endswith (path_name p) ext) (children fs dir).

(** The parts of a string used as a relative path. *)
Fixpoint split_slash (s : string) : list string :=
  match s with
  | "" => [""]
  | String c r =>
      if Ascii.eqb c "/" then "" :: split_slash r
      else match split_slash r with
           | h :: t => String c h :: t
           | [] => [String c ""]
           end
  end.

Definition str_parts (s : string) : list string :=
  filter (fun x => negb (String.eqb x "") && negb (String.eqb x "."))
         (split_slash s).

(** A string that is one path part: a plain file or directory name. *)
Definition plain_name (s : string) : bool :=
  forallb_str (fun c => negb (Ascii.eqb c "/")) s
  && negb (String.eqb s "") && negb (String.eqb s ".").

(** [p / s] *)
Definition path_join (p : Path) (s : string) : Path :=
  if startswith s "/" then "/" :: str_parts s else (p ++ str_parts s)%list.

(** [p.mkdir(exist_ok=True)] *)
Definition mkdir_exist_ok (fs : filesystem) (p : Path) : result filesystem :=
  match p with
  | [] => Ok fs
  | _ =>
      match fs_lookup fs p with
      | Some Dir => Ok fs
      | Some (File _ _) => Raise OSError
      | None =>
          match create_error p with
          | Some e => Raise e
          | None =>
              if is_dir fs (path_parent p) then Ok (fs_write fs p Dir)
              else Raise OSError
          end
      end
  end.

Fixpoint prefixes_from (pre p : Path) : list Path :=
  match p with
  | [] => []
  | x :: r => (pre ++ [x])%list :: prefixes_from (pre ++ [x])%list r
  end.

Fixpoint mkdir_all (fs : filesystem) (ps : list Path) : result filesystem :=
  match ps with
  | [] => Ok fs
  | p :: r => fs' <-- mkdir_exist_ok fs p ;; mkdir_all fs' r
  end.

(** [p.mkdir(parents=True, exist_ok=True)] : the first [os.mkdir] is given
    the whole path, which is refused as a whole before anything is made;
    the missing ancestors are then made from the top. *)
Definition mkdir_parents (fs : filesystem) (p : Path) : result filesystem :=
  if existsb has_nul p then Raise ValueError
  else if (PATH_MAX <=? path_bytes p)%nat then Raise OSError
  else mkdir_all fs (prefixes_from [] p).

(** [shutil.copy(src, dst)] : into [dst] when it is a directory; the
    target's name has to be one the system accepts ([os.stat] of a target
    with a NUL raises [ValueError] before the source is looked at), the
    source has to be a regular file, the target's directory has to exist,
    the target must not be the source nor a directory; an existing target
    file is overwritten. *)
Definition shutil_copy (fs : filesystem) (src dst : Path)
  : result filesystem :=
  let dst := if is_dir fs dst then (dst ++ [path_name src])%list else dst in
  if existsb has_nul dst then Raise ValueError
  else
    match fs_lookup fs src with
    | Some (File c _) =>
        if path_eqb src dst then Raise OSError
        else if is_dir fs dst then Raise OSError
        else if is_dir fs (path_parent dst)
             then match create_error dst with
                  | Some e => Raise e
                  | None => Ok (fs_write fs dst (File c None))
                  end
             else Raise OSError
    | _ => Raise OSError
    end.

(** [os.remove(p)] *)
Definition os_remove (fs : filesystem) (p : Path) : result filesystem :=
  if is_file fs p then Ok (fs_remove fs p) else Raise OSError.

(** [shutil.move(src, dst)] of a regular file: into [dst] when it is a
    directory, unless the name is taken there; otherwise [os.rename], or
    copy and unlink where [os.rename] refuses: either way a file already at
    [dst] is replaced.  The archiver, its only caller, moves a listed file
    under its own name into [output/<year>/<month>], a path the system
    accepts whenever it accepted the file. *)
Definition shutil_move (fs : filesystem) (src dst : Path)
  : result filesystem :=
  match fs_lookup fs src with
  | Some (File c t) =>
      if is_dir fs dst then
        let real_dst := (dst ++ [path_name src])%list in
        if path_exists fs real_dst then Raise OSError
        else Ok (fs_remove (fs_write fs real_dst (File c t)) src)
      else if path_eqb src dst then Ok fs
      else if is_dir fs (path_parent dst)
           then Ok (fs_remove (fs_write fs dst (File c t)) src)
           else Raise OSError
  | _ => Raise OSError
  end.

(** [json.load(open(p))] *)
Definition json_load (fs : filesystem) (p : Path) : result pyval :=
  match fs_lookup fs p with
  | Some (File (JsonFile v) _) => Ok v
  | Some (File _ _) => Raise ValueError
  | _ => Raise OSError
  end.

(** [Image.open(p)] *)
Definition image_open (fs : filesystem) (p : Path) : result image :=
  match fs_lookup fs p with
  | Some (File (ImageFile img) _) => Ok img
  | Some _ => Raise OSError
  | None => if existsb has_nul p then Raise ValueError else Raise OSError
  end.

(** [p.with_suffix(suffix)], for the suffixes of the scripts. *)
Definition with_suffix (p : Path) (suffix : string) : result Path :=
  let name := path_name p in
  if String.eqb name "" then Raise ValueError
  else Ok (path_parent p ++ [(name_stem name ++ suffix)%string])%list.

(** [p.with_name(name)] *)
Definition with_name (p : Path) (name : string) : result Path :=
  if String.eqb (path_name p) "" || String.eqb name ""
     || String.eqb name "." || str_in "/" name
  then Raise ValueError
  else Ok (path_parent p ++ [name])%list.

Fixpoint map_result {A B} (f : A -> result B) (l : list A) : result (list B) :=
  match l with
  | [] => Ok []
  | a :: r => b <-- f a ;; bs <-- map_result f r ;; Ok (b :: bs)
  end.

(* ================================================================== *)
(** * Running a script: state and exceptions

    A statement runs in a state (the filesystem, the lines printed so far,
    and the one local variable of [main.py] that survives from one loop
    iteration to the next) and either completes or raises; what it did
    before raising stays done. *)

Record state : Type := mk_state
  { st_fs : filesystem;
    st_out : list event;
    timestamp_int : option Z }.

Definition M (A : Type) : Type := state -> state * result A.

Definition ret {A} (a : A) : M A := fun st => (st, Ok a).

Definition mbind {A B} (m : M A) (f : A -> M B) : M B := fun st =>
  match m st with
  | (st', Ok a) => f a st'
  | (st', Raise e) => (st', Raise e)
  end.

Notation "x <~ m ;; k" := (mbind m (fun x => k))
  (at level 61, m at next level, right associativity).

(** A pure computation that may raise. *)
Definition lift {A} (r : result A) : M A := fun st => (st, r).

(** Reading the filesystem. *)
Definition read {A} (f : filesystem -> result A) : M A :=
  fun st => (st, f (st_fs st)).

(** Changing the filesystem. *)
Definition update (f : filesystem -> result filesystem) : M unit := fun st =>
  match f (st_fs st) with
  | Ok fs' => (mk_state fs' (st_out st) (timestamp_int st), Ok tt)
  | Raise e => (st, Raise e)
  end.

(** [print(...)] *)
Definition emit (ev : event) : M unit := fun st =>
  (mk_state (st_fs st) (st_out st ++ [ev])%list (timestamp_int st), Ok tt).

Definition set_timestamp_int (z : Z) : M unit := fun st =>
  (mk_state (st_fs st) (st_out st) (Some z), Ok tt).

(** Entering [process_photos_and_json]: its local is not bound yet. *)
Definition enter : M unit := fun st =>
  (mk_state (st_fs st) (st_out st) None, Ok tt).

(** Reading a local variable that may not be bound yet. *)
Definition get_timestamp_int : M Z := fun st =>
  match timestamp_int st with
  | Some z => (st, Ok z)
  | None => (st, Raise NameError)
  end.

(** [try: m  except Exception as e: h e] *)
Definition try_except {A} (m : M A) (h : exn -> M A) : M A := fun st =>
  match m st with
  | (st', Raise e) => h e st'
  | r => r
  end.

(** [try: m  except (E1, E2) as e: h e] *)
Definition try_except_only {A} (caught : exn -> bool) (m : M A)
    (h : exn -> M A) : M A := fun st =>
  match m st with
  | (st', Raise e) => if caught e then h e st' else (st', Raise e)
  | r => r
  end.

Fixpoint for_each {A} (l : list A) (body : A -> M unit) : M unit :=
  match l with
  | [] => ret tt
  | a :: r => _ <~ body a ;; for_each r body
  end.

(** [m] deletes no path that satisfies [Q]. *)
Definition keeps (Q : Path -> Prop) {A} (m : M A) : Prop :=
  forall st st' r, m st = (st', r) ->
  forall p, Q p -> fs_lookup (st_fs st) p <> None ->
            fs_lookup (st_fs st') p <> None.

Section Scripts.
Context {P : Platform}.

(** [int(v)] *)
Definition py_int (v : pyval) : result Z :=
  match v with
  | VInt z => Ok z
  | VBool b => Ok (if b then 1 else 0)%Z
  | VFloat f => int_of_float f
  | VStr s => int_of_string max_str_digits s
  | _ => Raise TypeError
  end.

(** [str(v)], also what an f-string inserts. *)
Definition py_str (v : pyval) : string :=
  match v with
  | VStr s => s
  | VInt z => string_of_Z z
  | VBool true => "True"
  | VBool false => "False"
  | VNone => "None"
  | _ => py_repr v
  end.

(* ================================================================== *)
(** * [arrange_photo.py] : the date resolver *)

(** [1900 <= date.year <= datetime.now().year] *)
Definition in_range (date : datetime) : bool :=
  ((1900 <=? year date) && (year date <=? now_year))%Z.

(** [(\d{8})] *)
Definition pat_8_digits : pattern := fun s =>
  '(d, r) <- eat_n is_digit 8 s ;; Some ([d], r).

Definition get_date_from_filename (filename : string) : option datetime :=
  (* Look for date pattern YYYYMMDD in filename *)
  match re_search pat_8_digits filename with
  | Some gs =>
      let date_str := nth 0 gs "" in
      match strptime_Ymd date_str with
      | Ok date =>
          (* Validate the date is reasonable *)
          if in_range date then Some date else None
      | Raise _ => None
      end
  | None => None
  end.

(** [^\d+_] *)
Definition pat_timestamp_prefix : pattern := fun s =>
  '(_, r) <- eat_plus is_digit s ;;
  r <- eat_char "_" r ;;
  Some ([], r).

Definition possible_json_extensions (image_path : Path)
  : result (list Path) :=
  tried <-- map_result (with_suffix image_path)
              [".jpg.json"; ".jpeg.json"; ".png.json"; ".gif.json";
               ".mp4.json"; ".bmp.json"; ".json"] ;;
  (* Also try looking for JSON with the original filename *)
  let original_name :=
    re_sub_anchored pat_timestamp_prefix delete (path_name image_path) in
  original_path <-- with_name image_path original_name ;;
  more <-- map_result (with_suffix original_path) [".json"; ".bmp.json"] ;;
  Ok (tried ++ more)%list.

(** The body of the [try] of [get_date_from_json], for one candidate:
    [Ok (Some date)] is its [return date]. *)
Definition read_json_date (fs : filesystem) (json_path : Path)
  : result (option datetime) :=
  metadata <-- json_load fs json_path ;;
  photo_taken_time <-- py_get metadata "photoTakenTime" (VDict []) ;;
  timestamp <-- py_get photo_taken_time "timestamp" VNone ;;
  if truthy timestamp then
    z <-- py_int timestamp ;;
    date <-- fromtimestamp z ;;
    (* Validate the date is reasonable *)
    if in_range date then Ok (Some date) else Ok None
  else Ok None.

Fixpoint json_candidates_loop (cands : list Path) : M (option datetime) :=
  match cands with
  | [] => ret None
  | json_path :: rest =>
      present <~ read (fun fs => py_exists fs json_path) ;;
      if (present : bool) then
        found <~ try_except (read (fun fs => read_json_date fs json_path))
                   (fun e => _ <~ emit (ErrorReadingJson json_path e) ;;
                             ret None) ;;
        match found with
        | Some date => ret (Some date)
        | None => json_candidates_loop rest
        end
      else json_candidates_loop rest
  end.

Definition get_date_from_json (image_path : Path) : M (option datetime) :=
  cands <~ lift (possible_json_extensions image_path) ;;
  json_candidates_loop cands.

(** [TAGS.get(tag_id, tag_id) == name] : an identifier without a name
    stays a number, which equals no string. *)
Definition tag_is (tag_id : Z) (name : string) : bool :=
  match TAGS tag_id with
  | Some tag => String.eqb tag name
  | None => false
  end.

(** The loop over the tags of the embedded metadata. *)
Fixpoint exif_loop (exif : exif_tags) : result (option datetime) :=
  match exif with
  | [] => Ok None
  | (tag_id, value) :: rest =>
      if tag_is tag_id "DateTimeOriginal" then
        date <-- strptime_exif value ;;
        (* Validate the date is reasonable *)
        if in_range date then Ok (Some date) else exif_loop rest
      else exif_loop rest
  end.

(** [image._getexif()] : a method of the classes Pillow opens JPEG, PNG
    and WEBP files with; the class of TIFF files has none. *)
Definition call_getexif (image : image) : result (option exif_tags) :=
  if String.eqb (format image) "TIFF" then Raise AttributeError
  else getexif image.

(** The body of the [try] of [get_date_taken]. *)
Definition read_exif_date (fs : filesystem) (image_path : Path)
  : result (option datetime) :=
  image <-- image_open fs image_path ;;
  (* Only try to get EXIF data for formats that support it *)
  if String.eqb (format image) "JPEG" || String.eqb (format image) "TIFF"
  then
    exif <-- call_getexif image ;;
    match exif with
    | Some exif => exif_loop exif
    | None => Ok None
    end
  else Ok None.

Definition get_date_taken (image_path : Path) : M (option datetime) :=
  (* First try to get date from EXIF data *)
  exif_date <~ try_except (read (fun fs => read_exif_date fs image_path))
                 (fun e => _ <~ emit (ErrorReadingExif image_path e) ;;
                           ret None) ;;
  match exif_date with
  | Some date => ret (Some date)
  | None =>
      (* If EXIF data is not available or invalid, try JSON *)
      json_date <~ get_date_from_json image_path ;;
      match json_date with
      | Some date => ret (Some date)
      | None =>
          (* If JSON date is not available, try the filename *)
          ret (get_date_from_filename (path_name image_path))
      end
  end.

(* ================================================================== *)
(** * [arrange_photo.py] : the archiver *)

Definition supported_extensions : list string :=
  [".jpg"; ".jpeg"; ".png"; ".gif"; ".bmp"; ".tiff"; ".webp"; ".mp4"].

Definition mem_str (s : string) (l : list string) : bool :=
  existsb (String.eqb s) l.

(** One iteration of the loop of [create_date_folders]. *)
Definition archive_file (output_dir file_path : Path) : M unit :=
  regular <~ read (fun fs => Ok (is_file fs file_path)) ;;
  if (regular : bool) then
    let suffix := lower (path_suffix file_path) in
    (* Skip JSON files and unsupported files *)
    if String.eqb suffix ".json" || negb (mem_str suffix supported_extensions)
    then ret tt
    else
      date_taken <~ get_date_taken file_path ;;
      match date_taken with
      | Some date =>
          let year_folder := path_join output_dir (string_of_Z (year date)) in
          let month_folder := path_join year_folder (two_digits (month date)) in
          _ <~ update (fun fs => mkdir_exist_ok fs year_folder) ;;
          _ <~ update (fun fs => mkdir_exist_ok fs month_folder) ;;
          try_except
            (_ <~ update (fun fs =>
                    shutil_move fs file_path
                      (path_join month_folder (path_name file_path))) ;;
             emit (Moved (path_name file_path) month_folder))
            (fun e => emit (ErrorMoving (path_name file_path) e))
      | None => emit (CouldNotGetDate (path_name file_path))
      end
  else ret tt.

Definition create_date_folders : M unit :=
  let output_dir : Path := ["output"] in
  present <~ read (fun fs => Ok (path_exists fs output_dir)) ;;
  if (present : bool) then
    files <~ read (fun fs => Ok (children fs output_dir)) ;;
    for_each files (archive_file output_dir)
  else emit OutputDirectoryNotFound.

(* ================================================================== *)
(** * [main.py] : the merger *)

Definition media_patterns : list string :=
  [".jpg"; ".png"; ".gif"; ".heic"; ".mp4"; ".mov"; ".bmp"].

(** [[person.get("name", "") for person in people]] : a list is iterated
    over its elements, a dictionary over its keys and a string over its
    characters, neither of which has [get]; anything else is not iterable. *)
Definition get_people_names (people : pyval) : result (list pyval) :=
  match people with
  | VList l | VTuple l =>
      map_result (fun person => py_get person "name" (VStr "")) l
  | VDict [] | VStr "" => Ok []
  | VDict _ | VStr _ => Raise AttributeError
  | _ => Raise TypeError
  end.

(** [', '.join(names)] *)
Fixpoint join_names (names : list pyval) : result string :=
  match names with
  | [] => Ok ""
  | [VStr s] => Ok s
  | VStr s :: rest => t <-- join_names rest ;; Ok (s ++ ", " ++ t)
  | _ => Raise TypeError
  end.

(** Convert timestamp to datetime for file creation time; the formatted
    [creation_time] is never used afterwards, and [strftime] is taken not
    to raise on a date [fromtimestamp] returned. *)
Definition convert_timestamp (media : Path) (timestamp : pyval) : M unit :=
  try_except_only
    (fun e => exn_eqb e ValueError || exn_eqb e TypeError)
    (let timestamp_str := py_str timestamp in
     z <~ lift (int_of_string max_str_digits timestamp_str) ;;
     _ <~ set_timestamp_int z ;;
     _ <~ lift (fromtimestamp z) ;;
     ret tt)
    (fun e => emit (WarnTimestamp (path_name media) e)).

(** [piexif.insert(piexif.dump(exif_dict), str(path))] *)
Definition piexif_dump_insert (exif_dict : pyval) (path : Path)
    (fs : filesystem) : result filesystem :=
  match fs_lookup fs path with
  | Some (File c _) =>
      c' <-- piexif_insert exif_dict c ;;
      Ok (fs_write fs path (File c' None))
  | _ => Raise OSError
  end.

(** [os.utime(path, (t, t))] *)
Definition os_utime (path : Path) (t : Z) (fs : filesystem)
  : result filesystem :=
  if utime_accepts t then
    match fs_lookup fs path with
    | Some (File c _) => Ok (fs_write fs path (File c (Some t)))
    | Some Dir => Ok fs
    | None => Raise OSError
    end
  else Raise OverflowError.

(** If it's a JPEG, add GPS data to EXIF. *)
Definition embed_metadata (media new_media_path : Path)
    (latitude longitude formatted_time : pyval) : M unit :=
  try_except
    (gps <~ lift (get_exif_gps_dict latitude longitude) ;;
     let exif_dict :=
       VDict [ ("GPS", gps);
               ("Exif", VDict [ ("DateTimeOriginal", formatted_time);
                                ("DateTimeDigitized", formatted_time);
                                ("DateTime", formatted_time) ]);
               ("0th", VDict [ ("DateTime", formatted_time);
                               ("DateTimeOriginal", formatted_time);
                               ("DateTimeDigitized", formatted_time) ]) ] in
     _ <~ update (piexif_dump_insert exif_dict new_media_path) ;;
     (* Set file creation time to photo taken time *)
     try_except
       (t <~ get_timestamp_int ;;
        update (os_utime new_media_path t))
       (fun e => emit (WarnFileTime (path_name media) e)))
    (fun e => emit (WarnExif (path_name media) e)).

(** One iteration of the loop of [process_photos_and_json]. *)
Definition process_media (photo_dir output_dir : Path)
    (json_files : list Path) (media : Path) : M unit :=
  try_except
    (match find_json_for_photo media json_files with
     | None => emit (NoJsonFound (path_name media))
     | Some json_file =>
       (* Double check the file exists: a listed path, whose name the
          system accepted; the test answers yes or no *)
       present <~ read (fun fs => Ok (path_exists fs json_file)) ;;
       if (present : bool) then
         metadata <~ read (fun fs => json_load fs json_file) ;;
         (* Get timestamp and GPS coordinates *)
         photo_taken_time <~ lift (py_get metadata "photoTakenTime" (VDict [])) ;;
         timestamp <~ lift (py_get photo_taken_time "timestamp" VNone) ;;
         formatted_time <~ lift (py_get photo_taken_time "formatted" (VStr "")) ;;
         _ <~ (if truthy timestamp then convert_timestamp media timestamp
               else ret tt) ;;
         geo_data <~ lift (py_get metadata "geoData" (VDict [])) ;;
         latitude <~ lift (py_get geo_data "latitude" (VInt 0)) ;;
         longitude <~ lift (py_get geo_data "longitude" (VInt 0)) ;;
         altitude <~ lift (py_get geo_data "altitude" (VInt 0)) ;;
         (* Get people tags *)
         people <~ lift (py_get metadata "people" (VList [])) ;;
         people_names <~ lift (get_people_names people) ;;
         if truthy timestamp then
           let new_name := py_str timestamp ++ "_" ++ path_name media in
           let new_media_path := path_join output_dir new_name in
           (* Copy the file first *)
           _ <~ update (fun fs => shutil_copy fs media new_media_path) ;;
           _ <~ (if mem_str (lower (path_suffix media)) [".jpg"; ".jpeg"]
                 then embed_metadata media new_media_path
                        latitude longitude formatted_time
                 else ret tt) ;;
           (* Copy JSON file *)
           _ <~ update (fun fs =>
                  shutil_copy fs json_file
                    (path_join output_dir (new_name ++ ".json"))) ;;
           (* Delete original files after successful processing *)
           _ <~ update (fun fs => os_remove fs media) ;;
           _ <~ (if path_eqb (path_parent json_file) photo_dir
                 then update (fun fs => os_remove fs json_file)
                 else ret tt) ;;
           _ <~ emit (Processed (path_name media) new_name) ;;
           match people_names with
           | [] => ret tt
           | _ => names <~ lift (join_names people_names) ;;
                  emit (PeopleInPhoto names)
           end
         else emit (SkippingMissingTimestamp (path_name media))
       else emit (NoJsonFound (path_name media))
     end)
    (fun e => emit (ErrorProcessing (path_name media) e)).

Definition process_photos_and_json (photo_dir json_dir output_dir : Path)
  : M unit :=
  _ <~ enter ;;
  _ <~ update (fun fs => mkdir_parents fs output_dir) ;;
  media_files <~ read (fun fs =>
    Ok (flat_map (glob_suffix fs photo_dir) media_patterns)) ;;
  (* Get JSON files from both source and output directories *)
  json_files <~ read (fun fs =>
    Ok (filter (path_exists fs)
          (glob_suffix fs json_dir ".json"
           ++ glob_suffix fs output_dir ".json")%list)) ;;
  for_each media_files (process_media photo_dir output_dir json_files).

End Scripts.

(** The date a sidecar's [photoTakenTime.timestamp] decodes to, before
    any validation of its range: what the statements about sidecar dates
    speak of. *)
Definition decoded_sidecar_date {P : Platform} (fs : filesystem)
    (json_path : Path) : result (option datetime) :=
  metadata <-- json_load fs json_path ;;
  photo_taken_time <-- py_get metadata "photoTakenTime" (VDict []) ;;
  timestamp <-- py_get photo_taken_time "timestamp" VNone ;;
  if truthy timestamp then
    z <-- py_int timestamp ;;
    date <-- fromtimestamp z ;;
    Ok (Some date)
  else Ok None.

(* ================================================================== *)
(** * A platform to evaluate the model on

    UTC as the local time zone, 2025 as the current year, a [strptime]
    for the zero-padded form [YYYY:MM:DD HH:MM:SS], the one tag of
    [PIL.ExifTags.TAGS] the resolver looks for, and a [piexif] that rejects
    the dictionary the merger builds (its keys are names, not tag
    numbers). *)

(** Days since 1970-01-01 to a civil date. *)
Definition civil_from_days (days : Z) : Z * Z * Z :=
  (let z := days + 719468 in
   let era := z / 146097 in
   let doe := z - era * 146097 in
   let yoe := (doe - doe / 1460 + doe / 36524 - doe / 146096) / 365 in
   let y := yoe + era * 400 in
   let doy := doe - (365 * yoe + yoe / 4 - yoe / 100) in
   let mp := (5 * doy + 2) / 153 in
   let d := doy - (153 * mp + 2) / 5 + 1 in
   let m := if mp <? 10 then mp + 3 else mp - 9 in
   (if m <=? 2 then y + 1 else y, m, d))%Z.

Definition utc_fromtimestamp (ts : Z) : result datetime :=
  (if (ts <? -62135596800) || (253402300799 <? ts) then Raise ValueError
   else
     let '(y, m, d) := civil_from_days (ts / 86400) in
     let s := ts mod 86400 in
     Ok (mk_datetime y m d (s / 3600) (s mod 3600 / 60) (s mod 60)))%Z.

(** [(\d{4}):(\d{2}):(\d{2}) (\d{2}):(\d{2}):(\d{2})] *)
Definition pat_exif_datetime : pattern := fun s =>
  '(g1, r) <- eat_n is_digit 4 s ;;
  r <- eat_char ":" r ;;
  '(g2, r) <- eat_n is_digit 2 r ;;
  r <- eat_char ":" r ;;
  '(g3, r) <- eat_n is_digit 2 r ;;
  r <- eat_char " " r ;;
  '(g4, r) <- eat_n is_digit 2 r ;;
  r <- eat_char ":" r ;;
  '(g5, r) <- eat_n is_digit 2 r ;;
  r <- eat_char ":" r ;;
  '(g6, r) <- eat_n is_digit 2 r ;;
  Some ([g1; g2; g3; g4; g5; g6], r).

Definition strict_strptime_exif (v : pyval) : result datetime :=
  match v with
  | VStr s =>
      match pat_exif_datetime s with
      | Some ([g1; g2; g3; g4; g5; g6], "") =>
          let y := digits_value g1 in
          let m := digits_value g2 in
          let d := digits_value g3 in
          let hh := digits_value g4 in
          let mm := digits_value g5 in
          let ss := digits_value g6 in
          if ((1 <=? y) && (1 <=? m) && (m <=? 12) && (1 <=? d)
              && (d <=? days_in_month y m) && (hh <=? 23) && (mm <=? 59)
              && (ss <=? 59))%Z
          then Ok (mk_datetime y m d hh mm ss)
          else Raise ValueError
      | _ => Raise ValueError
      end
  | _ => Raise TypeError
  end.

Definition sample_TAGS (tag_id : Z) : option string :=
  if (tag_id =? 36867)%Z then Some "DateTimeOriginal"
  else if (tag_id =? 36868)%Z then Some "DateTimeDigitized"
  else if (tag_id =? 306)%Z then Some "DateTime"
  else None.

#[local] Instance sample_platform : Platform.
Proof.
  refine
    {| now_year := 2025;
       fromtimestamp := utc_fromtimestamp;
       strptime_exif := strict_strptime_exif;
       TAGS := sample_TAGS;
       py_repr := fun _ => "<repr>";
       max_str_digits := Some 4300%nat;
       utime_accepts := fun t => ((- 2 ^ 63 <=? t) && (t <? 2 ^ 63))%Z;
       piexif_insert := fun _ _ => Raise TypeError;
       fromtimestamp_32bit := _ |}.
  intros ts [H0 H1]. unfold utc_fromtimestamp.
  assert (H2 : (2 ^ 31 = 2147483648)%Z) by reflexivity. rewrite H2 in H1.
  destruct (Z.ltb_spec ts (-62135596800)%Z); [lia|].
  destruct (Z.ltb_spec 253402300799%Z ts); [lia|].
  cbn [orb]. destruct (civil_from_days (ts / 86400)) as [[y m] d].
  eexists. reflexivity.
Defined.

(* ================================================================== *)
(** * Example inputs *)

Definition json_with_timestamp (timestamp : pyval) : content :=
  JsonFile (VDict [("photoTakenTime", VDict [("timestamp", timestamp)])]).

Definition picture (fmt : string) (exif : option exif_tags) : content :=
  ImageFile (mk_image fmt (Ok exif) "pixels").

(** A picture taken in 2015 according to its embedded metadata, next to a
    sidecar that says 2001. *)
Definition embedded_2015 : exif_tags :=
  [(271%Z, VStr "Camera"); (36867%Z, VStr "2015:06:01 12:30:05")].

Definition resolver_fs (name fmt : string) : filesystem :=
  [ (["output"], Dir);
    (["output"; name], File (picture fmt (Some embedded_2015)) None);
    (["output"; "pic.json"], File (json_with_timestamp (VStr "1000000000")) None) ].

(** A picture named after its date, with a sidecar from 1850. *)
Definition sidecar_1850_fs : filesystem :=
  [ (["output"], Dir);
    (["output"; "IMG_20190314.png"], File (picture "PNG" None) None);
    (["output"; "IMG_20190314.json"],
     File (json_with_timestamp (VInt (-3786825600))) None) ].

(** A picture named after a day of 2019 whose name has 251 bytes, next to
    its sidecar. *)
Fixpoint repeat_char (c : ascii) (n : nat) : string :=
  match n with
  | O => ""
  | S k => String c (repeat_char c k)
  end.



(** A second run of the archiver: the month folder already holds a file
    of the same name. *)
Definition rerun_fs : filesystem :=
  [ (["output"], Dir);
    (["output"; "IMG_20190314.png"], File (picture "PNG" None) None);
    (["output"; "2019"], Dir);
    (["output"; "2019"; "03"], Dir);
    (["output"; "2019"; "03"; "IMG_20190314.png"], File (OtherFile "old") None) ].

(** The export of the end-to-end scenario. *)
Definition export_fs (timestamp : pyval) : filesystem :=
  [ (["Photos"], Dir);
    (["Photos"; "photo.jpg"], File (picture "JPEG" None) None);
    (["Photos"; "photo.json"], File (json_with_timestamp timestamp) None) ].

Definition start (fs : filesystem) : state := mk_state fs [] None.

(* ================================================================== *)
(** * What a statement prints *)

(** [m] only adds lines to the output. *)
Definition appends {A} (m : M A) : Prop :=
  forall st st' r, m st = (st', r) ->
  exists evs, st_out st' = (st_out st ++ evs)%list.


(* ================================================================== *)
(** * The model on the examples of the specification *)

Example normalize_human_date :
  normalize_filename "2015-06-01 12.30.05 (2)_p" = "20150601_123005".
Proof. reflexivity. Qed.

Example normalize_trailing_underscores :
  normalize_filename "IMG_0001(1)__" = "IMG_0001".
Proof. reflexivity. Qed.

Example matcher_date_token :
  first_success (ladder ["Photos"; "20210615_143000.mp4"]
                   [["Photos"; "VID_20210615_143000_export.json"]])
  = Some (4, ["Photos"; "VID_20210615_143000_export.json"]).
Proof. reflexivity. Qed.

Example matcher_no_candidate :
  find_json_for_photo ["Photos"; "holiday.jpg"] [["Photos"; "work.json"]]
  = None.
Proof. reflexivity. Qed.

Example filename_date :
  get_date_from_filename (P := sample_platform) "IMG_20190314_101500.jpg"
  = Some (mk_datetime 2019 3 14 0 0 0).
Proof. reflexivity. Qed.

Example filename_date_impossible :
  get_date_from_filename (P := sample_platform) "IMG_20190230.jpg" = None.
Proof. reflexivity. Qed.

Example epoch_to_date :
  utc_fromtimestamp 1000000000 = Ok (mk_datetime 2001 9 9 1 46 40).
Proof. reflexivity. Qed.

Example int_skips_blanks_only :
  int_of_string None (String (ascii_of_N 160) " 1_000 ") = Ok 1000%Z /\
  int_of_string None (String (ascii_of_N 28) "5") = Raise ValueError /\
  is_space (ascii_of_N 28) = true.
Proof. repeat split. Qed.

Example exists_refuses_long_names :
  py_exists [(["output"], Dir)] ["output"; repeat_char "a" 255] = Ok false /\
  py_exists [(["output"], Dir)] ["output"; repeat_char "a" 256]
  = Raise OSError /\
  py_exists [(["output"], Dir)] ["missing"; repeat_char "a" 256] = Ok false /\
  py_exists [(["output"], Dir)] ["output"; String (ascii_of_N 0) "a"]
  = Ok false.
Proof. vm_compute. repeat split. Qed.

Example copy_refuses_names :
  shutil_copy (export_fs VNone) ["Photos"; "photo.jpg"]
    ["Photos"; String (ascii_of_N 0) "a"] = Raise ValueError /\
  shutil_copy (export_fs VNone) ["Photos"; "photo.jpg"]
    ["Photos"; repeat_char "a" 256] = Raise OSError /\
  shutil_copy (export_fs VNone) ["Photos"; "missing.jpg"]
    ["Photos"; String (ascii_of_N 0) "a"] = Raise ValueError.
Proof. vm_compute. repeat split. Qed.

Example archiver_first_run :
  st_fs (fst (create_date_folders (P := sample_platform)
                (start [ (["output"], Dir);
                         (["output"; "IMG_20190314.png"],
                          File (picture "PNG" None) None) ])))
  = [ (["output"], Dir);
      (["output"; "2019"], Dir);
      (["output"; "2019"; "03"], Dir);
      (["output"; "2019"; "03"; "IMG_20190314.png"],
       File (picture "PNG" None) None) ].
Proof. reflexivity. Qed.

(* ================================================================== *)
(** * Properties of the regular-expression fragment *)

Lemma suffix_of_refl s : suffix_of s s.
Proof. now exists "". Qed.

Lemma suffix_of_cons c r s : suffix_of r s -> suffix_of r (String c s).
Proof. intros [pre ->]. now exists (String c pre). Qed.

Lemma suffix_of_trans a b c : suffix_of a b -> suffix_of b c -> suffix_of a c.
Proof.
  intros [p ->] [q ->]. exists (q ++ p).
  induction q as [|x q IH]; simpl; [reflexivity | now rewrite IH].
Qed.

Lemma string_length_app (a b : string) :
  String.length (a ++ b) = String.length a + String.length b.
Proof. induction a as [|c a IH]; simpl; [reflexivity | now rewrite IH]. Qed.

Lemma suffix_of_length r s : suffix_of r s -> String.length r <= String.length s.
Proof. intros [pre ->]. rewrite string_length_app. lia. Qed.

Lemma forallb_str_app f a b :
  forallb_str f (a ++ b) = forallb_str f a && forallb_str f b.
Proof.
  induction a as [|c a IH]; simpl; [reflexivity|].
  rewrite IH. now rewrite andb_assoc.
Qed.

Lemma forallb_str_suffix f r s :
  suffix_of r s -> forallb_str f s = true -> forallb_str f r = true.
Proof.
  intros [pre ->]. rewrite forallb_str_app.
  intros H. now apply andb_true_iff in H.
Qed.

(** What the elementary matchers consume. *)

Lemma eat_char_spec c s r : eat_char c s = Some r -> s = String c r.
Proof.
  destruct s as [|a s]; simpl; [discriminate|].
  destruct (Ascii.eqb a c) eqn:E; [|discriminate].
  apply Ascii.eqb_eq in E. now intros [= ->]; subst.
Qed.

Lemma eat_lit_spec lit : forall s r, eat_lit lit s = Some r -> s = lit ++ r.
Proof.
  induction lit as [|c l IH]; simpl; intros s r H.
  - now injection H as ->.
  - destruct (eat_char c s) as [r0|] eqn:E; simpl in H; [|discriminate].
    apply eat_char_spec in E. subst s. now rewrite (IH _ _ H).
Qed.

Lemma eat_lit_app lit : forall r, eat_lit lit (lit ++ r) = Some r.
Proof.
  induction lit as [|c l IH]; simpl; intros r; [reflexivity|].
  rewrite Ascii.eqb_refl. simpl. apply IH.
Qed.

Lemma eat_n_spec cls n : forall s g r,
  eat_n cls n s = Some (g, r) ->
  s = g ++ r /\ String.length g = n /\ forallb_str cls g = true.
Proof.
  induction n as [|n IH]; simpl; intros s g r H.
  - injection H as <- <-. now repeat split.
  - destruct s as [|c s]; [discriminate|].
    destruct (cls c) eqn:Ec; [|discriminate].
    destruct (eat_n cls n s) as [[t r']|] eqn:E; simpl in H; [|discriminate].
    injection H as <- <-. destruct (IH _ _ _ E) as (-> & <- & Hf).
    simpl. rewrite Ec, Hf. now repeat split.
Qed.

Lemma eat_star_spec cls : forall s g r,
  eat_star cls s = (g, r) -> s = g ++ r /\ forallb_str cls g = true.
Proof.
  induction s as [|c s IH]; simpl; intros g r H.
  - injection H as <- <-. now split.
  - destruct (cls c) eqn:Ec.
    + destruct (eat_star cls s) as [t r'] eqn:E. injection H as <- <-.
      destruct (IH _ _ eq_refl) as (-> & Hf). simpl. rewrite Ec, Hf. now split.
    + injection H as <- <-. now split.
Qed.

Lemma eat_plus_spec cls s g r :
  eat_plus cls s = Some (g, r) ->
  s = g ++ r /\ forallb_str cls g = true /\
  exists c g', g = String c g' /\ cls c = true.
Proof.
  unfold eat_plus. destruct (eat_star cls s) as [t r'] eqn:E.
  apply eat_star_spec in E. destruct E as (-> & Hf).
  destruct t as [|c t]; [discriminate|]. intros [= <- <-].
  repeat split; trivial.
  simpl in Hf. apply andb_true_iff in Hf. exists c, t. now split.
Qed.

Lemma eat_plus_none cls c r : cls c = false -> eat_plus cls (String c r) = None.
Proof. intros H. unfold eat_plus. simpl. now rewrite H. Qed.

(** ** [re.sub] and [re.search] *)

(** Where the pattern matches nowhere, [re.sub] returns its input. *)
Lemma re_sub_no_match p repl : forall s,
  re_search p s = None -> re_sub p repl s = s.
Proof.
  unfold re_sub. induction s as [|c s IH]; simpl; intros H; [reflexivity|].
  destruct (p (String c s)) as [[gs rest]|]; [discriminate|].
  now rewrite (IH H).
Qed.

(** Deleting matches never lengthens the string. *)
Lemma re_sub_delete_length p : forall s k,
  String.length (re_sub_skip p delete k s) <= String.length s - k.
Proof.
  induction s as [|c s IH]; simpl; intros k; [lia|].
  destruct k as [|k].
  - destruct (p (String c s)) as [[gs rest]|]; simpl.
    + specialize (IH (String.length (String c s) - String.length rest - 1)).
      simpl in *. lia.
    + specialize (IH 0). lia.
  - apply IH.
Qed.

(** ... and shortens it as soon as there is one (non-empty) match. *)
Lemma re_sub_delete_shorter p :
  (forall t gs rest, p t = Some (gs, rest) ->
     String.length rest < String.length t) ->
  forall s, re_search p s <> None ->
    String.length (re_sub p delete s) < String.length s.
Proof.
  intros Hp. unfold re_sub. induction s as [|c s IH]; simpl; intros H.
  - destruct (p "") as [[gs rest]|] eqn:E; [|congruence].
    apply Hp in E. simpl in E. lia.
  - destruct (p (String c s)) as [[gs rest]|] eqn:E;
      [change (delete gs) with ""|]; simpl.
    + pose proof (re_sub_delete_length p s
                   (String.length (String c s) - String.length rest - 1)).
      simpl in *. lia.
    + specialize (IH H). lia.
Qed.

(** Deleting matches keeps every property of all characters. *)
Lemma re_sub_delete_forallb p f : forall s k,
  forallb_str f s = true -> forallb_str f (re_sub_skip p delete k s) = true.
Proof.
  induction s as [|c s IH]; simpl; intros k H; [reflexivity|].
  apply andb_true_iff in H. destruct H as [Hc Hs].
  destruct k as [|k]; [|now apply IH].
  destruct (p (String c s)) as [[gs rest]|]; simpl.
  - now apply IH.
  - rewrite Hc. now apply IH.
Qed.

Lemma re_sub_skip_all p repl : forall s k,
  String.length s <= k -> re_sub_skip p repl k s = "".
Proof.
  induction s as [|c s IH]; simpl; intros k H; [reflexivity|].
  destruct k as [|k]; [lia|]. apply IH. lia.
Qed.

(** ** What the normalizer's patterns consume *)

Lemma at_end_no_space r : at_end r = true -> no_space r = true -> r = "".
Proof.
  destruct r as [|c [|d r]]; simpl; try discriminate; trivial.
  intros E. apply Ascii.eqb_eq in E. subst c. discriminate.
Qed.

Lemma pat_numbering_consumes t gs rest :
  pat_numbering t = Some (gs, rest) -> String.length rest < String.length t.
Proof.
  unfold pat_numbering. intros H.
  destruct (eat_char "(" t) as [r1|] eqn:E1; simpl in H; [|discriminate].
  apply eat_char_spec in E1. subst t.
  destruct (eat_plus is_digit r1) as [[g r2]|] eqn:E2; simpl in H; [|discriminate].
  apply eat_plus_spec in E2. destruct E2 as (-> & _ & _).
  destruct (eat_char ")" r2) as [r3|] eqn:E3; simpl in H; [|discriminate].
  apply eat_char_spec in E3. subst r2. injection H as _ <-.
  simpl. rewrite string_length_app. simpl. lia.
Qed.

Lemma pat_lit_end_spec lit t gs rest :
  pat_lit_end lit t = Some (gs, rest) -> t = lit ++ rest /\ at_end rest = true.
Proof.
  unfold pat_lit_end. intros H.
  destruct (eat_lit lit t) as [r|] eqn:E; simpl in H; [|discriminate].
  apply eat_lit_spec in E.
  destruct (at_end r) eqn:Ea; [|discriminate]. injection H as _ <-. now split.
Qed.

Lemma pat_lit_end_consumes c lit t gs rest :
  pat_lit_end (String c lit) t = Some (gs, rest) ->
  String.length rest < String.length t.
Proof.
  intros H. apply pat_lit_end_spec in H. destruct H as [-> _].
  simpl. rewrite string_length_app. lia.
Qed.

Lemma app_empty_r (s : string) : s ++ "" = s.
Proof. induction s as [|c s IH]; simpl; [reflexivity | now rewrite IH]. Qed.

Lemma pat_lit_end_self lit : pat_lit_end lit lit = Some ([], "").
Proof.
  unfold pat_lit_end.
  pose proof (eat_lit_app lit "") as H. rewrite app_empty_r in H.
  now rewrite H.
Qed.

(** On a string without whitespace, [lit$] matches somewhere exactly when
    the string ends with [lit]. *)
Lemma search_lit_end_none lit : forall s,
  no_space s = true -> endswith s lit = false ->
  re_search (pat_lit_end lit) s = None.
Proof.
  assert (Hhere : forall t, no_space t = true -> String.eqb t lit = false ->
                            pat_lit_end lit t = None).
  { intros t Hs Hne. destruct (pat_lit_end lit t) as [[gs rest]|] eqn:E; trivial.
    apply pat_lit_end_spec in E. destruct E as [-> Ha].
    assert (rest = "") as ->.
    { apply at_end_no_space; trivial.
      apply (forallb_str_suffix _ rest (lit ++ rest)); trivial. now exists lit. }
    rewrite app_empty_r, String.eqb_refl in Hne. discriminate. }
  induction s as [|c s IH]; intros Hs He; cbn [endswith] in He;
    apply orb_false_iff in He; destruct He as [He1 He2]; cbn [re_search].
  - now rewrite (Hhere "" Hs He1).
  - rewrite (Hhere _ Hs He1). apply IH; trivial.
    unfold no_space in *. simpl in Hs. now apply andb_true_iff in Hs.
Qed.

Lemma search_lit_end_some lit : forall s,
  endswith s lit = true -> re_search (pat_lit_end lit) s <> None.
Proof.
  induction s as [|c s IH]; cbn [endswith re_search]; intros H.
  - rewrite orb_false_r in H. apply String.eqb_eq in H. subst lit. discriminate.
  - destruct (pat_lit_end lit (String c s)) as [[gs rest]|] eqn:E; [discriminate|].
    apply orb_true_iff in H. destruct H as [H|H]; [|now apply IH].
    apply String.eqb_eq in H. subst lit. rewrite pat_lit_end_self in E. discriminate.
Qed.

Lemma pat_human_date_space t gs rest :
  pat_human_date t = Some (gs, rest) -> no_space t = false.
Proof.
  unfold pat_human_date. intros H.
  destruct (eat_n is_digit 4 t) as [[g1 r1]|] eqn:E1; cbn [bind] in H; [|discriminate].
  destruct (eat_char "-" r1) as [r2|] eqn:E2; cbn [bind] in H; [|discriminate].
  destruct (eat_n is_digit 2 r2) as [[g2 r3]|] eqn:E3; cbn [bind] in H; [|discriminate].
  destruct (eat_char "-" r3) as [r4|] eqn:E4; cbn [bind] in H; [|discriminate].
  destruct (eat_n is_digit 2 r4) as [[g3 r5]|] eqn:E5; cbn [bind] in H; [|discriminate].
  destruct (eat_plus is_space r5) as [[g4 r6]|] eqn:E6; cbn [bind] in H; [|discriminate].
  clear H.
  apply eat_n_spec in E1, E3, E5. apply eat_char_spec in E2, E4.
  apply eat_plus_spec in E6.
  destruct E1 as (-> & _), E3 as (-> & _), E5 as (-> & _).
  destruct E6 as (-> & _ & c & g' & -> & Hc). subst r1 r3.
  destruct (no_space _) eqn:Hs; trivial. exfalso.
  assert (Hsuf : suffix_of (String c g' ++ r6)
            (g1 ++ String "-" (g2 ++ String "-" (g3 ++ String c g' ++ r6)))).
  { eapply suffix_of_trans; [|exists g1; reflexivity].
    apply suffix_of_cons.
    eapply suffix_of_trans; [|exists g2; reflexivity].
    apply suffix_of_cons. now exists g3. }
  apply (forallb_str_suffix _ _ _ Hsuf) in Hs. simpl in Hs. now rewrite Hc in Hs.
Qed.

Lemma search_human_date_none : forall s,
  no_space s = true -> re_search pat_human_date s = None.
Proof.
  induction s as [|c s IH]; intros Hs; simpl.
  - reflexivity.
  - destruct (pat_human_date (String c s)) as [[gs rest]|] eqn:E.
    + apply pat_human_date_space in E. congruence.
    + apply IH. unfold no_space in *. simpl in Hs. now apply andb_true_iff in Hs.
Qed.

Lemma pat_spaces_none c s : pat_spaces (String c s) = None -> is_space c = false.
Proof.
  unfold pat_spaces, eat_plus. simpl. destruct (is_space c); trivial.
  destruct (eat_star is_space s). simpl. discriminate.
Qed.

Lemma pat_dot_none c s : pat_dot (String c s) = None -> Ascii.eqb c "." = false.
Proof. unfold pat_dot. simpl. destruct (Ascii.eqb c "."); trivial. discriminate. Qed.

(** After [re.sub(r"\s+", "", _)] no whitespace is left, *)
Lemma sub_spaces_no_space : forall s k,
  no_space (re_sub_skip pat_spaces delete k s) = true.
Proof.
  induction s as [|c s IH]; simpl; intros k; [reflexivity|].
  destruct k as [|k]; [|apply IH].
  destruct (pat_spaces (String c s)) as [[gs rest]|] eqn:E.
  - apply IH.
  - apply pat_spaces_none in E. unfold no_space in *. simpl. now rewrite E, IH.
Qed.

(** and after [re.sub(r"\.", "", _)] no dot. *)
Lemma sub_dot_no_dot : forall s k,
  no_dot (re_sub_skip pat_dot delete k s) = true.
Proof.
  induction s as [|c s IH]; simpl; intros k; [reflexivity|].
  destruct k as [|k]; [|apply IH].
  destruct (pat_dot (String c s)) as [[gs rest]|] eqn:E.
  - apply IH.
  - apply pat_dot_none in E. unfold no_dot in *. simpl. now rewrite E, IH.
Qed.

Lemma search_spaces_none : forall s,
  no_space s = true -> re_search pat_spaces s = None.
Proof.
  induction s as [|c s IH]; intros Hs; simpl; [reflexivity|].
  unfold no_space in *. simpl in Hs. apply andb_true_iff in Hs.
  destruct Hs as [Hc Hs]. apply negb_true_iff in Hc.
  unfold pat_spaces at 1. rewrite (eat_plus_none _ _ _ Hc). simpl. now apply IH.
Qed.

Lemma search_dot_none : forall s,
  no_dot s = true -> re_search pat_dot s = None.
Proof.
  induction s as [|c s IH]; intros Hs; simpl; [reflexivity|].
  unfold no_dot in *. simpl in Hs. apply andb_true_iff in Hs.
  destruct Hs as [Hc Hs]. apply negb_true_iff in Hc.
  unfold pat_dot at 1. simpl. rewrite Hc. simpl. now apply IH.
Qed.

Lemma pat_underscores_end_spec t gs rest :
  pat_underscores_end t = Some (gs, rest) ->
  exists c g, t = String c g ++ rest /\
              forallb_str (Ascii.eqb "_") (String c g) = true /\
              at_end rest = true.
Proof.
  unfold pat_underscores_end. intros H.
  destruct (eat_plus (Ascii.eqb "_") t) as [[g r]|] eqn:E; cbn [bind] in H;
    [|discriminate].
  destruct (at_end r) eqn:Ea; [|discriminate]. injection H as _ <-.
  apply eat_plus_spec in E. destruct E as (-> & Hf & c & g' & -> & _).
  now exists c, g'.
Qed.

Lemma last_char_underscores : forall g c,
  forallb_str (Ascii.eqb "_") (String c g) = true ->
  last_char (String c g) = Some "_"%char.
Proof.
  induction g as [|d g IH]; intros c H.
  - cbn [forallb_str] in H. rewrite andb_true_r in H.
    apply Ascii.eqb_eq in H. now subst c.
  - change (last_char (String c (String d g))) with (last_char (String d g)).
    apply IH. cbn [forallb_str] in H. now apply andb_true_iff in H.
Qed.

Lemma pat_underscores_end_cons r :
  pat_underscores_end r <> None ->
  pat_underscores_end (String "_" r) <> None.
Proof.
  unfold pat_underscores_end, eat_plus. simpl.
  destruct (eat_star (Ascii.eqb "_") r) as [t r'].
  destruct t as [|c t]; cbn [bind]; [congruence|].
  destruct (at_end r'); congruence.
Qed.

Lemma re_sub_delete_empty p r :
  re_sub_skip p delete 0 r = "" -> r = "" \/ p r <> None.
Proof.
  destruct r as [|c r]; [now left|right]. simpl in H.
  destruct (p (String c r)); [discriminate|]. discriminate.
Qed.

Lemma no_space_tail c s : no_space (String c s) = true -> no_space s = true.
Proof. unfold no_space. simpl. intros H. now apply andb_true_iff in H. Qed.

Lemma no_trailing_underscore_tail c s :
  no_trailing_underscore (String c s) = true ->
  no_trailing_underscore s = true.
Proof. destruct s as [|d s]; [reflexivity | trivial]. Qed.

(** After [re.sub(r"_+$", "", _)] on a string without whitespace, the
    result does not end with an underscore. *)
Lemma sub_underscores_no_trailing : forall s,
  no_space s = true ->
  no_trailing_underscore (re_sub pat_underscores_end delete s) = true.
Proof.
  unfold re_sub. induction s as [|c s IH]; intros Hs; [reflexivity|].
  cbn [re_sub_skip].
  destruct (pat_underscores_end (String c s)) as [[gs rest]|] eqn:E.
  - destruct (pat_underscores_end_spec _ _ _ E) as (a & g & Ht & _ & Ha).
    assert (rest = "") as ->.
    { apply at_end_no_space; trivial.
      apply (forallb_str_suffix _ rest (String c s)); trivial.
      exists (String a g). exact Ht. }
    rewrite re_sub_skip_all; [reflexivity | simpl; lia].
  - specialize (IH (no_space_tail _ _ Hs)).
    destruct (re_sub_skip pat_underscores_end delete 0 s) as [|d res] eqn:R.
    + unfold no_trailing_underscore. simpl.
      destruct (Ascii.eqb c "_") eqn:Ec; trivial. exfalso.
      apply Ascii.eqb_eq in Ec. subst c.
      destruct (re_sub_delete_empty _ _ R) as [-> | Hm].
      * discriminate.
      * now apply pat_underscores_end_cons in Hm.
    + exact IH.
Qed.

Lemma search_underscores_none : forall s,
  no_space s = true -> no_trailing_underscore s = true ->
  re_search pat_underscores_end s = None.
Proof.
  induction s as [|c s IH]; intros Hs Ht; [reflexivity|].
  cbn [re_search].
  destruct (pat_underscores_end (String c s)) as [[gs rest]|] eqn:E.
  - exfalso.
    destruct (pat_underscores_end_spec _ _ _ E) as (a & g & Heq & Hf & Ha).
    assert (rest = "") as ->.
    { apply at_end_no_space; trivial.
      apply (forallb_str_suffix _ rest (String c s)); trivial.
      exists (String a g). exact Heq. }
    rewrite app_empty_r in Heq. rewrite Heq in Ht.
    unfold no_trailing_underscore in Ht.
    rewrite (last_char_underscores _ _ Hf) in Ht. discriminate.
  - apply IH; [exact (no_space_tail _ _ Hs)|].
    exact (no_trailing_underscore_tail _ _ Ht).
Qed.

(** ** The normalizer's output *)

Lemma normalize_output x :
  no_space (normalize_filename x) = true /\
  no_dot (normalize_filename x) = true /\
  no_trailing_underscore (normalize_filename x) = true.
Proof.
  unfold normalize_filename, re_sub.
  set (z := re_sub_skip pat_human_date _ 0 _).
  assert (H5 : no_space (re_sub_skip pat_spaces delete 0 z) = true)
    by apply sub_spaces_no_space.
  assert (H6 : no_space (re_sub_skip pat_dot delete 0
                           (re_sub_skip pat_spaces delete 0 z)) = true)
    by (now apply re_sub_delete_forallb).
  repeat split.
  - now apply re_sub_delete_forallb.
  - apply re_sub_delete_forallb. apply sub_dot_no_dot.
  - now apply sub_underscores_no_trailing.
Qed.

(** A string that is settled, has no whitespace, no dot and no trailing
    underscore is a fixed point of the normalizer. *)
Lemma normalize_fixed y :
  no_space y = true -> no_dot y = true -> no_trailing_underscore y = true ->
  settled y = true -> normalize_filename y = y.
Proof.
  intros Hs Hd Hu Hn. unfold settled, has_numbering in Hn.
  apply andb_true_iff in Hn. destruct Hn as [Hn Hp].
  apply andb_true_iff in Hn. destruct Hn as [Hn He].
  apply negb_true_iff in Hp, He.
  destruct (re_search pat_numbering y) eqn:E1; [discriminate|].
  unfold normalize_filename.
  rewrite (re_sub_no_match _ _ _ E1).
  rewrite (re_sub_no_match _ _ _ (search_lit_end_none _ _ Hs He)).
  rewrite (re_sub_no_match _ _ _ (search_lit_end_none _ _ Hs Hp)).
  rewrite (re_sub_no_match _ _ _ (search_human_date_none _ Hs)).
  rewrite (re_sub_no_match _ _ _ (search_spaces_none _ Hs)).
  rewrite (re_sub_no_match _ _ _ (search_dot_none _ Hd)).
  now rewrite (re_sub_no_match _ _ _ (search_underscores_none _ Hs Hu)).
Qed.

(** A string without whitespace that is not settled gets shorter. *)
Lemma normalize_shrinks y :
  no_space y = true -> settled y = false ->
  String.length (normalize_filename y) < String.length y.
Proof.
  intros Hs Hn. unfold normalize_filename.
  set (y1 := re_sub pat_numbering delete y).
  set (y2 := re_sub (pat_lit_end "-edited") delete y1).
  set (y3 := re_sub (pat_lit_end "_p") delete y2).
  assert (L1 : String.length y1 <= String.length y)
    by (pose proof (re_sub_delete_length pat_numbering y 0); unfold y1, re_sub; lia).
  assert (L2 : String.length y2 <= String.length y1)
    by (pose proof (re_sub_delete_length (pat_lit_end "-edited") y1 0);
        unfold y2, re_sub; lia).
  assert (L3 : String.length y3 <= String.length y2)
    by (pose proof (re_sub_delete_length (pat_lit_end "_p") y2 0);
        unfold y3, re_sub; lia).
  assert (S1 : no_space y1 = true) by (now apply re_sub_delete_forallb).
  assert (S2 : no_space y2 = true) by (now apply re_sub_delete_forallb).
  assert (S3 : no_space y3 = true) by (now apply re_sub_delete_forallb).
  rewrite (re_sub_no_match _ _ _ (search_human_date_none _ S3)).
  set (y5 := re_sub pat_spaces delete y3).
  set (y6 := re_sub pat_dot delete y5).
  assert (L5 : String.length y5 <= String.length y3)
    by (pose proof (re_sub_delete_length pat_spaces y3 0); unfold y5, re_sub; lia).
  assert (L6 : String.length y6 <= String.length y5)
    by (pose proof (re_sub_delete_length pat_dot y5 0); unfold y6, re_sub; lia).
  pose proof (re_sub_delete_length pat_underscores_end y6 0) as L7.
  fold (re_sub pat_underscores_end delete y6) in L7.
  enough (String.length y3 < String.length y) by lia.
  unfold settled, has_numbering in Hn.
  destruct (re_search pat_numbering y) as [gs|] eqn:E1.
  - assert (String.length y1 < String.length y); [|lia].
    apply (re_sub_delete_shorter _ pat_numbering_consumes). congruence.
  - assert (y1 = y) as Hy1 by (now apply re_sub_no_match).
    simpl in Hn. destruct (endswith y "-edited") eqn:E2.
    + assert (String.length y2 < String.length y1); [|lia].
      apply (re_sub_delete_shorter _ (pat_lit_end_consumes _ _)).
      rewrite Hy1. now apply search_lit_end_some.
    + assert (y2 = y) as Hy2.
      { unfold y2. rewrite Hy1. apply re_sub_no_match.
        now apply search_lit_end_none. }
      simpl in Hn. apply negb_false_iff in Hn.
      assert (String.length y3 < String.length y2); [|lia].
      apply (re_sub_delete_shorter _ (pat_lit_end_consumes _ _)).
      rewrite Hy2. now apply search_lit_end_some.
Qed.

(** C2 (as stated, refuted): the normalizer is not idempotent: an edited
    copy of an edited copy loses one ["-edited"] per pass. *)
Lemma normalize_not_idempotent :
  ~ (forall x, normalize_filename (normalize_filename x) = normalize_filename x).
Proof. intros H. specialize (H "photo-edited-edited"). discriminate H. Qed.

(** C2 (amended): [normalize(normalize(x)) == normalize(x)] holds exactly
    for the inputs [x] whose normalized name is settled, that is, contains
    no ["(n)"] group and ends with neither ["-edited"] nor ["_p"]; the
    normalizer is one pass of substitutions and does not iterate. *)
Theorem normalize_idempotent_iff_settled (x : string) :
  normalize_filename (normalize_filename x) = normalize_filename x
  <-> settled (normalize_filename x) = true.
Proof.
  destruct (normalize_output x) as (Hs & Hd & Hu). split.
  - intros Hfix. destruct (settled (normalize_filename x)) eqn:E; trivial.
    pose proof (normalize_shrinks _ Hs E) as Hlt. rewrite Hfix in Hlt. lia.
  - now apply normalize_fixed.
Qed.

(** C9 (as stated, refuted): the ["-edited"] token is still there. *)
Lemma normalize_example_keeps_edited :
  ~ (str_in "(1)" (normalize_filename "IMG(1)-edited.jpg") = false /\
     str_in "-edited" (normalize_filename "IMG(1)-edited.jpg") = false).
Proof. intros [_ H]. discriminate H. Qed.

(** C9 (amended): [normalize("IMG(1)-edited.jpg")] is ["IMG-editedjpg"]:
    the ["(1)"] numbering token and the dot are dropped, and ["-edited"],
    which is not at the end of the string, is kept; on the stem
    ["IMG(1)-edited"], which is what the matcher passes, both tokens are
    dropped. *)
Theorem normalize_example :
  normalize_filename "IMG(1)-edited.jpg" = "IMG-editedjpg" /\
  str_in "(1)" (normalize_filename "IMG(1)-edited.jpg") = false /\
  str_in "-edited" (normalize_filename "IMG(1)-edited.jpg") = true /\
  normalize_filename "IMG(1)-edited" = "IMG".
Proof. repeat split. Qed.

(* ================================================================== *)
(** * The sidecar matcher *)

Lemma first_success_spec {A} (l : list (option A)) k a :
  first_success l = Some (S k, a) <->
  nth_error l k = Some (Some a) /\
  forall i, i < k -> nth_error l i = Some None.
Proof.
  revert k. induction l as [|[b|] l IH]; intros k; simpl.
  - split; [discriminate|]. intros [H _]. destruct k; discriminate.
  - split.
    + intros [= <- <-]. split; [reflexivity|]. intros i Hi. lia.
    + intros [H Hlt]. destruct k as [|k].
      * simpl in H. now injection H as ->.
      * specialize (Hlt 0 (Nat.lt_0_succ _)). discriminate.
  - destruct (first_success l) as [[n b]|] eqn:E.
    + split.
      * intros [= <- <-]. destruct n as [|n].
        { exfalso. clear IH. revert E. clear.
          induction l as [|[c|] l IHl]; simpl; try discriminate.
          destruct (first_success l) as [[m d]|]; discriminate. }
        destruct (proj1 (IH n) eq_refl) as [H1 H2]. split; [exact H1|].
        intros [|i] Hi; [reflexivity|]. simpl. apply H2. lia.
      * intros [H Hlt]. destruct k as [|k]; [discriminate|]. simpl in H.
        assert (Hk : Some (n, b) = Some (S k, a)).
        { apply IH. split; [exact H|]. intros i Hi.
          apply (Hlt (S i)). lia. }
        now injection Hk as -> ->.
    + split; [discriminate|]. intros [H Hlt].
      destruct k as [|k]; [discriminate|]. simpl in H.
      assert (Hk : None = Some (S k, a)); [|discriminate].
      apply IH. split; [exact H|]. intros i Hi. apply (Hlt (S i)). lia.
Qed.

Lemma first_success_none {A} (l : list (option A)) :
  first_success l = None <-> forall i, i < List.length l -> nth_error l i = Some None.
Proof.
  induction l as [|[b|] l IH]; simpl.
  - split; [intros _ i Hi; lia | reflexivity].
  - split; [discriminate|]. intros H. specialize (H 0 (Nat.lt_0_succ _)). discriminate.
  - destruct (first_success l) as [[n b]|].
    + split; [discriminate|]. intros H.
      assert (Hn : @None (nat * A) = None) by reflexivity.
      destruct IH as [_ IH]. discriminate IH.
      intros i Hi. apply (H (S i)). lia.
    + split; [|reflexivity]. intros _ [|i] Hi; [reflexivity|].
      simpl. apply IH; [reflexivity | lia].
Qed.

Lemma find_json_first_success photo_path json_files :
  find_json_for_photo photo_path json_files =
  option_map snd (first_success (ladder photo_path json_files)).
Proof.
  unfold find_json_for_photo, ladder. simpl.
  destruct (first_attempt _ _); [reflexivity|].
  destruct (second_attempt _ _); [reflexivity|].
  destruct (third_attempt _ _); [reflexivity|].
  destruct (fourth_attempt _ _); [reflexivity|].
  destruct (fifth_attempt _ _); reflexivity.
Qed.

(** C3 (as stated, refuted): for the stems ["photo(1)"] and ["photo"] rule 2
    does not fail. *)
Lemma ladder_photo_not_rule3 :
  let photo := ["Photos"; "photo(1).jpg"] in
  let json := ["Photos"; "photo.json"] in
  let normalized_base := normalize_filename (path_stem photo) in
  ~ (first_attempt (path_stem photo) [json] = None /\
     second_attempt normalized_base [json] = None /\
     third_attempt normalized_base [json] = Some json).
Proof. intros photo json nb (_ & H & _). discriminate H. Qed.

(** C3 (amended): for the media stem ["photo(1)"] and the candidate sidecar
    stem ["photo"], rule 1 (exact prefix) fails and the pair matches at
    rule 2 (normalized equality), because normalization already removes the
    ["(1)"] group; the matcher tries the five rules in strict order and
    returns the result of the first one that succeeds, or none when all
    five fail. *)
Theorem matcher_ladder_order (photo json : Path)
    (Hphoto : path_stem photo = "photo(1)")
    (Hjson : path_stem json = "photo") :
  first_attempt (path_stem photo) [json] = None /\
  second_attempt (normalize_filename (path_stem photo)) [json] = Some json /\
  find_json_for_photo photo [json] = Some json /\
  (forall photo_path json_files found,
     find_json_for_photo photo_path json_files = Some found <->
     exists k, nth_error (ladder photo_path json_files) k = Some (Some found) /\
               forall i, i < k ->
                 nth_error (ladder photo_path json_files) i = Some None) /\
  (forall photo_path json_files,
     find_json_for_photo photo_path json_files = None <->
     forall i, i < 5 -> nth_error (ladder photo_path json_files) i = Some None).
Proof.
  assert (H1 : first_attempt (path_stem photo) [json] = None).
  { unfold first_attempt. simpl. now rewrite Hphoto, Hjson. }
  assert (H2 : second_attempt (normalize_filename (path_stem photo)) [json]
               = Some json).
  { unfold second_attempt. simpl. now rewrite Hphoto, Hjson. }
  repeat split.
  - exact H1.
  - exact H2.
  - unfold find_json_for_photo. cbv zeta. now rewrite H1, H2.
  - rewrite find_json_first_success.
    destruct (first_success _) as [[[|k] a]|] eqn:E; simpl; try discriminate.
    + exfalso. revert E. generalize (ladder photo_path json_files). clear.
      induction l as [|[c|] l IHl]; simpl; try discriminate.
      destruct (first_success l) as [[m d]|]; discriminate.
    + intros [= <-]. exists k. now apply first_success_spec.
  - intros (k & Hk). apply first_success_spec in Hk.
    rewrite find_json_first_success, Hk. reflexivity.
  - rewrite find_json_first_success.
    destruct (first_success _) as [[n a]|] eqn:E; [discriminate|].
    intros _ i Hi. now apply (proj1 (first_success_none _) E).
  - intros H. rewrite find_json_first_success.
    replace (first_success (ladder photo_path json_files)) with (@None (nat * Path));
      [reflexivity|].
    symmetry. apply first_success_none. exact H.
Qed.

Lemma matcher_ladder_order_witness :
  let photo := ["Photos"; "photo(1).jpg"] in
  let json := ["Photos"; "photo.json"] in
  path_stem photo = "photo(1)" /\ path_stem json = "photo" /\
  find_json_for_photo photo [json] = Some json.
Proof.
  intros photo json. split; [reflexivity|]. split; [reflexivity|].
  exact (proj1 (proj2 (proj2
    (matcher_ladder_order photo json eq_refl eq_refl)))).
Defined.

(* ================================================================== *)
(** * The GPS coordinate encoder *)

(** [int(f)] is the integer part of [f], towards zero. *)
Lemma int_of_float_integer_part f z :
  int_of_float f = Ok z -> integer_part_of f z.
Proof.
  destruct f as [s|s| |s m e]; unfold int_of_float, integer_part_of;
    try discriminate.
  - now intros [= <-].
  - intros [= <-]. destruct (Z.leb_spec 0 e) as [He|He].
    + exists (Z.pos m * 2 ^ e)%Z. split; [reflexivity|].
      replace (Z.max 0 (- e)) with 0%Z by lia.
      replace (Z.max 0 e) with e by lia.
      change (2 ^ 0)%Z with 1%Z.
      assert (0 <= 2 ^ e)%Z by (apply Z.pow_nonneg; lia).
      split; [|lia]. apply Z.mul_nonneg_nonneg; lia.
    + exists (Z.pos m / 2 ^ (- e))%Z. split; [reflexivity|].
      replace (Z.max 0 (- e)) with (- e)%Z by lia.
      replace (Z.max 0 e) with 0%Z by lia.
      change (2 ^ 0)%Z with 1%Z.
      assert (Hp : (0 < 2 ^ (- e))%Z) by (apply Z.pow_pos_nonneg; lia).
      split; [apply Z.div_pos; lia|].
      pose proof (Z.mul_div_le (Z.pos m) _ Hp).
      pose proof (Z.mul_succ_div_gt (Z.pos m) _ Hp). lia.
Qed.

Lemma convert_to_degrees_spec value deg min sec :
  convert_to_degrees value = Ok (deg, min, sec) ->
  exists d, py_float value = Ok d /\
            integer_part_of d deg /\
            integer_part_of (minutes_float d deg) min /\
            integer_part_of (seconds_float d deg min) sec.
Proof.
  unfold convert_to_degrees. intros H.
  destruct (py_float value) as [d|] eqn:Ed; cbn [rbind] in H; [|discriminate].
  destruct (int_of_float d) as [deg'|] eqn:E1; cbn [rbind] in H; [|discriminate].
  destruct (int_of_float (minutes_float d deg')) as [min'|] eqn:E2;
    cbn [rbind] in H; [|discriminate].
  destruct (int_of_float (seconds_float d deg' min')) as [sec'|] eqn:E3;
    cbn [rbind] in H; [|discriminate].
  injection H as <- <- <-. exists d.
  repeat split; trivial; now apply int_of_float_integer_part.
Qed.

(** The sign test of the encoder, on the values it accepts. *)
Lemma py_ge_zero_sign v nonneg a t :
  py_ge_zero v = Ok nonneg -> py_abs v = Ok a ->
  convert_to_degrees a = Ok t ->
  ((exists z, v = VInt z) \/ (exists b, v = VBool b) \/
   (exists s, v = VFloat (S754_zero s)) \/
   (exists s m e, v = VFloat (S754_finite s m e))) /\
  (forall z, v = VInt z -> nonneg = (0 <=? z)%Z) /\
  (forall b, v = VBool b -> nonneg = true) /\
  (forall s, v = VFloat (S754_zero s) -> nonneg = true) /\
  (forall s m e, v = VFloat (S754_finite s m e) -> nonneg = negb s).
Proof.
  intros Hs Ha Hc.
  destruct v as [|b|z|f|str|l|l|d]; try discriminate.
  - injection Hs as <-.
    split; [right; left; eauto|].
    repeat split; try discriminate; reflexivity.
  - injection Hs as <-.
    split; [left; eauto|].
    repeat split; try discriminate. now intros z' [= <-].
  - injection Ha as <-. cbn [py_ge_zero] in Hs. injection Hs as <-.
    destruct f as [s|s| |s m e]; try discriminate.
    + split; [right; right; left; eauto|].
      repeat split; try discriminate; reflexivity.
    + split; [right; right; right; eauto|].
      repeat split; try discriminate.
      intros s' m' e' [= <- <- <-]. now destruct s.
Qed.

(** The number the triple is computed from: the magnitude, as a float. *)
Lemma py_abs_magnitude v a d :
  py_abs v = Ok a -> py_float a = Ok d ->
  (forall f, v = VFloat f -> d = SFabs f) /\
  (forall z, v = VInt z -> float_of_Z (Z.abs z) = Ok d) /\
  (forall b : bool, v = VBool b -> float_of_Z (if b then 1 else 0) = Ok d).
Proof.
  intros Ha Hd.
  destruct v as [|b|z|f|str|l|l|dd]; try discriminate;
    injection Ha as <-; cbn [py_float] in Hd;
    repeat split; try discriminate.
  - now intros b' [= <-].
  - now intros z' [= <-].
  - intros f' [= <-]. congruence.
Qed.

(** C8: the hemisphere letters derive from the sign: [N] for a latitude
    that is zero or positive and [S] for a negative one, [E] and [W]
    likewise for the longitude (a float zero of either sign counts as
    zero); degrees, minutes and seconds are integer parts (truncations
    towards zero, not roundings) of the floats the encoder computes from
    the magnitude, each stored as the pair [(n, 1)]; and
    [toExifGps(-33.86, 151.2)] yields [GPSLatitudeRef = "S"],
    [GPSLongitudeRef = "E"], with the triples 33/51/35 and 151/11/59 where
    rounding would give 33/52/36 and 151/12/0. *)
Theorem gps_encoder_refs_and_truncation (lat lon : pyval)
    (g : list (string * pyval))
    (Hg : get_exif_gps_dict lat lon = Ok (VDict g)) :
  (exists lat_ref,
     dict_get g "GPSLatitudeRef" = Some (VStr lat_ref) /\
     ((exists z, lat = VInt z) \/ (exists b, lat = VBool b) \/
      (exists s, lat = VFloat (S754_zero s)) \/
      (exists s m e, lat = VFloat (S754_finite s m e))) /\
     (forall z, lat = VInt z -> lat_ref = if (0 <=? z)%Z then "N" else "S") /\
     (forall b, lat = VBool b -> lat_ref = "N") /\
     (forall s, lat = VFloat (S754_zero s) -> lat_ref = "N") /\
     (forall s m e, lat = VFloat (S754_finite s m e) ->
                    lat_ref = if s then "S" else "N")) /\
  (exists lon_ref,
     dict_get g "GPSLongitudeRef" = Some (VStr lon_ref) /\
     ((exists z, lon = VInt z) \/ (exists b, lon = VBool b) \/
      (exists s, lon = VFloat (S754_zero s)) \/
      (exists s m e, lon = VFloat (S754_finite s m e))) /\
     (forall z, lon = VInt z -> lon_ref = if (0 <=? z)%Z then "E" else "W") /\
     (forall b, lon = VBool b -> lon_ref = "E") /\
     (forall s, lon = VFloat (S754_zero s) -> lon_ref = "E") /\
     (forall s m e, lon = VFloat (S754_finite s m e) ->
                    lon_ref = if s then "W" else "E")) /\
  (exists d deg min sec,
     dict_get g "GPSLatitude"
     = Some (VTuple [VTuple [VInt deg; VInt 1]; VTuple [VInt min; VInt 1];
                     VTuple [VInt sec; VInt 1]]) /\
     (forall f, lat = VFloat f -> d = SFabs f) /\
     (forall z, lat = VInt z -> float_of_Z (Z.abs z) = Ok d) /\
     (forall b : bool, lat = VBool b ->
                       float_of_Z (if b then 1 else 0) = Ok d) /\
     integer_part_of d deg /\
     integer_part_of (minutes_float d deg) min /\
     integer_part_of (seconds_float d deg min) sec) /\
  (exists d deg min sec,
     dict_get g "GPSLongitude"
     = Some (VTuple [VTuple [VInt deg; VInt 1]; VTuple [VInt min; VInt 1];
                     VTuple [VInt sec; VInt 1]]) /\
     (forall f, lon = VFloat f -> d = SFabs f) /\
     (forall z, lon = VInt z -> float_of_Z (Z.abs z) = Ok d) /\
     (forall b : bool, lon = VBool b ->
                       float_of_Z (if b then 1 else 0) = Ok d) /\
     integer_part_of d deg /\
     integer_part_of (minutes_float d deg) min /\
     integer_part_of (seconds_float d deg min) sec) /\
  (exists g0,
     get_exif_gps_dict (VFloat (SFopp lit_33_86)) (VFloat lit_151_2)
       = Ok (VDict g0) /\
     dict_get g0 "GPSLatitudeRef" = Some (VStr "S") /\
     dict_get g0 "GPSLongitudeRef" = Some (VStr "E") /\
     dict_get g0 "GPSLatitude"
     = Some (VTuple [VTuple [VInt 33; VInt 1]; VTuple [VInt 51; VInt 1];
                     VTuple [VInt 35; VInt 1]]) /\
     dict_get g0 "GPSLongitude"
     = Some (VTuple [VTuple [VInt 151; VInt 1]; VTuple [VInt 11; VInt 1];
                     VTuple [VInt 59; VInt 1]])).
Proof.
  unfold get_exif_gps_dict in Hg.
  destruct (py_abs lat) as [alat|] eqn:Ea; cbn [rbind] in Hg; [|discriminate].
  destruct (convert_to_degrees alat) as [[[d1 m1] s1]|] eqn:Ec;
    cbn [rbind] in Hg; [|discriminate].
  destruct (py_abs lon) as [alon|] eqn:Eb; cbn [rbind] in Hg; [|discriminate].
  destruct (convert_to_degrees alon) as [[[d2 m2] s2]|] eqn:Ed;
    cbn [rbind] in Hg; [|discriminate].
  destruct (py_ge_zero lat) as [b1|] eqn:E1; cbn [rbind] in Hg; [|discriminate].
  destruct (py_ge_zero lon) as [b2|] eqn:E2; cbn [rbind] in Hg; [|discriminate].
  injection Hg as <-.
  destruct (py_ge_zero_sign _ _ _ _ E1 Ea Ec) as (K1 & I1 & B1 & Z1 & F1).
  destruct (py_ge_zero_sign _ _ _ _ E2 Eb Ed) as (K2 & I2 & B2 & Z2 & F2).
  apply convert_to_degrees_spec in Ec, Ed.
  destruct Ec as (f1 & Hf1 & P1 & P2 & P3), Ed as (f2 & Hf2 & Q1 & Q2 & Q3).
  destruct (py_abs_magnitude _ _ _ Ea Hf1) as (M1 & M2 & M3).
  destruct (py_abs_magnitude _ _ _ Eb Hf2) as (N1 & N2 & N3).
  split; [|split; [|split; [|split]]].
  - exists (if b1 then "N" else "S"). split; [reflexivity|].
    split; [exact K1|]. repeat split.
    + intros z Hz. now rewrite (I1 z Hz).
    + intros b Hb. now rewrite (B1 b Hb).
    + intros s Hs. now rewrite (Z1 s Hs).
    + intros s m e Hs. rewrite (F1 s m e Hs). now destruct s.
  - exists (if b2 then "E" else "W"). split; [reflexivity|].
    split; [exact K2|]. repeat split.
    + intros z Hz. now rewrite (I2 z Hz).
    + intros b Hb. now rewrite (B2 b Hb).
    + intros s Hs. now rewrite (Z2 s Hs).
    + intros s m e Hs. rewrite (F2 s m e Hs). now destruct s.
  - exists f1, d1, m1, s1. repeat split; trivial.
  - exists f2, d2, m2, s2. repeat split; trivial.
  - eexists. split; [vm_compute; reflexivity|]. repeat split.
Qed.

Lemma gps_encoder_refs_and_truncation_witness :
  exists g,
    get_exif_gps_dict (VFloat (SFopp lit_33_86)) (VFloat lit_151_2)
      = Ok (VDict g) /\
    dict_get g "GPSLatitudeRef" = Some (VStr "S") /\
    dict_get g "GPSLongitudeRef" = Some (VStr "E").
Proof.
  assert (H : exists g,
             get_exif_gps_dict (VFloat (SFopp lit_33_86)) (VFloat lit_151_2)
               = Ok (VDict g))
    by (eexists; vm_compute; reflexivity).
  destruct H as [g H]. exists g. split; [exact H|].
  destruct (gps_encoder_refs_and_truncation _ _ _ H)
    as [(r1 & H1 & _ & _ & _ & _ & F1) [(r2 & H2 & _ & _ & _ & _ & F2) _]].
  assert (E1 : exists m e, SFopp lit_33_86 = S754_finite true m e)
    by (eexists; eexists; vm_compute; reflexivity).
  assert (E2 : exists m e, lit_151_2 = S754_finite false m e)
    by (eexists; eexists; vm_compute; reflexivity).
  destruct E1 as (m1 & e1 & E1), E2 as (m2 & e2 & E2).
  rewrite (F1 true m1 e1 (f_equal VFloat E1)) in H1.
  rewrite (F2 false m2 e2 (f_equal VFloat E2)) in H2.
  split; assumption.
Defined.

(* ================================================================== *)
(** * The filesystem primitives *)

Lemma path_eqb_eq p q : path_eqb p q = true <-> p = q.
Proof. unfold path_eqb. destruct (list_eq_dec string_dec p q); split; congruence. Qed.

Lemma path_eqb_refl p : path_eqb p p = true.
Proof. now apply path_eqb_eq. Qed.

Lemma path_eqb_neq p q : p <> q -> path_eqb p q = false.
Proof. unfold path_eqb. destruct (list_eq_dec string_dec p q); congruence. Qed.

Lemma lookup_write_same fs p n : fs_lookup (fs_write fs p n) p = Some n.
Proof.
  induction fs as [|[q m] fs IH]; simpl.
  - now rewrite path_eqb_refl.
  - destruct (path_eqb q p) eqn:E; simpl; rewrite E; [reflexivity | exact IH].
Qed.

Lemma lookup_write_other fs p q n :
  p <> q -> fs_lookup (fs_write fs p n) q = fs_lookup fs q.
Proof.
  intros Hne. induction fs as [|[r m] fs IH]; simpl.
  - now rewrite (path_eqb_neq _ _ Hne).
  - destruct (path_eqb r p) eqn:E; simpl.
    + apply path_eqb_eq in E. subst r. now rewrite (path_eqb_neq _ _ Hne).
    + now rewrite IH.
Qed.

Lemma lookup_remove_same fs p : fs_lookup (fs_remove fs p) p = None.
Proof.
  induction fs as [|[q m] fs IH]; simpl; [reflexivity|].
  destruct (path_eqb q p) eqn:E; simpl; [exact IH | now rewrite E].
Qed.

Lemma lookup_remove_other fs p q :
  p <> q -> fs_lookup (fs_remove fs p) q = fs_lookup fs q.
Proof.
  intros Hne. induction fs as [|[r m] fs IH]; simpl; [reflexivity|].
  destruct (path_eqb r p) eqn:E; simpl.
  - apply path_eqb_eq in E. subst r. now rewrite (path_eqb_neq _ _ Hne).
  - now rewrite IH.
Qed.

(** A plain name is one path part. *)
Lemma split_slash_plain s :
  forallb_str (fun c => negb (Ascii.eqb c "/")) s = true -> split_slash s = [s].
Proof.
  induction s as [|c s IH]; simpl; intros H; [reflexivity|].
  apply andb_true_iff in H. destruct H as [Hc Hs].
  apply negb_true_iff in Hc. rewrite Hc, (IH Hs). reflexivity.
Qed.

Lemma path_join_plain p s : plain_name s = true -> path_join p s = (p ++ [s])%list.
Proof.
  unfold plain_name, path_join, str_parts. intros H.
  apply andb_true_iff in H. destruct H as [H Hdot].
  apply andb_true_iff in H. destruct H as [Hsl Hne].
  rewrite (split_slash_plain _ Hsl). simpl. rewrite Hne, Hdot. simpl.
  destruct s as [|c s]; [discriminate|]. cbn [forallb_str startswith] in Hsl |- *.
  apply andb_true_iff in Hsl. destruct Hsl as [Hc _].
  apply negb_true_iff in Hc. rewrite Ascii.eqb_sym in Hc. now rewrite Hc.
Qed.

Lemma mkdir_exist_ok_lookup fs p fs' q n :
  mkdir_exist_ok fs p = Ok fs' ->
  fs_lookup fs q = Some n -> fs_lookup fs' q = Some n.
Proof.
  unfold mkdir_exist_ok. destruct p as [|x p]; [now intros [= <-]|].
  cbv beta iota.
  destruct (fs_lookup fs (x :: p)) as [[c t|]|] eqn:E; try discriminate.
  - now intros [= <-].
  - destruct (create_error (x :: p)); [discriminate|].
    destruct (is_dir fs _); [|discriminate]. intros [= <-] Hq.
    rewrite lookup_write_other; [exact Hq|]. intros Heq. subst q. congruence.
Qed.

Lemma mkdir_exist_ok_is_dir fs p fs' :
  mkdir_exist_ok fs p = Ok fs' -> is_dir fs' p = true.
Proof.
  unfold mkdir_exist_ok. destruct p as [|x p]; [reflexivity|].
  cbv beta iota. unfold is_dir at 2.
  destruct (fs_lookup fs (x :: p)) as [[c t|]|] eqn:E; try discriminate.
  - intros [= <-]. now rewrite E.
  - destruct (create_error (x :: p)); [discriminate|].
    destruct (is_dir fs _); [|discriminate].
    intros [= <-]. now rewrite lookup_write_same.
Qed.

(* ================================================================== *)
(** * The date resolver *)

Section Resolver.
Context {P : Platform}.





Lemma py_exists_raises fs p e : py_exists fs p = Raise e -> e = OSError.
Proof.
  unfold py_exists. destruct (path_exists fs p); [discriminate|].
  unfold stat_error. destruct (existsb has_nul p); [discriminate|].
  destruct (PATH_MAX <=? path_bytes p)%nat; [now intros [= <-]|].
  generalize (@nil string). induction p as [|x p IH]; intros pre;
    cbn [stat_error_from]; [discriminate|].
  destruct (fs_lookup fs (pre ++ [x])%list) as [[c t|]|];
    [discriminate | apply IH |].
  destruct (NAME_MAX <? byte_length x)%nat; [now intros [= <-] | discriminate].
Qed.

(** A sidecar's date is its decoded date, if that is in range. *)
Lemma read_json_date_decoded fs json_path :
  read_json_date fs json_path =
  match decoded_sidecar_date fs json_path with
  | Ok (Some date) => if in_range date then Ok (Some date) else Ok None
  | Ok None => Ok None
  | Raise e => Raise e
  end.
Proof.
  unfold read_json_date, decoded_sidecar_date.
  destruct (json_load fs json_path) as [metadata|]; cbn [rbind]; [|reflexivity].
  destruct (py_get metadata _ _) as [ptt|]; cbn [rbind]; [|reflexivity].
  destruct (py_get ptt _ _) as [ts|]; cbn [rbind]; [|reflexivity].
  destruct (truthy ts); [|reflexivity].
  destruct (py_int ts) as [z|]; cbn [rbind]; [|reflexivity].
  destruct (fromtimestamp z) as [d|]; cbn [rbind]; reflexivity.
Qed.



End Resolver.





(* ================================================================== *)
(** * The archiver *)

Section Archiver.
Context {P : Platform}.

(** Resolving a date prints at most; it changes no file. *)
Lemma json_candidates_loop_frame : forall cands st st' r,
  json_candidates_loop cands st = (st', r) ->
  st_fs st' = st_fs st /\ timestamp_int st' = timestamp_int st.
Proof.
  induction cands as [|c cands IH]; intros st st' r H.
  - injection H as <- _. now split.
  - cbn [json_candidates_loop] in H. unfold mbind at 1 in H. unfold read at 1 in H.
    destruct (py_exists (st_fs st) c) as [[|]|e0].
    + unfold mbind, try_except, read, emit, ret in H.
      destruct (read_json_date (st_fs st) c) as [[d|]|e].
      * injection H as <- _. now split.
      * now apply IH in H.
      * apply IH in H. exact H.
    + now apply IH in H.
    + injection H as <- _. now split.
Qed.

Lemma get_date_taken_frame image_path st st' r :
  get_date_taken image_path st = (st', r) ->
  st_fs st' = st_fs st /\ timestamp_int st' = timestamp_int st.
Proof.
  unfold get_date_taken, mbind, try_except, read, emit, ret. intros H.
  assert (Hj : forall s s' r', get_date_from_json image_path s = (s', r') ->
            st_fs s' = st_fs s /\ timestamp_int s' = timestamp_int s).
  { intros s s' r'. unfold get_date_from_json, mbind, lift.
    destruct (possible_json_extensions image_path).
    - apply json_candidates_loop_frame.
    - intros [= <- _]. now split. }
  destruct (read_exif_date (st_fs st) image_path) as [[d|]|e].
  - injection H as <- _. now split.
  - destruct (get_date_from_json image_path st) as [s' [[d|]|e]] eqn:E;
      injection H as <- _; exact (Hj _ _ _ E).
  - destruct (get_date_from_json image_path _) as [s' [[d|]|e']] eqn:E;
      injection H as <- _; exact (Hj _ _ _ E).
Qed.

Lemma removelast_snoc {A} (l : list A) x : removelast (l ++ [x]) = l.
Proof. apply removelast_last. Qed.

(** C7 (amended): the archiver makes no check of its own that the
    destination [output/<year>/<month>/<name>] is free.  When a file
    already occupies it, the move replaces that file with the one being
    archived and reports a move, not an error; when the move primitive
    raises, the error is reported for that file and nothing is moved;
    either way the loop goes on with the next file. *)
Theorem archiver_replaces_occupied_destination
    (output_dir file_path : Path) (st st1 : state) (date : datetime)
    (fs1 fs2 : filesystem) :
  let year_folder := path_join output_dir (string_of_Z (year date)) in
  let month_folder := path_join year_folder (two_digits (month date)) in
  let name := path_name file_path in
  let dst := path_join month_folder name in
  let suffix := lower (path_suffix file_path) in
  is_file (st_fs st) file_path = true ->
  String.eqb suffix ".json" = false ->
  mem_str suffix supported_extensions = true ->
  get_date_taken file_path st = (st1, Ok (Some date)) ->
  mkdir_exist_ok (st_fs st) year_folder = Ok fs1 ->
  mkdir_exist_ok fs1 month_folder = Ok fs2 ->
  plain_name name = true ->
  file_path <> dst ->
  (forall c t, fs_lookup (st_fs st) dst = Some (File c t) ->
     exists st',
       archive_file output_dir file_path st = (st', Ok tt) /\
       fs_lookup (st_fs st') dst = fs_lookup (st_fs st) file_path /\
       fs_lookup (st_fs st') file_path = None /\
       st_out st' = (st_out st1 ++ [Moved name month_folder])%list /\
       forall rest,
         for_each (file_path :: rest) (archive_file output_dir) st
         = for_each rest (archive_file output_dir) st') /\
  (forall e, shutil_move fs2 file_path dst = Raise e ->
     let st' := mk_state fs2 (st_out st1 ++ [ErrorMoving name e])%list
                         (timestamp_int st) in
     archive_file output_dir file_path st = (st', Ok tt) /\
     forall rest,
       for_each (file_path :: rest) (archive_file output_dir) st
       = for_each rest (archive_file output_dir) st').
Proof.
  intros year_folder month_folder name dst suffix
         Hfile Hjson Hsupp Hdate Hmk1 Hmk2 Hplain Hne.
  destruct (get_date_taken_frame _ _ _ _ Hdate) as [Hfs1 Hti1].
  assert (Hrun :
            archive_file output_dir file_path st =
            match shutil_move fs2 file_path dst with
            | Ok fs3 => (mk_state fs3 (st_out st1 ++ [Moved name month_folder])%list
                                  (timestamp_int st), Ok tt)
            | Raise e => (mk_state fs2 (st_out st1 ++ [ErrorMoving name e])%list
                                   (timestamp_int st), Ok tt)
            end).
  { unfold archive_file. unfold mbind at 1. unfold read at 1.
    rewrite Hfile. fold suffix. rewrite Hjson, Hsupp. cbn [orb negb].
    unfold mbind at 1. rewrite Hdate.
    fold year_folder. fold month_folder. fold name. fold dst.
    unfold mbind, update, try_except, emit.
    rewrite Hfs1, Hmk1. cbn [st_fs st_out timestamp_int]. rewrite Hmk2.
    cbn [st_fs st_out timestamp_int]. rewrite Hti1.
    destruct (shutil_move fs2 file_path dst); reflexivity. }
  split.
  - intros c t Hocc.
    unfold is_file in Hfile.
    destruct (fs_lookup (st_fs st) file_path) as [[c0 t0|]|] eqn:Esrc;
      try discriminate.
    assert (Hsrc2 : fs_lookup fs2 file_path = Some (File c0 t0)).
    { eapply mkdir_exist_ok_lookup; [exact Hmk2|].
      eapply mkdir_exist_ok_lookup; [exact Hmk1 | exact Esrc]. }
    assert (Hdst2 : fs_lookup fs2 dst = Some (File c t)).
    { eapply mkdir_exist_ok_lookup; [exact Hmk2|].
      eapply mkdir_exist_ok_lookup; [exact Hmk1 | exact Hocc]. }
    assert (Hdst : dst = (month_folder ++ [name])%list)
      by (apply path_join_plain; exact Hplain).
    assert (Hmove : shutil_move fs2 file_path dst
                    = Ok (fs_remove (fs_write fs2 dst (File c0 t0)) file_path)).
    { unfold shutil_move. rewrite Hsrc2.
      assert (Hnd : is_dir fs2 dst = false).
      { unfold is_dir. rewrite Hdst2. rewrite Hdst.
        destruct month_folder; reflexivity. }
      rewrite Hnd, (path_eqb_neq _ _ Hne).
      rewrite Hdst at 1. unfold path_parent. rewrite removelast_snoc.
      now rewrite (mkdir_exist_ok_is_dir _ _ _ Hmk2). }
    eexists. split; [rewrite Hrun, Hmove; reflexivity|].
    cbn [st_fs st_out]. repeat split.
    + rewrite lookup_remove_other by exact Hne. apply lookup_write_same.
    + apply lookup_remove_same.
    + intros rest. cbn [for_each]. unfold mbind at 1.
      now rewrite Hrun, Hmove.
  - intros e Hmove. split.
    + now rewrite Hrun, Hmove.
    + intros rest. cbn [for_each]. unfold mbind at 1.
      now rewrite Hrun, Hmove.
Qed.

End Archiver.

(** C7 (as stated, refuted): on a second run the file already in the month
    folder is replaced, and no error is reported. *)
Lemma rerun_replaces_existing_file :
  let dst := ["output"; "2019"; "03"; "IMG_20190314.png"] in
  let st' := fst (create_date_folders (P := sample_platform) (start rerun_fs)) in
  ~ (fs_lookup (st_fs st') dst = fs_lookup rerun_fs dst /\
     exists e, In (ErrorMoving "IMG_20190314.png" e) (st_out st')).
Proof. intros dst st' [H _]. vm_compute in H. discriminate H. Qed.

Lemma archiver_replaces_occupied_destination_witness :
  exists st',
    archive_file (P := sample_platform) ["output"]
      ["output"; "IMG_20190314.png"] (start rerun_fs) = (st', Ok tt) /\
    fs_lookup (st_fs st') ["output"; "2019"; "03"; "IMG_20190314.png"]
    = Some (File (picture "PNG" None) None).
Proof.
  destruct (archiver_replaces_occupied_destination (P := sample_platform)
              ["output"] ["output"; "IMG_20190314.png"]
              (start rerun_fs) (start rerun_fs)
              (mk_datetime 2019 3 14 0 0 0) rerun_fs rerun_fs
              eq_refl eq_refl eq_refl eq_refl eq_refl eq_refl eq_refl)
    as [Hocc _].
  - discriminate.
  - destruct (Hocc (OtherFile "old") None eq_refl) as (st' & Hrun & Hdst & _).
    exists st'. split; [exact Hrun | exact Hdst].
Defined.

(* ================================================================== *)
(** * The merger: what a step can delete *)

Lemma keeps_ret Q {A} (a : A) : keeps Q (ret a).
Proof. intros st st' r [= <- _] p _ H. exact H. Qed.

Lemma keeps_lift Q {A} (x : result A) : keeps Q (lift x).
Proof. intros st st' r [= <- _] p _ H. exact H. Qed.

Lemma keeps_read Q {A} (f : filesystem -> result A) : keeps Q (read f).
Proof. intros st st' r [= <- _] p _ H. exact H. Qed.

Lemma keeps_emit Q ev : keeps Q (emit ev).
Proof. intros st st' r [= <- _] p _ H. exact H. Qed.

Lemma keeps_set_timestamp_int Q z : keeps Q (set_timestamp_int z).
Proof. intros st st' r [= <- _] p _ H. exact H. Qed.

Lemma keeps_get_timestamp_int Q : keeps Q get_timestamp_int.
Proof.
  intros st st' r. unfold get_timestamp_int.
  destruct (timestamp_int st); intros [= <- _] p _ H; exact H.
Qed.

Lemma keeps_bind Q {A B} (m : M A) (f : A -> M B) :
  keeps Q m -> (forall a, keeps Q (f a)) -> keeps Q (mbind m f).
Proof.
  intros Hm Hf st st' r. unfold mbind.
  destruct (m st) as [st1 [a|e]] eqn:E.
  - intros H p Hq Hp. eapply Hf; [exact H | exact Hq|].
    eapply Hm; eauto.
  - intros [= <- _] p Hq Hp. eapply Hm; eauto.
Qed.

Lemma keeps_try_except Q {A} (m : M A) (h : exn -> M A) :
  keeps Q m -> (forall e, keeps Q (h e)) -> keeps Q (try_except m h).
Proof.
  intros Hm Hh st st' r. unfold try_except.
  destruct (m st) as [st1 [a|e]] eqn:E.
  - intros [= <- _] p Hq Hp. eapply Hm; eauto.
  - intros H p Hq Hp. eapply Hh; [exact H | exact Hq|]. eapply Hm; eauto.
Qed.

Lemma keeps_try_except_only Q {A} c (m : M A) (h : exn -> M A) :
  keeps Q m -> (forall e, keeps Q (h e)) -> keeps Q (try_except_only c m h).
Proof.
  intros Hm Hh st st' r. unfold try_except_only.
  destruct (m st) as [st1 [a|e]] eqn:E.
  - intros [= <- _] p Hq Hp. eapply Hm; eauto.
  - destruct (c e).
    + intros H p Hq Hp. eapply Hh; [exact H | exact Hq|]. eapply Hm; eauto.
    + intros [= <- _] p Hq Hp. eapply Hm; eauto.
Qed.

Lemma keeps_update (Q : Path -> Prop) (f : filesystem -> result filesystem) :
  (forall fs fs', f fs = Ok fs' ->
     forall p, Q p -> fs_lookup fs p <> None -> fs_lookup fs' p <> None) ->
  keeps Q (update f).
Proof.
  intros Hf st st' r. unfold update.
  destruct (f (st_fs st)) as [fs'|e] eqn:E; intros [= <- _] p Hq Hp.
  - cbn [st_fs]. eapply Hf; eauto.
  - exact Hp.
Qed.

Lemma lookup_write_keeps fs q n p :
  fs_lookup fs p <> None -> fs_lookup (fs_write fs q n) p <> None.
Proof.
  intros H. destruct (list_eq_dec string_dec q p) as [->|Hne].
  - rewrite lookup_write_same. discriminate.
  - now rewrite lookup_write_other.
Qed.

Lemma shutil_copy_keeps fs src dst fs' p :
  shutil_copy fs src dst = Ok fs' ->
  fs_lookup fs p <> None -> fs_lookup fs' p <> None.
Proof.
  unfold shutil_copy. cbv zeta.
  set (d := if is_dir fs dst then (dst ++ [path_name src])%list else dst).
  destruct (existsb has_nul d); [discriminate|].
  destruct (fs_lookup fs src) as [[c t|]|]; try discriminate.
  destruct (path_eqb src d); [discriminate|].
  destruct (is_dir fs d); [discriminate|].
  destruct (is_dir fs (path_parent d)); [|discriminate].
  destruct (create_error d); [discriminate|].
  intros [= <-]. apply lookup_write_keeps.
Qed.

Lemma os_remove_keeps fs q fs' p :
  os_remove fs q = Ok fs' -> p <> q ->
  fs_lookup fs p <> None -> fs_lookup fs' p <> None.
Proof.
  unfold os_remove. destruct (is_file fs q); [|discriminate].
  intros [= <-] Hne. rewrite lookup_remove_other; [trivial | congruence].
Qed.

Section Merger.
Context {P : Platform}.

Lemma piexif_dump_insert_keeps d path fs fs' p :
  piexif_dump_insert d path fs = Ok fs' ->
  fs_lookup fs p <> None -> fs_lookup fs' p <> None.
Proof.
  unfold piexif_dump_insert.
  destruct (fs_lookup fs path) as [[c t|]|]; try discriminate.
  destruct (piexif_insert d c); cbn [rbind]; [|discriminate].
  intros [= <-]. apply lookup_write_keeps.
Qed.

Lemma os_utime_keeps path t fs fs' p :
  os_utime path t fs = Ok fs' ->
  fs_lookup fs p <> None -> fs_lookup fs' p <> None.
Proof.
  unfold os_utime. destruct (utime_accepts t); [|discriminate].
  destruct (fs_lookup fs path) as [[c t0|]|]; try discriminate.
  - intros [= <-]. apply lookup_write_keeps.
  - now intros [= <-].
Qed.

(** Statements that leave the filesystem alone, and sequencing. *)
Ltac keeps_pure :=
  first [ apply keeps_ret | apply keeps_lift | apply keeps_read
        | apply keeps_emit | apply keeps_set_timestamp_int
        | apply keeps_get_timestamp_int ].

Ltac keeps_seq := apply keeps_bind; [try keeps_pure | intro].

Lemma convert_timestamp_keeps Q media timestamp :
  keeps Q (convert_timestamp media timestamp).
Proof.
  unfold convert_timestamp. apply keeps_try_except_only.
  - do 3 keeps_seq. keeps_pure.
  - intros e. keeps_pure.
Qed.

Lemma embed_metadata_keeps Q media new_media_path lat lon formatted :
  keeps Q (embed_metadata media new_media_path lat lon formatted).
Proof.
  unfold embed_metadata. apply keeps_try_except; [|intros e; keeps_pure].
  keeps_seq. keeps_seq.
  - apply keeps_update. intros fs fs' H p _.
    exact (piexif_dump_insert_keeps _ _ _ _ p H).
  - apply keeps_try_except; [|intros e; keeps_pure].
    keeps_seq. apply keeps_update. intros fs fs' H p _.
    exact (os_utime_keeps _ _ _ _ p H).
Qed.

(** A step deletes at most the media file it handles and, when it lies in
    the source directory, the sidecar matched to it. *)
Lemma process_media_keeps photo_dir output_dir json_files media :
  keeps (fun p => p <> media /\
                  forall json_file,
                    find_json_for_photo media json_files = Some json_file ->
                    path_parent json_file = photo_dir -> p <> json_file)
        (process_media photo_dir output_dir json_files media).
Proof.
  unfold process_media. apply keeps_try_except; [|intros e; keeps_pure].
  destruct (find_json_for_photo media json_files) as [json_file|];
    [|keeps_pure].
  keeps_seq. destruct a; [|keeps_pure].
  (* reading the sidecar *)
  do 4 keeps_seq. keeps_seq.
  { destruct (truthy a1); [apply convert_timestamp_keeps | keeps_pure]. }
  do 6 keeps_seq.
  destruct (truthy a1); [|keeps_pure].
  (* the two copies *)
  keeps_seq.
  { apply keeps_update. intros fs fs' H p _.
    exact (shutil_copy_keeps _ _ _ _ p H). }
  keeps_seq.
  { destruct (mem_str _ _); [apply embed_metadata_keeps | keeps_pure]. }
  keeps_seq.
  { apply keeps_update. intros fs fs' H p _.
    exact (shutil_copy_keeps _ _ _ _ p H). }
  (* the two deletions *)
  keeps_seq.
  { apply keeps_update. intros fs fs' H p [Hm _].
    now apply (os_remove_keeps _ _ _ _ H). }
  keeps_seq.
  { destruct (path_eqb (path_parent json_file) photo_dir) eqn:Ep;
      [|keeps_pure].
    apply path_eqb_eq in Ep.
    apply keeps_update. intros fs fs' H p [_ Hj].
    apply (os_remove_keeps _ _ _ _ H). now apply Hj. }
  keeps_seq.
  match goal with |- keeps _ (match ?l with _ => _ end) => destruct l end;
    [keeps_pure|].
  keeps_seq. keeps_pure.
Qed.

(** Without a sidecar that exists, a step only prints. *)
Lemma process_media_no_sidecar photo_dir output_dir json_files media st :
  (forall json_file, find_json_for_photo media json_files = Some json_file ->
                     path_exists (st_fs st) json_file = false) ->
  process_media photo_dir output_dir json_files media st
  = (mk_state (st_fs st) (st_out st ++ [NoJsonFound (path_name media)])
              (timestamp_int st), Ok tt).
Proof.
  intros H. unfold process_media, try_except.
  destruct (find_json_for_photo media json_files) as [json_file|].
  - unfold mbind, read. now rewrite (H json_file eq_refl).
  - reflexivity.
Qed.

(** Whatever disappears in a step is the media file of a successful
    pairing, or its sidecar in the source directory. *)
Lemma process_media_deletes photo_dir output_dir json_files media st st' r p :
  process_media photo_dir output_dir json_files media st = (st', r) ->
  fs_lookup (st_fs st) p <> None ->
  fs_lookup (st_fs st') p = None ->
  exists json_file,
    find_json_for_photo media json_files = Some json_file /\
    path_exists (st_fs st) json_file = true /\
    (p = media \/ (p = json_file /\ path_parent json_file = photo_dir)).
Proof.
  intros Hrun Hbefore Hafter.
  destruct (find_json_for_photo media json_files) as [json_file|] eqn:Ef.
  - destruct (path_exists (st_fs st) json_file) eqn:Ex.
    + exists json_file. split; [reflexivity|]. split; [exact Ex|].
      destruct (list_eq_dec string_dec p media) as [->|Hpm]; [now left|].
      destruct (list_eq_dec string_dec p json_file) as [->|Hpj].
      * destruct (list_eq_dec string_dec (path_parent json_file) photo_dir)
          as [Hd|Hd]; [right; now split|].
        exfalso.
        apply (process_media_keeps photo_dir output_dir json_files media
                 st st' r Hrun json_file); trivial.
        split; [exact Hpm|]. rewrite Ef. intros j [= <-] Hj. contradiction.
      * exfalso.
        apply (process_media_keeps photo_dir output_dir json_files media
                 st st' r Hrun p); trivial.
        split; [exact Hpm|]. rewrite Ef. now intros j [= <-] _.
    + rewrite process_media_no_sidecar in Hrun.
      * injection Hrun as <- _. contradiction.
      * rewrite Ef. now intros j [= <-].
  - rewrite process_media_no_sidecar in Hrun.
    + injection Hrun as <- _. contradiction.
    + rewrite Ef. discriminate.
Qed.

(** C5: when the matcher returns none for a media file, the merger's step
    for it changes no file and prints the skip; and in a whole run a file
    disappears only as the media file of a successful pairing (the matcher
    returned a sidecar that exists), or as that sidecar. *)
Theorem merger_no_match_untouched (photo_dir output_dir : Path)
    (json_files : list Path) (media : Path) (st : state)
    (Hnone : find_json_for_photo media json_files = None) :
  process_media photo_dir output_dir json_files media st
  = (mk_state (st_fs st) (st_out st ++ [NoJsonFound (path_name media)])
              (timestamp_int st), Ok tt) /\
  (forall media_files st0 st' r p,
     for_each media_files (process_media photo_dir output_dir json_files) st0
     = (st', r) ->
     fs_lookup (st_fs st0) p <> None ->
     fs_lookup (st_fs st') p = None ->
     exists paired json_file,
       In paired media_files /\
       find_json_for_photo paired json_files = Some json_file /\
       (p = paired \/ (p = json_file /\ path_parent json_file = photo_dir))).
Proof.
  split.
  - apply process_media_no_sidecar. rewrite Hnone. discriminate.
  - clear. induction media_files as [|m rest IH]; intros st0 st' r p Hrun Hb Ha.
    + injection Hrun as <- _. contradiction.
    + cbn [for_each] in Hrun. unfold mbind in Hrun.
      destruct (process_media photo_dir output_dir json_files m st0)
        as [st1 [u|e]] eqn:Estep.
      * destruct (fs_lookup (st_fs st1) p) as [n|] eqn:E1.
        -- destruct (IH st1 st' r p Hrun) as (paired & j & Hin & Hf & Hp);
             [congruence | exact Ha|].
           exists paired, j. split; [now right | now split].
        -- destruct (process_media_deletes _ _ _ _ _ _ _ _ Estep Hb E1)
             as (j & Hf & _ & Hp).
           exists m, j. split; [now left | now split].
      * injection Hrun as <- _.
        destruct (process_media_deletes _ _ _ _ _ _ _ _ Estep Hb Ha)
          as (j & Hf & _ & Hp).
        exists m, j. split; [now left | now split].
Qed.

End Merger.

(* ================================================================== *)
(** * The merger: a successful step *)

Section MergerRun.
Context {P : Platform}.

Lemma int_of_string_raises m s e : int_of_string m s = Raise e -> e = ValueError.
Proof.
  unfold int_of_string.
  destruct (match strip s with
            | String "+" r => (false, r)
            | String "-" r => (true, r)
            | _ => (false, strip s) end) as [neg body].
  destruct (int_literal 0 false body); [|now intros [= <-]].
  destruct m as [n|]; [|discriminate].
  destruct (n <? count_digits body)%nat; [now intros [= <-] | discriminate].
Qed.

Lemma convert_timestamp_run media timestamp st :
  (forall z e, int_of_string max_str_digits (py_str timestamp) = Ok z ->
               fromtimestamp z = Raise e -> e = ValueError \/ e = TypeError) ->
  exists evs ti,
    convert_timestamp media timestamp st
    = (mk_state (st_fs st) (st_out st ++ evs) ti, Ok tt).
Proof.
  intros Hconv. unfold convert_timestamp, try_except_only, mbind, lift,
    set_timestamp_int, ret, emit.
  destruct (int_of_string max_str_digits (py_str timestamp)) as [z|e] eqn:Ei.
  - cbn [st_fs st_out timestamp_int].
    destruct (fromtimestamp z) as [d|e] eqn:Ef.
    + exists [], (Some z). now rewrite app_nil_r.
    + destruct (Hconv z e eq_refl Ef) as [-> | ->]; cbn [exn_eqb orb];
        eexists; eexists; reflexivity.
  - apply int_of_string_raises in Ei. subst e. cbn [exn_eqb orb].
    eexists; eexists; reflexivity.
Qed.

Lemma embed_metadata_run media new lat lon fmt st c t :
  fs_lookup (st_fs st) new = Some (File c t) ->
  exists st',
    embed_metadata media new lat lon fmt st = (st', Ok tt) /\
    (forall p, p <> new -> fs_lookup (st_fs st') p = fs_lookup (st_fs st) p) /\
    (exists c' t', fs_lookup (st_fs st') new = Some (File c' t')) /\
    (exists evs, st_out st' = st_out st ++ evs)%list /\
    timestamp_int st' = timestamp_int st.
Proof.
  intros Hnew. unfold embed_metadata, try_except, mbind, lift.
  destruct (get_exif_gps_dict lat lon) as [gps|e].
  2:{ eexists. split; [reflexivity|]. cbn [emit st_fs st_out timestamp_int]. repeat split; eauto. }
  unfold update at 1, piexif_dump_insert. rewrite Hnew.
  destruct (piexif_insert _ c) as [c'|e]; cbn [rbind].
  2:{ eexists. split; [reflexivity|]. cbn [emit st_fs st_out timestamp_int]. repeat split; eauto. }
  cbn [st_fs st_out timestamp_int]. unfold get_timestamp_int.
  cbn [st_fs st_out timestamp_int].
  destruct (timestamp_int st) as [z|].
  2:{ eexists. split; [reflexivity|]. cbn [emit st_fs st_out timestamp_int]. repeat split.
      - intros p Hp. apply lookup_write_other. congruence.
      - rewrite lookup_write_same. eauto.
      - eauto. }
  unfold update, os_utime. cbn [st_fs st_out timestamp_int].
  destruct (utime_accepts z).
  2:{ eexists. split; [reflexivity|]. cbn [emit st_fs st_out timestamp_int]. repeat split.
      - intros p Hp. apply lookup_write_other. congruence.
      - rewrite lookup_write_same. eauto.
      - eauto. }
  rewrite lookup_write_same.
  eexists. split; [reflexivity|]. cbn [st_fs st_out timestamp_int]. repeat split.
  - intros p Hp. rewrite !lookup_write_other by congruence. reflexivity.
  - rewrite lookup_write_same. eauto.
  - exists []. now rewrite app_nil_r.
Qed.


Lemma path_name_snoc (l : Path) x : path_name (l ++ [x])%list = x.
Proof. unfold path_name. apply last_last. Qed.

Lemma path_parent_snoc (l : Path) x : path_parent (l ++ [x])%list = l.
Proof. unfold path_parent. apply removelast_last. Qed.

Lemma is_dir_lookup_eq fs fs' (p : Path) :
  fs_lookup fs' p = fs_lookup fs p -> is_dir fs' p = is_dir fs p.
Proof. unfold is_dir. destruct p; [reflexivity|]. now intros ->. Qed.

Lemma plain_name_json s : plain_name s = true -> plain_name (s ++ ".json") = true.
Proof.
  unfold plain_name. intros H.
  apply andb_true_iff in H. destruct H as [H _].
  apply andb_true_iff in H. destruct H as [H _].
  rewrite forallb_str_app, H. cbn [andb].
  assert (L : String.length (s ++ ".json") = String.length s + 5)
    by (rewrite string_length_app; reflexivity).
  destruct (String.eqb_spec (s ++ ".json") "") as [E|_];
    [rewrite E in L; simpl in L; lia|].
  destruct (String.eqb_spec (s ++ ".json") ".") as [E|_];
    [rewrite E in L; simpl in L; lia|].
  reflexivity.
Qed.

Lemma create_error_no_nul p :
  create_error p = None -> existsb has_nul p = false.
Proof.
  unfold create_error. now destruct (existsb has_nul p).
Qed.

Lemma shutil_copy_run fs src (dir : Path) name c t :
  fs_lookup fs src = Some (File c t) ->
  is_dir fs dir = true ->
  is_dir fs (dir ++ [name])%list = false ->
  src <> (dir ++ [name])%list ->
  create_error (dir ++ [name])%list = None ->
  shutil_copy fs src (dir ++ [name])%list
  = Ok (fs_write fs (dir ++ [name])%list (File c None)).
Proof.
  intros Hsrc Hdir Hnd Hne Hce. unfold shutil_copy.
  rewrite Hnd, (create_error_no_nul _ Hce), Hsrc.
  rewrite (path_eqb_neq _ _ Hne), Hnd, path_parent_snoc, Hdir, Hce.
  reflexivity.
Qed.

(** The conversion of the timestamp changes no file. *)
Lemma convert_timestamp_shape media timestamp st :
  exists evs ti r,
    convert_timestamp media timestamp st
    = (mk_state (st_fs st) (st_out st ++ evs) ti, r).
Proof.
  unfold convert_timestamp, try_except_only, mbind, lift,
    set_timestamp_int, ret, emit.
  destruct (int_of_string max_str_digits (py_str timestamp)) as [z|e].
  - cbn [st_fs st_out timestamp_int].
    destruct (fromtimestamp z) as [d|e].
    + exists [], (Some z). eexists. now rewrite app_nil_r.
    + destruct (exn_eqb e ValueError || exn_eqb e TypeError);
        cbn [st_fs st_out timestamp_int].
      * eexists; eexists; eexists; reflexivity.
      * exists [], (Some z). eexists. now rewrite app_nil_r.
  - destruct (exn_eqb e ValueError || exn_eqb e TypeError).
    + eexists; eexists; eexists; reflexivity.
    + exists [], (timestamp_int st). eexists. rewrite app_nil_r.
      now destruct st.
Qed.

(** What the embedding leaves of a fresh copy: the copy itself, or what
    [piexif] made of it, with a file time only in the second case. *)
Lemma embed_metadata_content media new lat lon fmt st c :
  fs_lookup (st_fs st) new = Some (File c None) ->
  exists c' t',
    fs_lookup (st_fs (fst (embed_metadata media new lat lon fmt st))) new
    = Some (File c' t') /\
    ((c' = c /\ t' = None) \/
     exists exif_dict, piexif_insert exif_dict c = Ok c').
Proof.
  intros Hnew. unfold embed_metadata, try_except, mbind, lift.
  destruct (get_exif_gps_dict lat lon) as [gps|e].
  2:{ exists c, None. cbn [fst emit st_fs]. split; [exact Hnew | now left]. }
  unfold update at 1, piexif_dump_insert. rewrite Hnew.
  match goal with |- context [piexif_insert ?d c] =>
    destruct (piexif_insert d c) as [c'|e] eqn:Ep end; cbn [rbind].
  2:{ exists c, None. cbn [fst emit st_fs]. split; [exact Hnew | now left]. }
  cbn [st_fs st_out timestamp_int]. unfold get_timestamp_int.
  cbn [st_fs st_out timestamp_int].
  destruct (timestamp_int st) as [z|].
  2:{ exists c', None. cbn [fst emit st_fs].
      split; [apply lookup_write_same | right; eauto]. }
  unfold update, os_utime. cbn [st_fs st_out timestamp_int].
  destruct (utime_accepts z).
  2:{ exists c', None. cbn [fst emit st_fs].
      split; [apply lookup_write_same | right; eauto]. }
  rewrite lookup_write_same. exists c', (Some z). cbn [fst st_fs].
  split; [apply lookup_write_same | right; eauto].
Qed.

(** What a step does for a sidecar that is found and read, with a truthy
    timestamp, when both copies can be made: [st2] is the state the
    embedding leaves, for a JPEG, after the copy of the media file. *)
Lemma process_media_run
    (photo_dir output_dir : Path) (json_files : list Path)
    (media json_file : Path) (st : state)
    (metadata photo_taken_time timestamp formatted_time people : pyval)
    (geo_data : list (string * pyval)) (people_names : list pyval)
    (cm : content) (tm : option Z)
    (Hfind : find_json_for_photo media json_files = Some json_file)
    (Hload : json_load (st_fs st) json_file = Ok metadata)
    (Hptt : py_get metadata "photoTakenTime" (VDict []) = Ok photo_taken_time)
    (Hts : py_get photo_taken_time "timestamp" VNone = Ok timestamp)
    (Hfmt : py_get photo_taken_time "formatted" (VStr "") = Ok formatted_time)
    (Hgeo : py_get metadata "geoData" (VDict []) = Ok (VDict geo_data))
    (Hpeople : py_get metadata "people" (VList []) = Ok people)
    (Hnames : get_people_names people = Ok people_names)
    (Htruthy : truthy timestamp = true)
    (Hconv : forall z e,
       int_of_string max_str_digits (py_str timestamp) = Ok z ->
       fromtimestamp z = Raise e -> e = ValueError \/ e = TypeError)
    (Hmedia : fs_lookup (st_fs st) media = Some (File cm tm)) :
  let new_name := py_str timestamp ++ "_" ++ path_name media in
  let new_media_path := path_join output_dir new_name in
  let json_target := path_join output_dir (new_name ++ ".json") in
  let latitude := match dict_get geo_data "latitude" with
                  | Some x => x | None => VInt 0 end in
  let longitude := match dict_get geo_data "longitude" with
                   | Some x => x | None => VInt 0 end in
  let stc := fst (convert_timestamp media timestamp st) in
  let st1 := mk_state (fs_write (st_fs st) new_media_path (File cm None))
               (st_out stc) (timestamp_int stc) in
  let st2 := fst ((if mem_str (lower (path_suffix media)) [".jpg"; ".jpeg"]
                   then embed_metadata media new_media_path
                          latitude longitude formatted_time
                   else ret tt) st1) in
  plain_name new_name = true ->
  create_error new_media_path = None ->
  create_error json_target = None ->
  is_dir (st_fs st) output_dir = true ->
  is_dir (st_fs st) new_media_path = false ->
  is_dir (st_fs st) json_target = false ->
  json_file <> media -> json_file <> new_media_path ->
  json_file <> json_target ->
  exists st',
    process_media photo_dir output_dir json_files media st = (st', Ok tt) /\
    fs_lookup (st_fs st') new_media_path
    = fs_lookup (st_fs st2) new_media_path /\
    fs_lookup (st_fs st') json_target = Some (File (JsonFile metadata) None) /\
    fs_lookup (st_fs st') media = None /\
    (path_parent json_file = photo_dir ->
     fs_lookup (st_fs st') json_file = None) /\
    (path_parent json_file <> photo_dir ->
     fs_lookup (st_fs st') json_file = fs_lookup (st_fs st) json_file) /\
    st_out st'
    = (st_out st2 ++ Processed (path_name media) new_name
         :: match people_names with
            | [] => []
            | _ => match join_names people_names with
                   | Ok names => [PeopleInPhoto names]
                   | Raise e => [ErrorProcessing (path_name media) e]
                   end
            end)%list.
Proof.
  intros new_name new_media_path json_target latitude longitude stc st1 st2
    Hplain Hce1 Hce2 Hout Hnd1 Hnd2 Hjm Hjn Hjt.
  assert (Hjs : exists tj, fs_lookup (st_fs st) json_file
                           = Some (File (JsonFile metadata) tj)).
  { unfold json_load in Hload.
    destruct (fs_lookup (st_fs st) json_file) as [[[i|v|d] tj|]|];
      try discriminate.
    injection Hload as ->. now exists tj. }
  destruct Hjs as [tj Hjs].
  assert (Hex : path_exists (st_fs st) json_file = true).
  { unfold path_exists, is_file. rewrite Hjs. apply orb_true_r. }
  assert (Hnew : new_media_path = (output_dir ++ [new_name])%list)
    by (apply path_join_plain; exact Hplain).
  assert (Htgt : json_target
                 = (output_dir ++ [(new_name ++ ".json")%string])%list)
    by (apply path_join_plain, plain_name_json; exact Hplain).
  assert (Hmn : media <> new_media_path).
  { intros E. apply (f_equal path_name) in E.
    rewrite Hnew, path_name_snoc in E. apply (f_equal String.length) in E.
    unfold new_name in E. rewrite !string_length_app in E.
    cbn [String.length] in E. lia. }
  assert (Hmt : media <> json_target).
  { intros E. apply (f_equal path_name) in E.
    rewrite Htgt, path_name_snoc in E. apply (f_equal String.length) in E.
    unfold new_name in E. rewrite !string_length_app in E.
    cbn [String.length] in E. lia. }
  assert (Hnt : new_media_path <> json_target).
  { rewrite Hnew, Htgt. intros E. apply app_inv_head in E.
    injection E as E. apply (f_equal String.length) in E.
    rewrite string_length_app in E. cbn [String.length] in E. lia. }
  destruct (convert_timestamp_run media timestamp st Hconv) as (evs & ti & Hc).
  assert (Hstc : stc = mk_state (st_fs st) (st_out st ++ evs)%list ti)
    by (unfold stc; now rewrite Hc).
  (* the copy of the media file *)
  set (fs1 := fs_write (st_fs st) new_media_path (File cm None)).
  assert (Hcopy1 : shutil_copy (st_fs st) media new_media_path = Ok fs1).
  { unfold fs1. rewrite Hnew. apply shutil_copy_run with (t := tm);
      rewrite <- ?Hnew; trivial. }
  assert (Hst1 : st1 = mk_state fs1 (st_out st ++ evs)%list ti)
    by (unfold st1; now rewrite Hstc).
  (* the embedding, for a JPEG *)
  assert (Hemb : (if mem_str (lower (path_suffix media)) [".jpg"; ".jpeg"]
                  then embed_metadata media new_media_path
                         latitude longitude formatted_time
                  else ret tt) st1 = (st2, Ok tt) /\
                 (forall p, p <> new_media_path ->
                            fs_lookup (st_fs st2) p = fs_lookup fs1 p) /\
                 timestamp_int st2 = ti).
  { unfold st2. destruct (mem_str _ _).
    - destruct (embed_metadata_run media new_media_path latitude longitude
                  formatted_time st1 cm None)
        as (s2 & H1 & H2 & _ & _ & H5).
      + rewrite Hst1. cbn [st_fs]. apply lookup_write_same.
      + rewrite H1. cbn [fst]. rewrite Hst1 in H2, H5.
        repeat split; trivial.
    - unfold ret. cbn [fst]. rewrite Hst1. repeat split. }
  destruct Hemb as (Hemb & Hframe2 & Hti2).
  (* the copy of the sidecar *)
  assert (Hl2 : forall p, p <> new_media_path ->
                  fs_lookup (st_fs st2) p = fs_lookup (st_fs st) p).
  { intros p Hp. rewrite Hframe2 by exact Hp. unfold fs1.
    apply lookup_write_other. congruence. }
  set (fs3 := fs_write (st_fs st2) json_target (File (JsonFile metadata) None)).
  assert (Hcopy2 : shutil_copy (st_fs st2) json_file json_target = Ok fs3).
  { unfold fs3. rewrite Htgt. apply shutil_copy_run with (t := tj).
    - rewrite Hl2 by exact Hjn. exact Hjs.
    - replace (is_dir (st_fs st2) output_dir)
        with (is_dir (st_fs st) output_dir); [exact Hout|].
      symmetry. apply is_dir_lookup_eq, Hl2.
      rewrite Hnew. intros E. apply (f_equal (@List.length _)) in E.
      rewrite List.length_app in E. cbn [List.length] in E. lia.
    - rewrite <- Htgt.
      replace (is_dir (st_fs st2) json_target)
        with (is_dir (st_fs st) json_target); [exact Hnd2|].
      symmetry. apply is_dir_lookup_eq, Hl2. congruence.
    - now rewrite <- Htgt.
    - now rewrite <- Htgt. }
  (* the deletions *)
  assert (Hm3 : is_file fs3 media = true).
  { unfold is_file, fs3. rewrite lookup_write_other by congruence.
    rewrite Hl2 by exact Hmn. now rewrite Hmedia. }
  set (fs4 := fs_remove fs3 media).
  assert (Hj4 : is_file fs4 json_file = true).
  { unfold is_file, fs4, fs3. rewrite lookup_remove_other by congruence.
    rewrite lookup_write_other by congruence.
    rewrite Hl2 by exact Hjn. now rewrite Hjs. }
  set (fs5 := if path_eqb (path_parent json_file) photo_dir
              then fs_remove fs4 json_file else fs4).
  assert (Hrun : exists r5,
            process_media photo_dir output_dir json_files media st
            = (mk_state fs5
                 (st_out st2 ++ Processed (path_name media) new_name
                    :: match people_names with
                       | [] => []
                       | _ => match join_names people_names with
                              | Ok names => [PeopleInPhoto names]
                              | Raise e => [ErrorProcessing (path_name media) e]
                              end
                       end)%list ti, Ok r5)).
  { unfold process_media, try_except. rewrite Hfind.
    unfold mbind at 1. unfold read at 1. rewrite Hex.
    unfold mbind at 1. unfold read at 1. rewrite Hload.
    unfold mbind at 1. unfold lift at 1. rewrite Hptt.
    unfold mbind at 1. unfold lift at 1. rewrite Hts.
    unfold mbind at 1. unfold lift at 1. rewrite Hfmt.
    rewrite Htruthy.
    unfold mbind at 1. rewrite Hc.
    unfold mbind at 1. unfold lift at 1. rewrite Hgeo.
    unfold mbind at 1. unfold lift at 1. cbn [py_get].
    unfold mbind at 1. unfold lift at 1.
    unfold mbind at 1. unfold lift at 1.
    unfold mbind at 1. unfold lift at 1. rewrite Hpeople.
    unfold mbind at 1. unfold lift at 1. rewrite Hnames.
    fold new_name. fold new_media_path. fold json_target.
    fold latitude. fold longitude.
    unfold mbind at 1. unfold update at 1. cbn [st_fs st_out timestamp_int].
    rewrite Hcopy1. rewrite <- Hst1.
    unfold mbind at 1. rewrite Hemb.
    unfold mbind at 1. unfold update at 1. rewrite Hcopy2.
    cbn [st_fs st_out timestamp_int].
    unfold mbind at 1. unfold update at 1. cbn [st_fs st_out timestamp_int].
    unfold os_remove at 1. rewrite Hm3. fold fs4.
    cbn [st_fs st_out timestamp_int].
    unfold mbind at 1.
    assert (Hdel : exists u,
              (if path_eqb (path_parent json_file) photo_dir
               then update (fun fs => os_remove fs json_file)
               else ret tt) (mk_state fs4 (st_out st2) (timestamp_int st2))
              = (mk_state fs5 (st_out st2) ti, Ok u)).
    { unfold fs5. destruct (path_eqb (path_parent json_file) photo_dir).
      - unfold update, os_remove. cbn [st_fs st_out timestamp_int].
        rewrite Hj4, Hti2. eauto.
      - unfold ret. rewrite Hti2. eauto. }
    destruct Hdel as [u Hdel]. rewrite Hdel.
    unfold mbind at 1. unfold emit at 1. cbn [st_fs st_out timestamp_int].
    destruct people_names as [|n ns].
    - unfold ret. eexists. reflexivity.
    - unfold mbind, lift, emit.
      destruct (join_names (n :: ns)) as [s|e];
        cbn [st_fs st_out timestamp_int]; rewrite <- app_assoc;
        eexists; reflexivity. }
  destruct Hrun as ([] & Hrun).
  eexists. split; [exact Hrun|]. cbn [st_fs st_out].
  assert (Hpj : forall p, p <> media -> p <> json_file ->
                  fs_lookup fs5 p = fs_lookup fs3 p).
  { intros p Hp1 Hp2. unfold fs5, fs4.
    destruct (path_eqb (path_parent json_file) photo_dir).
    - rewrite !lookup_remove_other by congruence. reflexivity.
    - rewrite lookup_remove_other by congruence. reflexivity. }
  split; [|split; [|split; [|split; [|split; [|reflexivity]]]]].
  - rewrite Hpj by congruence. unfold fs3.
    now rewrite lookup_write_other by congruence.
  - rewrite Hpj by congruence. unfold fs3. apply lookup_write_same.
  - unfold fs5, fs4.
    destruct (path_eqb (path_parent json_file) photo_dir).
    + rewrite lookup_remove_other by congruence. apply lookup_remove_same.
    + apply lookup_remove_same.
  - intros Hp. unfold fs5. rewrite (proj2 (path_eqb_eq _ _) Hp).
    apply lookup_remove_same.
  - intros Hp. unfold fs5, fs4, fs3. rewrite (path_eqb_neq _ _ Hp).
    rewrite lookup_remove_other by congruence.
    rewrite lookup_write_other by congruence. now apply Hl2.
Qed.


(** ... and when the timestamp is falsy. *)
Lemma process_media_skip
    (photo_dir output_dir : Path) (json_files : list Path)
    (media json_file : Path) (st : state)
    (metadata photo_taken_time timestamp people : pyval)
    (geo_data : list (string * pyval)) (people_names : list pyval)
    (Hfind : find_json_for_photo media json_files = Some json_file)
    (Hload : json_load (st_fs st) json_file = Ok metadata)
    (Hptt : py_get metadata "photoTakenTime" (VDict []) = Ok photo_taken_time)
    (Hts : py_get photo_taken_time "timestamp" VNone = Ok timestamp)
    (Hgeo : py_get metadata "geoData" (VDict []) = Ok (VDict geo_data))
    (Hpeople : py_get metadata "people" (VList []) = Ok people)
    (Hnames : get_people_names people = Ok people_names)
    (Hfalsy : truthy timestamp = false) :
  process_media photo_dir output_dir json_files media st
  = (mk_state (st_fs st)
       (st_out st ++ [SkippingMissingTimestamp (path_name media)])
       (timestamp_int st), Ok tt).
Proof.
  assert (Hex : path_exists (st_fs st) json_file = true).
  { unfold json_load in Hload. unfold path_exists, is_file.
    destruct (fs_lookup (st_fs st) json_file) as [[c t|]|];
      try discriminate. apply orb_true_r. }
  assert (Hfmt : exists formatted,
            py_get photo_taken_time "formatted" (VStr "") = Ok formatted).
  { destruct photo_taken_time; try discriminate. eexists. reflexivity. }
  destruct Hfmt as [formatted Hfmt].
  unfold process_media, try_except. rewrite Hfind.
  unfold mbind, read, lift, emit, ret.
  rewrite Hex, Hload, Hptt, Hts, Hfmt, Hfalsy, Hgeo. cbn [py_get].
  rewrite Hpeople, Hnames. reflexivity.
Qed.

(** ... and when the conversion or the first copy raises. *)
Lemma process_media_not_copied
    (photo_dir output_dir : Path) (json_files : list Path)
    (media json_file : Path) (st : state)
    (metadata photo_taken_time timestamp people : pyval)
    (geo_data : list (string * pyval)) (people_names : list pyval) (e : exn)
    (Hfind : find_json_for_photo media json_files = Some json_file)
    (Hload : json_load (st_fs st) json_file = Ok metadata)
    (Hptt : py_get metadata "photoTakenTime" (VDict []) = Ok photo_taken_time)
    (Hts : py_get photo_taken_time "timestamp" VNone = Ok timestamp)
    (Hgeo : py_get metadata "geoData" (VDict []) = Ok (VDict geo_data))
    (Hpeople : py_get metadata "people" (VList []) = Ok people)
    (Hnames : get_people_names people = Ok people_names)
    (Htruthy : truthy timestamp = true)
    (Hraise :
       snd (convert_timestamp media timestamp st) = Raise e \/
       (snd (convert_timestamp media timestamp st) = Ok tt /\
        shutil_copy (st_fs st) media
          (path_join output_dir
             (py_str timestamp ++ "_" ++ path_name media)) = Raise e)) :
  exists evs ti,
    process_media photo_dir output_dir json_files media st
    = (mk_state (st_fs st)
         (st_out st ++ evs ++ [ErrorProcessing (path_name media) e]) ti,
       Ok tt).
Proof.
  assert (Hex : path_exists (st_fs st) json_file = true).
  { unfold json_load in Hload. unfold path_exists, is_file.
    destruct (fs_lookup (st_fs st) json_file) as [[c t|]|];
      try discriminate. apply orb_true_r. }
  assert (Hfmt : exists formatted,
            py_get photo_taken_time "formatted" (VStr "") = Ok formatted).
  { destruct photo_taken_time; try discriminate. eexists. reflexivity. }
  destruct Hfmt as [formatted Hfmt].
  destruct (convert_timestamp_shape media timestamp st)
    as (evs & ti & r & Hc).
  rewrite Hc in Hraise. cbn [snd] in Hraise.
  exists evs, ti.
  unfold process_media, try_except. rewrite Hfind.
  unfold mbind at 1. unfold read at 1. rewrite Hex.
  unfold mbind at 1. unfold read at 1. rewrite Hload.
  unfold mbind at 1. unfold lift at 1. rewrite Hptt.
  unfold mbind at 1. unfold lift at 1. rewrite Hts.
  unfold mbind at 1. unfold lift at 1. rewrite Hfmt.
  rewrite Htruthy.
  unfold mbind at 1. rewrite Hc.
  destruct Hraise as [-> | [-> Hcopy]].
  - unfold emit. cbn [st_fs st_out timestamp_int].
    now rewrite app_assoc.
  - unfold mbind at 1. unfold lift at 1. rewrite Hgeo.
    unfold mbind at 1. unfold lift at 1. cbn [py_get].
    unfold mbind at 1. unfold lift at 1.
    unfold mbind at 1. unfold lift at 1.
    unfold mbind at 1. unfold lift at 1. rewrite Hpeople.
    unfold mbind at 1. unfold lift at 1. rewrite Hnames.
    unfold mbind at 1. unfold update at 1. cbn [st_fs st_out timestamp_int].
    rewrite Hcopy. unfold emit. cbn [st_fs st_out timestamp_int].
    now rewrite app_assoc.
Qed.

(** The three outcomes of a step for a sidecar that is found and read. *)
Lemma merger_run_facts
    (photo_dir output_dir : Path) (json_files : list Path)
    (media json_file : Path) (st : state)
    (metadata photo_taken_time timestamp people : pyval)
    (geo_data : list (string * pyval)) (people_names : list pyval)
    (original : content) (times : option Z)
    (Hfind : find_json_for_photo media json_files = Some json_file)
    (Hload : json_load (st_fs st) json_file = Ok metadata)
    (Hptt : py_get metadata "photoTakenTime" (VDict []) = Ok photo_taken_time)
    (Hts : py_get photo_taken_time "timestamp" VNone = Ok timestamp)
    (Hgeo : py_get metadata "geoData" (VDict []) = Ok (VDict geo_data))
    (Hpeople : py_get metadata "people" (VList []) = Ok people)
    (Hnames : get_people_names people = Ok people_names)
    (Hmedia : fs_lookup (st_fs st) media = Some (File original times)) :
  let new_name := py_str timestamp ++ "_" ++ path_name media in
  let new_media_path := path_join output_dir new_name in
  let json_target := path_join output_dir (new_name ++ ".json") in
  (truthy timestamp = false ->
   process_media photo_dir output_dir json_files media st
   = (mk_state (st_fs st)
        (st_out st ++ [SkippingMissingTimestamp (path_name media)])
        (timestamp_int st), Ok tt)) /\
  (truthy timestamp = true ->
   (forall z e, int_of_string max_str_digits (py_str timestamp) = Ok z ->
                fromtimestamp z = Raise e -> e = ValueError \/ e = TypeError) ->
   plain_name new_name = true ->
   create_error new_media_path = None ->
   create_error json_target = None ->
   is_dir (st_fs st) output_dir = true ->
   is_dir (st_fs st) new_media_path = false ->
   is_dir (st_fs st) json_target = false ->
   json_file <> media -> json_file <> new_media_path ->
   json_file <> json_target ->
   exists st' copy copy_times,
     process_media photo_dir output_dir json_files media st = (st', Ok tt) /\
     fs_lookup (st_fs st') new_media_path = Some (File copy copy_times) /\
     ((copy = original /\ copy_times = None) \/
      exists exif_dict, piexif_insert exif_dict original = Ok copy) /\
     (mem_str (lower (path_suffix media)) [".jpg"; ".jpeg"] = false ->
      copy = original /\ copy_times = None) /\
     fs_lookup (st_fs st') json_target = Some (File (JsonFile metadata) None) /\
     fs_lookup (st_fs st') media = None /\
     (path_parent json_file = photo_dir ->
      fs_lookup (st_fs st') json_file = None) /\
     (path_parent json_file <> photo_dir ->
      fs_lookup (st_fs st') json_file = fs_lookup (st_fs st) json_file) /\
     In (Processed (path_name media) new_name) (st_out st')) /\
  (truthy timestamp = true ->
   forall e,
     snd (convert_timestamp media timestamp st) = Raise e \/
     (snd (convert_timestamp media timestamp st) = Ok tt /\
      shutil_copy (st_fs st) media new_media_path = Raise e) ->
   exists evs ti,
     process_media photo_dir output_dir json_files media st
     = (mk_state (st_fs st)
          (st_out st ++ evs ++ [ErrorProcessing (path_name media) e]) ti,
        Ok tt)).
Proof.
  intros new_name new_media_path json_target.
  split; [|split].
  - intros Hfalsy.
    exact (process_media_skip photo_dir output_dir json_files media json_file
             st metadata photo_taken_time timestamp people geo_data
             people_names Hfind Hload Hptt Hts Hgeo Hpeople Hnames Hfalsy).
  - intros Htruthy Hconv Hplain Hce1 Hce2 Hout Hnd1 Hnd2 Hjm Hjn Hjt.
    assert (Hfmt : exists formatted,
              py_get photo_taken_time "formatted" (VStr "") = Ok formatted).
    { destruct photo_taken_time; try discriminate. eexists. reflexivity. }
    destruct Hfmt as [formatted Hfmt].
    destruct (process_media_run photo_dir output_dir json_files media
                json_file st metadata photo_taken_time timestamp formatted
                people geo_data people_names original times Hfind Hload Hptt
                Hts Hfmt Hgeo Hpeople Hnames Htruthy Hconv Hmedia Hplain Hce1
                Hce2 Hout Hnd1 Hnd2 Hjm Hjn Hjt)
      as (st' & Hrun & Hlook & Hjson & Hgone & Hdel & Hkept & Hprinted).
    fold new_name new_media_path json_target in Hlook, Hjson, Hprinted.
    set (st1 := mk_state
                  (fs_write (st_fs st) new_media_path (File original None))
                  (st_out (fst (convert_timestamp media timestamp st)))
                  (timestamp_int (fst (convert_timestamp media timestamp st))))
      in Hlook.
    assert (H1 : fs_lookup (st_fs st1) new_media_path
                 = Some (File original None)) by apply lookup_write_same.
    assert (Hcopy : exists copy copy_times,
              fs_lookup (st_fs st') new_media_path
              = Some (File copy copy_times) /\
              ((copy = original /\ copy_times = None) \/
               exists exif_dict, piexif_insert exif_dict original = Ok copy) /\
              (mem_str (lower (path_suffix media)) [".jpg"; ".jpeg"] = false ->
               copy = original /\ copy_times = None)).
    { rewrite Hlook.
      destruct (mem_str (lower (path_suffix media)) [".jpg"; ".jpeg"]).
      - match goal with |- context [embed_metadata ?a ?b ?c ?d ?f st1] =>
          destruct (embed_metadata_content a b c d f st1 original H1)
            as (c' & t' & Hc & Hrel) end.
        exists c', t'. split; [exact Hc|]. split; [exact Hrel | discriminate].
      - exists original, None. cbn [fst ret]. split; [exact H1|].
        split; [now left | now split]. }
    destruct Hcopy as (copy & copy_times & Hc & Hrel & Hplainc).
    exists st', copy, copy_times.
    repeat (split; [assumption|]).
    rewrite Hprinted. apply in_or_app. right. now left.
  - intros Htruthy e Hraise.
    exact (process_media_not_copied photo_dir output_dir json_files media
             json_file st metadata photo_taken_time timestamp people geo_data
             people_names e Hfind Hload Hptt Hts Hgeo Hpeople Hnames Htruthy
             Hraise).
Qed.

(** C10 (amended): the merger applies no numeric or range validation to
    the sidecar timestamp it renames with.  For a matched sidecar that is
    read, with well-formed [geoData] and [people], and a media file that
    is a regular file:
    - when the timestamp is falsy the file is skipped;
    - when it is truthy (numeric or not, in range or not) and both copies
      can be made, the destination holds, under [<timestamp>_<name>], a
      file with the bytes of the original, or with what [piexif] made of
      them for a JPEG, and next to it the sidecar; the original media
      file is deleted, and the original sidecar is deleted when it lies
      in the source directory and kept otherwise.  The copies can be
      made when the conversion raises nothing but [ValueError] or
      [TypeError], [<timestamp>_<name>] is a plain file name that the
      system accepts, with [.json] added too (no NUL, at most 255 bytes, a
      path under 4096 bytes), the destination directory exists and the
      paths involved do not collide;
    - when it is truthy and the conversion raises something else, or the
      first copy raises, nothing is copied or deleted and the file is
      reported as an error. *)
Theorem merger_renames_without_validation
    (photo_dir output_dir : Path) (json_files : list Path)
    (media json_file : Path) (st : state)
    (metadata photo_taken_time timestamp people : pyval)
    (geo_data : list (string * pyval)) (people_names : list pyval)
    (original : content) (times : option Z)
    (Hfind : find_json_for_photo media json_files = Some json_file)
    (Hload : json_load (st_fs st) json_file = Ok metadata)
    (Hptt : py_get metadata "photoTakenTime" (VDict []) = Ok photo_taken_time)
    (Hts : py_get photo_taken_time "timestamp" VNone = Ok timestamp)
    (Hgeo : py_get metadata "geoData" (VDict []) = Ok (VDict geo_data))
    (Hpeople : py_get metadata "people" (VList []) = Ok people)
    (Hnames : get_people_names people = Ok people_names)
    (Hmedia : fs_lookup (st_fs st) media = Some (File original times)) :
  let new_name := py_str timestamp ++ "_" ++ path_name media in
  let new_media_path := path_join output_dir new_name in
  let json_target := path_join output_dir (new_name ++ ".json") in
  (truthy timestamp = false ->
   process_media photo_dir output_dir json_files media st
   = (mk_state (st_fs st)
        (st_out st ++ [SkippingMissingTimestamp (path_name media)])
        (timestamp_int st), Ok tt)) /\
  (truthy timestamp = true ->
   (forall z e, int_of_string max_str_digits (py_str timestamp) = Ok z ->
                fromtimestamp z = Raise e -> e = ValueError \/ e = TypeError) ->
   plain_name new_name = true ->
   create_error new_media_path = None ->
   create_error json_target = None ->
   is_dir (st_fs st) output_dir = true ->
   is_dir (st_fs st) new_media_path = false ->
   is_dir (st_fs st) json_target = false ->
   json_file <> media -> json_file <> new_media_path ->
   json_file <> json_target ->
   exists st' copy copy_times,
     process_media photo_dir output_dir json_files media st = (st', Ok tt) /\
     fs_lookup (st_fs st') new_media_path = Some (File copy copy_times) /\
     ((copy = original /\ copy_times = None) \/
      exists exif_dict, piexif_insert exif_dict original = Ok copy) /\
     (mem_str (lower (path_suffix media)) [".jpg"; ".jpeg"] = false ->
      copy = original /\ copy_times = None) /\
     fs_lookup (st_fs st') json_target = Some (File (JsonFile metadata) None) /\
     fs_lookup (st_fs st') media = None /\
     (path_parent json_file = photo_dir ->
      fs_lookup (st_fs st') json_file = None) /\
     (path_parent json_file <> photo_dir ->
      fs_lookup (st_fs st') json_file = fs_lookup (st_fs st) json_file) /\
     In (Processed (path_name media) new_name) (st_out st')) /\
  (truthy timestamp = true ->
   forall e,
     snd (convert_timestamp media timestamp st) = Raise e \/
     (snd (convert_timestamp media timestamp st) = Ok tt /\
      shutil_copy (st_fs st) media new_media_path = Raise e) ->
   exists evs ti,
     process_media photo_dir output_dir json_files media st
     = (mk_state (st_fs st)
          (st_out st ++ evs ++ [ErrorProcessing (path_name media) e]) ti,
        Ok tt)).
Proof.
  exact (merger_run_facts photo_dir output_dir json_files media json_file st
           metadata photo_taken_time timestamp people geo_data people_names
           original times Hfind Hload Hptt Hts Hgeo Hpeople Hnames Hmedia).
Qed.

Lemma keeps_weaken (Q Q' : Path -> Prop) {A} (m : M A) :
  (forall p, Q p -> Q' p) -> keeps Q' m -> keeps Q m.
Proof. intros HQ Hm st st' r Hrun p Hp. apply (Hm st st' r Hrun p), HQ, Hp. Qed.

(** A run deletes nothing outside the source directory but the media
    files it handles. *)
Lemma run_keeps_outside_source photo_dir output_dir json_files media_files :
  keeps (fun p => ~ In p media_files /\ path_parent p <> photo_dir)
        (for_each media_files (process_media photo_dir output_dir json_files)).
Proof.
  induction media_files as [|m rest IH]; cbn [for_each]; [apply keeps_ret|].
  apply keeps_bind.
  - eapply keeps_weaken; [|apply process_media_keeps].
    intros p [Hnot Hparent]. split.
    + intros ->. apply Hnot. now left.
    + intros j _ Hj ->. contradiction.
  - intros _. eapply keeps_weaken; [|exact IH].
    intros p [Hnot Hparent]. split; [|exact Hparent].
    intros Hin. apply Hnot. now right.
Qed.

Lemma int_of_string_epoch m z :
  int_of_string m "1000000000" = Ok z -> z = 1000000000%Z.
Proof.
  assert (E : int_of_string m "1000000000"
              = match m with
                | Some n => if (n <? 10)%nat then Raise ValueError
                            else Ok 1000000000%Z
                | None => Ok 1000000000%Z
                end) by (destruct m; reflexivity).
  rewrite E. destruct m as [n|]; [destruct (n <? 10)%nat|]; congruence.
Qed.

(** C6: from [photo.jpg] and [photo.json] with
    [photoTakenTime.timestamp = "1000000000"] in the source directory, a
    run leaves in the destination [1000000000_photo.jpg], holding the
    picture (its bytes, or what [piexif] made of them), and
    [1000000000_photo.jpg.json], holding the sidecar, and removes both
    originals; with a [piexif] that rejects the dictionary, as the real
    one does, the final state is given in full.  The sidecar goes only
    because it lay in the source directory: a step deletes no sidecar
    that lies elsewhere, the destination included. *)
Theorem merger_end_to_end :
  (exists st' copy copy_times,
     process_photos_and_json ["Photos"] ["Photos"] ["output"]
       (start (export_fs (VStr "1000000000"))) = (st', Ok tt) /\
     fs_lookup (st_fs st') ["output"; "1000000000_photo.jpg"]
     = Some (File copy copy_times) /\
     ((copy = picture "JPEG" None /\ copy_times = None) \/
      exists exif_dict,
        piexif_insert exif_dict (picture "JPEG" None) = Ok copy) /\
     fs_lookup (st_fs st') ["output"; "1000000000_photo.jpg.json"]
     = Some (File (json_with_timestamp (VStr "1000000000")) None) /\
     fs_lookup (st_fs st') ["Photos"; "photo.jpg"] = None /\
     fs_lookup (st_fs st') ["Photos"; "photo.json"] = None) /\
  process_photos_and_json (P := sample_platform)
    ["Photos"] ["Photos"] ["output"] (start (export_fs (VStr "1000000000")))
  = (mk_state
       [ (["Photos"], Dir);
         (["output"], Dir);
         (["output"; "1000000000_photo.jpg"], File (picture "JPEG" None) None);
         (["output"; "1000000000_photo.jpg.json"],
          File (json_with_timestamp (VStr "1000000000")) None) ]
       [ WarnExif "photo.jpg" TypeError;
         Processed "photo.jpg" "1000000000_photo.jpg" ]
       (Some 1000000000%Z), Ok tt) /\
  (forall photo_dir output_dir json_files media_files st st' r sidecar,
     for_each media_files (process_media photo_dir output_dir json_files) st
     = (st', r) ->
     ~ In sidecar media_files ->
     path_parent sidecar <> photo_dir ->
     fs_lookup (st_fs st) sidecar <> None ->
     fs_lookup (st_fs st') sidecar <> None).
Proof.
  split; [|split].
  - set (fs1 := (export_fs (VStr "1000000000") ++ [(["output"], Dir)])%list).
    assert (Hpre :
      process_photos_and_json ["Photos"] ["Photos"] ["output"]
        (start (export_fs (VStr "1000000000")))
      = for_each [["Photos"; "photo.jpg"]]
          (process_media ["Photos"] ["output"] [["Photos"; "photo.json"]])
          (start fs1)) by reflexivity.
    destruct (proj1 (proj2 (merger_run_facts
                ["Photos"] ["output"] [["Photos"; "photo.json"]]
                ["Photos"; "photo.jpg"] ["Photos"; "photo.json"] (start fs1)
                (VDict [("photoTakenTime", VDict [("timestamp", VStr "1000000000")])])
                (VDict [("timestamp", VStr "1000000000")])
                (VStr "1000000000") (VList []) [] []
                (picture "JPEG" None) None
                eq_refl eq_refl eq_refl eq_refl eq_refl eq_refl eq_refl
                eq_refl))
              eq_refl)
      as (st' & copy & copy_times & Hrun & Hnew & Hrel & _ & Hjson & Hmedia
          & Hdel & _).
    + intros z e Hz Hf. apply int_of_string_epoch in Hz. subst z.
      destruct (fromtimestamp_32bit 1000000000%Z) as [d Hd]; [|congruence].
      split; [lia|reflexivity].
    + reflexivity.
    + reflexivity.
    + reflexivity.
    + reflexivity.
    + reflexivity.
    + reflexivity.
    + discriminate.
    + discriminate.
    + discriminate.
    + exists st', copy, copy_times. split.
      * rewrite Hpre. cbn [for_each]. unfold mbind. now rewrite Hrun.
      * split; [exact Hnew|]. split; [exact Hrel|].
        split; [exact Hjson|]. split; [exact Hmedia|]. now apply Hdel.
  - vm_compute. reflexivity.
  - intros photo_dir output_dir json_files media_files st st' r sidecar
           Hrun Hnot Hparent Hbefore.
    apply (run_keeps_outside_source photo_dir output_dir json_files
             media_files st st' r Hrun sidecar); trivial.
    now split.
Qed.

End MergerRun.

(** C10 (as stated, refuted): a truthy, non-numeric timestamp with slashes
    in it: nothing is copied and nothing is deleted, the file is reported
    as an error. *)
Lemma merger_slash_timestamp_not_copied :
  let st' := fst (process_photos_and_json (P := sample_platform)
                    ["Photos"] ["Photos"] ["output"]
                    (start (export_fs (VStr "12/31/2015")))) in
  truthy (VStr "12/31/2015") = true /\
  st_fs st' = (export_fs (VStr "12/31/2015") ++ [(["output"], Dir)])%list /\
  st_out st' = [WarnTimestamp "photo.jpg" ValueError;
                ErrorProcessing "photo.jpg" OSError] /\
  ~ (is_file (st_fs st') (path_join ["output"] "12/31/2015_photo.jpg") = true
     /\ fs_lookup (st_fs st') ["Photos"; "photo.jpg"] = None).
Proof.
  intros st'. repeat split. intros [H _]. vm_compute in H. discriminate H.
Qed.

Lemma merger_renames_without_validation_witness :
  let fs := (export_fs (VStr "last summer") ++ [(["output"], Dir)])%list in
  exists st' copy copy_times,
    process_media (P := sample_platform) ["Photos"] ["output"]
      [["Photos"; "photo.json"]] ["Photos"; "photo.jpg"] (start fs)
    = (st', Ok tt) /\
    fs_lookup (st_fs st') ["output"; "last summer_photo.jpg"]
    = Some (File copy copy_times) /\
    ((copy = picture "JPEG" None /\ copy_times = None) \/
     exists exif_dict,
       piexif_insert (Platform := sample_platform) exif_dict
         (picture "JPEG" None) = Ok copy) /\
    fs_lookup (st_fs st') ["Photos"; "photo.jpg"] = None.
Proof.
  intros fs.
  destruct (proj1 (proj2 (merger_renames_without_validation
              (P := sample_platform)
              ["Photos"] ["output"] [["Photos"; "photo.json"]]
              ["Photos"; "photo.jpg"] ["Photos"; "photo.json"] (start fs)
              (VDict [("photoTakenTime", VDict [("timestamp", VStr "last summer")])])
              (VDict [("timestamp", VStr "last summer")])
              (VStr "last summer") (VList []) [] []
              (picture "JPEG" None) None
              eq_refl eq_refl eq_refl eq_refl eq_refl eq_refl eq_refl
              eq_refl))
            eq_refl)
    as (st' & copy & copy_times & Hrun & Hnew & Hrel & _ & _ & Hmedia & _).
  - intros z e Hz. vm_compute in Hz. discriminate Hz.
  - reflexivity.
  - reflexivity.
  - reflexivity.
  - reflexivity.
  - reflexivity.
  - reflexivity.
  - discriminate.
  - discriminate.
  - discriminate.
  - exists st', copy, copy_times.
    split; [exact Hrun|]. split; [exact Hnew|]. split; [exact Hrel|].
    exact Hmedia.
Defined.

Lemma merger_no_match_untouched_witness :
  process_media (P := sample_platform) ["Photos"] ["output"] []
    ["Photos"; "photo.jpg"] (start (export_fs (VStr "1000000000")))
  = (mk_state (export_fs (VStr "1000000000")) [NoJsonFound "photo.jpg"] None,
     Ok tt).
Proof.
  exact (proj1 (merger_no_match_untouched (P := sample_platform)
                  ["Photos"] ["output"] [] ["Photos"; "photo.jpg"]
                  (start (export_fs (VStr "1000000000"))) eq_refl)).
Defined.

(* ================================================================== *)
(** * Further properties of the code *)

(** ** More on the normalizer *)

(** The length of [re.sub]'s result, when no replacement is longer than
    what it replaces. *)
Lemma re_sub_length p repl :
  (forall t gs rest, p t = Some (gs, rest) ->
     String.length (repl gs) + String.length rest <= String.length t) ->
  forall s k, String.length (re_sub_skip p repl k s) <= String.length s - k.
Proof.
  intros Hp. induction s as [|c s IH]; intros k; [simpl; lia|].
  cbn [re_sub_skip]. destruct k as [|k]; [|simpl; apply IH].
  destruct (p (String c s)) as [[gs rest]|] eqn:E.
  - apply Hp in E. rewrite string_length_app.
    specialize (IH (String.length (String c s) - String.length rest - 1)).
    cbn [String.length] in *. lia.
  - specialize (IH 0). cbn [String.length] in *. lia.
Qed.

Lemma pat_human_date_shrinks t gs rest :
  pat_human_date t = Some (gs, rest) ->
  String.length (repl_human_date gs) + String.length rest <= String.length t.
Proof.
  unfold pat_human_date. intros H.
  destruct (eat_n is_digit 4 t) as [[g1 r1]|] eqn:E1; cbn [bind] in H; [|discriminate].
  destruct (eat_char "-" r1) as [r2|] eqn:E2; cbn [bind] in H; [|discriminate].
  destruct (eat_n is_digit 2 r2) as [[g2 r3]|] eqn:E3; cbn [bind] in H; [|discriminate].
  destruct (eat_char "-" r3) as [r4|] eqn:E4; cbn [bind] in H; [|discriminate].
  destruct (eat_n is_digit 2 r4) as [[g3 r5]|] eqn:E5; cbn [bind] in H; [|discriminate].
  destruct (eat_plus is_space r5) as [[w r6]|] eqn:E6; cbn [bind] in H; [|discriminate].
  destruct (eat_n is_digit 2 r6) as [[g4 r7]|] eqn:E7; cbn [bind] in H; [|discriminate].
  destruct (eat_char "." r7) as [r8|] eqn:E8; cbn [bind] in H; [|discriminate].
  destruct (eat_n is_digit 2 r8) as [[g5 r9]|] eqn:E9; cbn [bind] in H; [|discriminate].
  destruct (eat_char "." r9) as [r10|] eqn:E10; cbn [bind] in H; [|discriminate].
  destruct (eat_n is_digit 2 r10) as [[g6 r11]|] eqn:E11; cbn [bind] in H; [|discriminate].
  injection H as <- <-.
  apply eat_n_spec in E1, E3, E5, E7, E9, E11.
  apply eat_char_spec in E2, E4, E8, E10. apply eat_plus_spec in E6.
  destruct E1 as (-> & L1 & _), E3 as (-> & L2 & _), E5 as (-> & L3 & _),
           E7 as (-> & L4 & _), E9 as (-> & L5 & _), E11 as (-> & L6 & _),
           E6 as (-> & _ & _).
  subst. cbn [repl_human_date].
  repeat (rewrite string_length_app || cbn [String.length]). lia.
Qed.

Lemma normalize_length x :
  String.length (normalize_filename x) <= String.length x.
Proof.
  unfold normalize_filename, re_sub.
  pose proof (re_sub_delete_length pat_numbering x 0) as L1.
  set (y1 := re_sub_skip pat_numbering delete 0 x) in *.
  pose proof (re_sub_delete_length (pat_lit_end "-edited") y1 0) as L2.
  set (y2 := re_sub_skip (pat_lit_end "-edited") delete 0 y1) in *.
  pose proof (re_sub_delete_length (pat_lit_end "_p") y2 0) as L3.
  set (y3 := re_sub_skip (pat_lit_end "_p") delete 0 y2) in *.
  pose proof (re_sub_length _ _ pat_human_date_shrinks y3 0) as L4.
  set (y4 := re_sub_skip pat_human_date repl_human_date 0 y3) in *.
  pose proof (re_sub_delete_length pat_spaces y4 0) as L5.
  set (y5 := re_sub_skip pat_spaces delete 0 y4) in *.
  pose proof (re_sub_delete_length pat_dot y5 0) as L6.
  set (y6 := re_sub_skip pat_dot delete 0 y5) in *.
  pose proof (re_sub_delete_length pat_underscores_end y6 0) as L7.
  lia.
Qed.

(** X1: whatever the input, the normalized name contains no whitespace
    and no dot, does not end with an underscore, and is never longer than
    the input. *)
Theorem normalize_output_shape (x : string) :
  no_space (normalize_filename x) = true /\
  no_dot (normalize_filename x) = true /\
  no_trailing_underscore (normalize_filename x) = true /\
  String.length (normalize_filename x) <= String.length x.
Proof.
  destruct (normalize_output x) as (H1 & H2 & H3).
  repeat split; trivial. apply normalize_length.
Qed.

(** ** A numbering group at the end *)

Lemma eat_star_app_stop cls c t : cls c = false ->
  forall s, eat_star cls (s ++ String c t)
            = (fst (eat_star cls s), snd (eat_star cls s) ++ String c t).
Proof.
  intros Hc. induction s as [|a s IH]; cbn [append eat_star].
  - now rewrite Hc.
  - destruct (cls a); [|reflexivity].
    rewrite IH. destruct (eat_star cls s) as [g r]. reflexivity.
Qed.

Lemma eat_star_all cls : forall s,
  forallb_str cls s = true -> eat_star cls s = (s, "").
Proof.
  induction s as [|a s IH]; cbn [forallb_str eat_star]; [reflexivity|].
  intros H. apply andb_true_iff in H. destruct H as [Ha Hs].
  now rewrite Ha, (IH Hs).
Qed.

(** Before an opening parenthesis the pattern matches as it does at the
    end of the string. *)
Lemma pat_numbering_before_paren c s t :
  pat_numbering (String c s ++ String "(" t)
  = match pat_numbering (String c s) with
    | Some (gs, rest) => Some (gs, rest ++ String "(" t)
    | None => None
    end.
Proof.
  unfold pat_numbering. cbn [append eat_char].
  destruct (Ascii.eqb c "("); cbn [bind]; [|reflexivity].
  unfold eat_plus. rewrite eat_star_app_stop by reflexivity.
  destruct (eat_star is_digit s) as [g r]. cbn [fst snd].
  destruct g as [|d g]; cbn [bind]; [reflexivity|].
  destruct r as [|e r]; cbn [append eat_char bind]; [reflexivity|].
  destruct (Ascii.eqb e ")"); reflexivity.
Qed.

Lemma sub_numbering_app t : forall s k, k <= String.length s ->
  re_sub_skip pat_numbering delete k (s ++ String "(" t)
  = re_sub_skip pat_numbering delete k s
    ++ re_sub pat_numbering delete (String "(" t).
Proof.
  induction s as [|c s IH]; intros k Hk.
  - simpl in Hk. replace k with 0 by lia. reflexivity.
  - change ((String c s ++ String "(" t)) with (String c (s ++ String "(" t)).
    cbn [re_sub_skip]. destruct k as [|k]; [|apply IH; simpl in Hk; lia].
    change (String c (s ++ String "(" t)) with (String c s ++ String "(" t).
    rewrite pat_numbering_before_paren.
    destruct (pat_numbering (String c s)) as [[gs rest]|] eqn:E.
    + pose proof (pat_numbering_consumes _ _ _ E) as Hlt.
      rewrite !string_length_app.
      replace (String.length (String c s) + String.length (String "(" t)
               - (String.length rest + String.length (String "(" t)) - 1)
        with (String.length (String c s) - String.length rest - 1) by lia.
      change (delete gs) with "". cbn [append].
      apply IH. cbn [String.length] in *. lia.
    + cbn [append]. f_equal. apply IH. lia.
Qed.

Lemma sub_numbering_group n :
  n <> "" -> forallb_str is_digit n = true ->
  re_sub pat_numbering delete ("(" ++ n ++ ")") = "".
Proof.
  intros Hn Hd. unfold re_sub. cbn [append re_sub_skip].
  assert (E : pat_numbering (String "(" (n ++ ")")) = Some ([], "")).
  { unfold pat_numbering.
    change (eat_char "(" (String "(" (n ++ ")"))) with (Some (n ++ ")")).
    cbn [bind]. unfold eat_plus.
    rewrite eat_star_app_stop by reflexivity.
    rewrite (eat_star_all _ _ Hd). cbn [fst snd append].
    destruct n as [|d n]; [congruence|]. reflexivity. }
  rewrite E. change (delete []) with "". cbn [append].
  apply re_sub_skip_all. simpl. lia.
Qed.

Lemma normalize_trailing_numbering_eq base n :
  n <> "" -> forallb_str is_digit n = true ->
  normalize_filename (base ++ "(" ++ n ++ ")") = normalize_filename base.
Proof.
  intros Hn Hd. unfold normalize_filename.
  assert (E : re_sub pat_numbering delete (base ++ "(" ++ n ++ ")")
              = re_sub pat_numbering delete base).
  { unfold re_sub at 1. change ("(" ++ n ++ ")") with (String "(" (n ++ ")")).
    rewrite sub_numbering_app by lia.
    change (String "(" (n ++ ")")) with ("(" ++ n ++ ")").
    rewrite (sub_numbering_group n Hn Hd). unfold re_sub. apply app_empty_r. }
  now rewrite E.
Qed.

(** ** More on the matcher *)

Lemma find_exists {A} (f : A -> bool) l x :
  In x l -> f x = true -> find f l <> None.
Proof.
  induction l as [|a l IH]; [intros []|].
  intros [->|Hin] Hx; cbn [find].
  - now rewrite Hx.
  - destruct (f a); [discriminate | now apply IH].
Qed.

Lemma find_json_in photo_path json_files found :
  find_json_for_photo photo_path json_files = Some found ->
  In found json_files.
Proof.
  unfold find_json_for_photo, first_attempt, second_attempt, third_attempt,
    fourth_attempt, fifth_attempt. cbv zeta.
  repeat match goal with
  | |- context [find ?f json_files] =>
      let E := fresh "E" in
      destruct (find f json_files) eqn:E;
      [apply find_some in E; destruct E as [E _]; intros [= <-]; exact E|]
  | |- context [re_search ?p ?s] => destruct (re_search p s)
  end; discriminate.
Qed.

Lemma find_json_same_normalized photo_path json_files json_file :
  In json_file json_files ->
  normalize_filename (path_stem json_file)
  = normalize_filename (path_stem photo_path) ->
  find_json_for_photo photo_path json_files <> None.
Proof.
  intros Hin Heq. unfold find_json_for_photo. cbv zeta.
  destruct (first_attempt _ _); [discriminate|].
  destruct (second_attempt _ json_files) eqn:E2; [discriminate|].
  exfalso. revert E2. unfold second_attempt.
  apply (find_exists _ _ json_file Hin). rewrite Heq. apply String.eqb_refl.
Qed.

Lemma find_app_first {A} (f : A -> bool) pre x post :
  (forall y, In y pre -> f y = false) -> f x = true ->
  find f (pre ++ x :: post) = Some x.
Proof.
  intros Hpre Hx. induction pre as [|a pre IH]; cbn [app find].
  - now rewrite Hx.
  - rewrite (Hpre a (or_introl eq_refl)). apply IH.
    intros y Hy. apply Hpre. now right.
Qed.

(** X2: a numbering group ["(n)"] at the end of a name does not change its
    normalized form, so a numbered duplicate ["<stem>(n)"] always finds a
    sidecar when the one named ["<stem>"] is among the candidates. *)
Theorem trailing_numbering_ignored (photo json_file : Path)
    (json_files : list Path) (n : string)
    (Hn : n <> "") (Hdigits : forallb_str is_digit n = true)
    (Hstem : path_stem photo = path_stem json_file ++ "(" ++ n ++ ")")
    (Hin : In json_file json_files) :
  normalize_filename (path_stem photo)
  = normalize_filename (path_stem json_file) /\
  find_json_for_photo photo json_files <> None.
Proof.
  assert (E : normalize_filename (path_stem photo)
              = normalize_filename (path_stem json_file))
    by (rewrite Hstem; now apply normalize_trailing_numbering_eq).
  split; [exact E|].
  apply (find_json_same_normalized photo json_files json_file Hin).
  now symmetry.
Qed.

Lemma trailing_numbering_ignored_witness :
  find_json_for_photo ["Photos"; "IMG_0001(12).jpg"]
    [["Photos"; "other.json"]; ["Photos"; "IMG_0001.json"]] <> None.
Proof.
  refine (proj2 (trailing_numbering_ignored
            ["Photos"; "IMG_0001(12).jpg"] ["Photos"; "IMG_0001.json"]
            [["Photos"; "other.json"]; ["Photos"; "IMG_0001.json"]] "12"
            _ eq_refl eq_refl _)).
  - discriminate.
  - right. now left.
Defined.

(** X3: the matcher never invents a path: whatever it returns is one of
    the candidates it was given (so with no candidate it returns none). *)
Theorem matcher_returns_candidate (photo_path : Path)
    (json_files : list Path) (found : Path)
    (Hfound : find_json_for_photo photo_path json_files = Some found) :
  In found json_files.
Proof. exact (find_json_in photo_path json_files found Hfound). Qed.

Lemma matcher_returns_candidate_witness :
  In ["Photos"; "VID_20210615_143000_export.json"]
     [["Photos"; "a.json"]; ["Photos"; "VID_20210615_143000_export.json"]].
Proof.
  exact (matcher_returns_candidate ["Photos"; "20210615_143000.mp4"]
           [["Photos"; "a.json"]; ["Photos"; "VID_20210615_143000_export.json"]]
           ["Photos"; "VID_20210615_143000_export.json"] eq_refl).
Defined.

(** X4: the exact-prefix rule has priority over everything else: the first
    candidate, in list order, whose stem starts with the media stem is
    returned, even when a later candidate has exactly the media stem. *)
Theorem matcher_prefix_priority (photo_path : Path) (before : list Path)
    (json_file : Path) (after : list Path)
    (Hbefore : forall other, In other before ->
       startswith (path_stem other) (path_stem photo_path) = false)
    (Hprefix : startswith (path_stem json_file) (path_stem photo_path) = true) :
  find_json_for_photo photo_path (before ++ json_file :: after)
  = Some json_file.
Proof.
  unfold find_json_for_photo, first_attempt. cbv zeta.
  now rewrite (find_app_first _ before json_file after Hbefore Hprefix).
Qed.

Lemma matcher_prefix_priority_witness :
  find_json_for_photo ["Photos"; "IMG_1.jpg"]
    [["Photos"; "holiday.json"]; ["Photos"; "IMG_10.json"];
     ["Photos"; "IMG_1.json"]]
  = Some ["Photos"; "IMG_10.json"].
Proof.
  apply (matcher_prefix_priority ["Photos"; "IMG_1.jpg"]
           [["Photos"; "holiday.json"]] ["Photos"; "IMG_10.json"]
           [["Photos"; "IMG_1.json"]]).
  - intros other [<-|[]]. reflexivity.
  - reflexivity.
Defined.

(** ** More on the date resolver *)

Lemma re_search_found p : forall s gs,
  re_search p s = Some gs ->
  exists t rest, suffix_of t s /\ p t = Some (gs, rest).
Proof.
  induction s as [|c s IH]; intros gs; cbn [re_search].
  - destruct (p "") as [[g r]|] eqn:E; [|discriminate].
    intros [= <-]. exists "", r. split; [apply suffix_of_refl | exact E].
  - destruct (p (String c s)) as [[g r]|] eqn:E.
    + intros [= <-]. exists (String c s), r.
      split; [apply suffix_of_refl | exact E].
    + intros H. destruct (IH gs H) as (t & rest & Hs & Ht).
      exists t, rest. split; [now apply suffix_of_cons | exact Ht].
Qed.

Lemma startswith_app w r : startswith (w ++ r) w = true.
Proof.
  induction w as [|c w IH]; cbn [append startswith]; [now destruct r|].
  now rewrite Ascii.eqb_refl, IH.
Qed.

Lemma str_in_suffix w t s :
  suffix_of t s -> startswith t w = true -> str_in w s = true.
Proof.
  intros [pre ->] H. induction pre as [|c pre IH]; cbn [append].
  - destruct t; cbn [str_in]; now rewrite H.
  - cbn [str_in]. rewrite IH. apply orb_true_r.
Qed.

Lemma pat_8_digits_spec t gs rest :
  pat_8_digits t = Some (gs, rest) ->
  exists w, gs = [w] /\ t = w ++ rest /\ String.length w = 8 /\
            forallb_str is_digit w = true.
Proof.
  unfold pat_8_digits. intros H.
  destruct (eat_n is_digit 8 t) as [[w r]|] eqn:E; cbn [bind] in H;
    [|discriminate].
  injection H as <- <-. apply eat_n_spec in E. destruct E as (-> & L & D).
  now exists w.
Qed.

Lemma eat_n_app cls : forall w r,
  forallb_str cls w = true -> eat_n cls (String.length w) (w ++ r) = Some (w, r).
Proof.
  induction w as [|c w IH]; intros r H; [reflexivity|].
  cbn [forallb_str] in H. apply andb_true_iff in H. destruct H as [Hc Hw].
  cbn [String.length append eat_n]. rewrite Hc, (IH r Hw). reflexivity.
Qed.

Lemma strptime_Ymd_spec w d :
  strptime_Ymd w = Ok d ->
  year d = digits_value (take 4 w) /\
  month d = digits_value (take 2 (drop 4 w)) /\
  day d = digits_value (take 2 (drop 6 w)) /\
  (1 <= month d <= 12)%Z /\
  (1 <= day d <= days_in_month (year d) (month d))%Z /\
  hour d = 0%Z /\ minute d = 0%Z /\ second d = 0%Z.
Proof.
  unfold strptime_Ymd.
  set (y := digits_value (take 4 w)).
  set (m := digits_value (take 2 (drop 4 w))).
  set (dd := digits_value (take 2 (drop 6 w))).
  destruct ((1 <=? y)%Z && (1 <=? m)%Z && (m <=? 12)%Z && (1 <=? dd)%Z
            && (dd <=? days_in_month y m)%Z) eqn:E; [|discriminate].
  intros [= <-]. cbn [year month day hour minute second].
  repeat (apply andb_true_iff in E; destruct E as [E ?]).
  repeat split; trivial; lia.
Qed.

Section ResolverMore.
Context {P : Platform}.

Lemma filename_date_spec filename d :
  get_date_from_filename filename = Some d ->
  in_range d = true /\
  exists w, str_in w filename = true /\ String.length w = 8 /\
            forallb_str is_digit w = true /\ strptime_Ymd w = Ok d.
Proof.
  unfold get_date_from_filename.
  destruct (re_search pat_8_digits filename) as [gs|] eqn:E; [|discriminate].
  destruct (re_search_found _ _ _ E) as (t & rest & Hsuf & Hp).
  destruct (pat_8_digits_spec _ _ _ Hp) as (w & -> & -> & L & D).
  cbn [nth]. destruct (strptime_Ymd w) as [date|] eqn:Es; [|discriminate].
  destruct (in_range date) eqn:Er; [|discriminate].
  intros [= <-]. split; [exact Er|].
  exists w. repeat split; trivial.
  apply (str_in_suffix _ _ _ Hsuf), startswith_app.
Qed.

(** X5: a date read from a file name is a real calendar day at midnight,
    with a year between 1900 and the current one, spelled by eight
    consecutive digits that occur in the name. *)
Theorem filename_date_valid (filename : string) (d : datetime)
    (Hd : get_date_from_filename filename = Some d) :
  (1900 <= year d <= now_year)%Z /\
  (1 <= month d <= 12)%Z /\
  (1 <= day d <= days_in_month (year d) (month d))%Z /\
  hour d = 0%Z /\ minute d = 0%Z /\ second d = 0%Z /\
  exists w, str_in w filename = true /\ String.length w = 8 /\
            forallb_str is_digit w = true /\
            year d = digits_value (take 4 w) /\
            month d = digits_value (take 2 (drop 4 w)) /\
            day d = digits_value (take 2 (drop 6 w)).
Proof.
  destruct (filename_date_spec _ _ Hd) as (Hr & w & Hin & L & D & Hs).
  destruct (strptime_Ymd_spec _ _ Hs) as (Hy & Hm & Hdd & Rm & Rd & H0 & M0 & S0).
  unfold in_range in Hr. apply andb_true_iff in Hr. destruct Hr as [R1 R2].
  repeat split; try lia; trivial.
  exists w. repeat split; trivial.
Qed.

(** X6: only the first run of eight digits is looked at: a name that
    starts with eight digits whose first four spell a year before 1900
    yields no date, whatever follows; the names the merger writes for
    ten-digit timestamps below 1900000000 start that way. *)
Theorem filename_leading_digits_before_1900 (w rest : string)
    (Hlen : String.length w = 8)
    (Hdigits : forallb_str is_digit w = true)
    (Hyear : (digits_value (take 4 w) < 1900)%Z) :
  get_date_from_filename (w ++ rest) = None.
Proof.
  unfold get_date_from_filename.
  assert (E : re_search pat_8_digits (w ++ rest) = Some [w]).
  { assert (Hp : pat_8_digits (w ++ rest) = Some ([w], rest)).
    { unfold pat_8_digits. rewrite <- Hlen.
      now rewrite (eat_n_app _ _ rest Hdigits). }
    destruct (w ++ rest); cbn [re_search]; now rewrite Hp. }
  rewrite E. cbn [nth].
  destruct (strptime_Ymd w) as [date|] eqn:Es; [|reflexivity].
  destruct (strptime_Ymd_spec _ _ Es) as (Hy & _).
  unfold in_range. rewrite Hy.
  destruct (Z.leb_spec 1900 (digits_value (take 4 w))); [lia | reflexivity].
Qed.

Lemma exif_loop_in_range : forall exif d,
  exif_loop exif = Ok (Some d) -> in_range d = true.
Proof.
  induction exif as [|[t v] exif IH]; intros d; cbn [exif_loop];
    [discriminate|].
  destruct (tag_is t "DateTimeOriginal"); [|apply IH].
  destruct (strptime_exif v) as [date|]; cbn [rbind]; [|discriminate].
  destruct (in_range date) eqn:E; [now intros [= <-] | apply IH].
Qed.

Lemma read_exif_date_in_range fs p d :
  read_exif_date fs p = Ok (Some d) -> in_range d = true.
Proof.
  unfold read_exif_date.
  destruct (image_open fs p) as [img|]; cbn [rbind]; [|discriminate].
  destruct (_ || _); [|discriminate].
  destruct (call_getexif img) as [[exif|]|]; cbn [rbind]; try discriminate.
  apply exif_loop_in_range.
Qed.

Lemma read_json_date_in_range fs p d :
  read_json_date fs p = Ok (Some d) -> in_range d = true.
Proof.
  rewrite read_json_date_decoded.
  destruct (decoded_sidecar_date fs p) as [[date|]|]; try discriminate.
  destruct (in_range date) eqn:E; [now intros [= <-] | discriminate].
Qed.

Lemma json_candidates_loop_in_range : forall cands st st' d,
  json_candidates_loop cands st = (st', Ok (Some d)) -> in_range d = true.
Proof.
  induction cands as [|c cands IH]; intros st st' d H; [discriminate|].
  cbn [json_candidates_loop] in H. unfold mbind at 1 in H. unfold read at 1 in H.
  destruct (py_exists (st_fs st) c) as [[|]|e0];
    [|now apply IH in H | discriminate].
  unfold mbind, try_except, read, emit, ret in H.
  destruct (read_json_date (st_fs st) c) as [[date|]|e] eqn:E.
  - injection H as _ <-. now apply read_json_date_in_range in E.
  - now apply IH in H.
  - now apply IH in H.
Qed.

(** X7: whichever of the three sources answers, a date the resolver
    returns has a year between 1900 and the current one. *)
Theorem resolved_date_in_range (image_path : Path) (st st' : state)
    (d : datetime)
    (Hd : get_date_taken image_path st = (st', Ok (Some d))) :
  (1900 <= year d <= now_year)%Z.
Proof.
  assert (Hr : in_range d = true).
  { unfold get_date_taken, mbind, try_except, read, emit, ret in Hd.
    assert (Hj : forall s, get_date_from_json image_path s = (st', Ok (Some d))
                           -> in_range d = true).
    { intros s. unfold get_date_from_json, mbind, lift.
      destruct (possible_json_extensions image_path); [|discriminate].
      apply json_candidates_loop_in_range. }
    destruct (read_exif_date (st_fs st) image_path) as [[date|]|e] eqn:E.
    - injection Hd as _ <-. now apply read_exif_date_in_range in E.
    - destruct (get_date_from_json image_path st) as [s' [[date|]|e]] eqn:Ej;
        cbv beta iota in Hd.
      + injection Hd as <- <-. now apply (Hj st).
      + injection Hd as _ Hd. now apply filename_date_spec in Hd.
      + discriminate.
    - destruct (get_date_from_json image_path _) as [s' [[date|]|e']] eqn:Ej;
        cbv beta iota in Hd.
      + injection Hd as <- <-. now apply Hj in Ej.
      + injection Hd as _ Hd. now apply filename_date_spec in Hd.
      + discriminate. }
  unfold in_range in Hr. apply andb_true_iff in Hr. lia.
Qed.

(** Only lines are added to the output; and the loop returns when
    [exists] answers for every candidate. *)
Lemma json_candidates_loop_out : forall cands st,
  exists evs r,
    json_candidates_loop cands st
    = (mk_state (st_fs st) (st_out st ++ evs) (timestamp_int st), r) /\
    ((forall c, In c cands -> exists b, py_exists (st_fs st) c = Ok b) ->
     exists d, r = Ok d).
Proof.
  induction cands as [|c cands IH]; intros st.
  - exists [], (Ok None). cbn [json_candidates_loop]. unfold ret.
    rewrite app_nil_r. split; [now destruct st | eauto].
  - cbn [json_candidates_loop]. unfold mbind at 1. unfold read at 1.
    destruct (py_exists (st_fs st) c) as [[|]|e0] eqn:Ec.
    + unfold mbind, try_except, read, emit, ret.
      destruct (read_json_date (st_fs st) c) as [[date|]|e].
      * exists [], (Ok (Some date)). rewrite app_nil_r.
        split; [now destruct st | eauto].
      * destruct (IH st) as (evs & r & H & Hr). exists evs, r.
        split; [exact H|]. intros Hn. apply Hr. intros x Hx. apply Hn.
        now right.
      * destruct (IH (mk_state (st_fs st)
                        (st_out st ++ [ErrorReadingJson c e])
                        (timestamp_int st))) as (evs & r & H & Hr).
        exists (ErrorReadingJson c e :: evs), r. rewrite H.
        cbn [st_fs st_out timestamp_int]. rewrite <- app_assoc.
        split; [reflexivity|]. intros Hn. apply Hr. intros x Hx. apply Hn.
        now right.
    + destruct (IH st) as (evs & r & H & Hr). exists evs, r.
      split; [exact H|]. intros Hn. apply Hr. intros x Hx. apply Hn.
      now right.
    + exists [], (Raise e0). rewrite app_nil_r.
      split; [now destruct st|]. intros Hn.
      destruct (Hn c (or_introl eq_refl)) as [b Hb]. congruence.
Qed.

Lemma get_date_taken_out (image_path : Path) (st : state) :
  exists evs,
    fst (get_date_taken image_path st)
    = mk_state (st_fs st) (st_out st ++ evs) (timestamp_int st) /\
    forall cands, possible_json_extensions image_path = Ok cands ->
      (forall c, In c cands -> exists b, py_exists (st_fs st) c = Ok b) ->
      exists d, snd (get_date_taken image_path st) = Ok d.
Proof.
  unfold get_date_taken, mbind, try_except, read, emit, ret.
  assert (Hj : forall s, st_fs s = st_fs st ->
            (exists evs,
               fst (get_date_from_json image_path s)
               = mk_state (st_fs s) (st_out s ++ evs) (timestamp_int s)) /\
            forall cands, possible_json_extensions image_path = Ok cands ->
              (forall c, In c cands ->
                 exists b, py_exists (st_fs st) c = Ok b) ->
              exists d, snd (get_date_from_json image_path s) = Ok d).
  { intros s Hs. unfold get_date_from_json, mbind, lift.
    destruct (possible_json_extensions image_path) as [cands|e].
    - destruct (json_candidates_loop_out cands s) as (evs & r & H & Hr).
      rewrite H. split; [now exists evs|]. intros c [= <-] Hn.
      cbn [snd]. apply Hr. now rewrite Hs.
    - split; [|discriminate]. exists []. rewrite app_nil_r. now destruct s. }
  destruct (read_exif_date (st_fs st) image_path) as [[date|]|e].
  - exists []. rewrite app_nil_r. split; [now destruct st|].
    intros _ _ _. now exists (Some date).
  - destruct (Hj st eq_refl) as [[evs He] Hok]. exists evs.
    destruct (get_date_from_json image_path st) as [s' [[date|]|e]];
      cbn [fst snd] in *; split; trivial; intros cands Hc Hn;
      first [eexists; reflexivity | exact (Hok cands Hc Hn)].
  - set (s1 := mk_state (st_fs st)
                 (st_out st ++ [ErrorReadingExif image_path e])
                 (timestamp_int st)).
    destruct (Hj s1 eq_refl) as [[evs He] Hok].
    exists (ErrorReadingExif image_path e :: evs).
    destruct (get_date_from_json image_path s1) as [s' [[date|]|e']];
      cbn [fst snd] in *; (split; [rewrite He; unfold s1;
        cbn [st_fs st_out timestamp_int]; now rewrite <- app_assoc|]);
      intros cands Hc Hn;
      first [eexists; reflexivity | exact (Hok cands Hc Hn)].
Qed.

Lemma take_drop : forall n s, take n s ++ drop n s = s.
Proof.
  induction n as [|n IH]; intros s; [now destruct s|].
  destruct s as [|c s]; [reflexivity|]. cbn [take drop append]. now rewrite IH.
Qed.

Lemma stem_suffix_join name : name_stem name ++ name_suffix name = name.
Proof.
  unfold name_stem, name_suffix, split_suffix.
  destruct (rfind_dot name) as [i|]; [|apply app_empty_r].
  destruct (_ && _)%bool; cbn [fst snd]; [apply take_drop | apply app_empty_r].
Qed.

Lemma string_app_assoc (a b c : string) : (a ++ b) ++ c = a ++ b ++ c.
Proof. induction a as [|x a IH]; cbn [append]; [reflexivity | now rewrite IH]. Qed.

Lemma mem_str_in s l : mem_str s l = true -> In s l.
Proof.
  unfold mem_str. intros H. apply existsb_exists in H.
  destruct H as (x & Hx & E). apply String.eqb_eq in E. now subst.
Qed.

Lemma strip_timestamp_prefix ts name :
  ts <> "" -> forallb_str is_digit ts = true ->
  re_sub_anchored pat_timestamp_prefix delete (ts ++ "_" ++ name) = name.
Proof.
  intros Hne Hd. unfold re_sub_anchored, pat_timestamp_prefix, eat_plus.
  change ("_" ++ name) with (String "_" name).
  rewrite eat_star_app_stop by reflexivity.
  rewrite (eat_star_all _ _ Hd). cbn [fst snd append].
  destruct ts as [|c ts]; [congruence|]. reflexivity.
Qed.


(** X8: the resolver's candidate list names the sidecar the merger
    writes: for a copy [<ts>_<name>] in the output folder whose suffix is
    one of the six media suffixes tried, [<ts>_<name>.json] is a candidate;
    and when [<ts>] is a run of digits, so is [<stem of name>.json]. *)
Theorem resolver_candidates (output_dir : Path) (ts name : string)
    (cands : list Path) :
  let new_name := ts ++ "_" ++ name in
  plain_name new_name = true ->
  mem_str (name_suffix new_name)
    [".jpg"; ".jpeg"; ".png"; ".gif"; ".mp4"; ".bmp"] = true ->
  possible_json_extensions (path_join output_dir new_name) = Ok cands ->
  In (path_join output_dir (new_name ++ ".json")) cands /\
  (ts <> "" -> forallb_str is_digit ts = true ->
   In (output_dir ++ [(name_stem name ++ ".json")%string])%list cands).
Proof.
  intros new_name Hplain Hext Hc.
  rewrite (path_join_plain _ _ (plain_name_json _ Hplain)).
  rewrite (path_join_plain _ _ Hplain) in Hc.
  unfold possible_json_extensions in Hc.
  assert (Hws : forall p sfx, path_name p <> "" ->
            with_suffix p sfx
            = Ok (path_parent p ++ [(name_stem (path_name p) ++ sfx)%string])%list).
  { intros p sfx Hn. unfold with_suffix.
    destruct (String.eqb_spec (path_name p) ""); [contradiction | reflexivity]. }
  assert (Hnn : new_name <> "").
  { unfold new_name. destruct ts; discriminate. }
  cbn [map_result] in Hc.
  rewrite !Hws in Hc by (rewrite path_name_snoc; exact Hnn).
  cbn [rbind] in Hc. rewrite path_name_snoc, path_parent_snoc in Hc.
  destruct (with_name _ _) as [original_path|] eqn:Ew; cbn [rbind] in Hc;
    [|discriminate].
  assert (Hon : path_name original_path <> "" /\
                original_path
                = (output_dir ++ [re_sub_anchored pat_timestamp_prefix delete
                                    new_name])%list).
  { unfold with_name in Ew. rewrite path_name_snoc, path_parent_snoc in Ew.
    destruct (_ || _)%bool eqn:Eb; [discriminate|]. injection Ew as <-.
    split; [|reflexivity]. rewrite path_name_snoc.
    apply orb_false_iff in Eb. destruct Eb as [Eb _].
    apply orb_false_iff in Eb. destruct Eb as [Eb _].
    apply orb_false_iff in Eb. destruct Eb as [_ Eb].
    now apply String.eqb_neq in Eb. }
  destruct Hon as [Hon Hop].
  rewrite !Hws in Hc by exact Hon. cbn [rbind] in Hc. injection Hc as <-.
  split.
  - pose proof (stem_suffix_join new_name) as Hj.
    apply mem_str_in in Hext.
    assert (Hgoal : forall sfx, name_suffix new_name = sfx ->
              (output_dir ++ [(new_name ++ ".json")%string])%list
              = (output_dir ++ [(name_stem new_name ++ sfx ++ ".json")%string])%list).
    { intros sfx Hs. rewrite <- Hs, <- string_app_assoc, Hj. reflexivity. }
    cbn [In] in Hext.
    destruct Hext as [H|[H|[H|[H|[H|[H|[]]]]]]]; symmetry in H;
      rewrite (Hgoal _ H); cbn [append In app]; tauto.
  - intros Hne Hd. cbn [In app]. do 7 right. left.
    rewrite Hop, path_parent_snoc, path_name_snoc.
    unfold new_name. now rewrite (strip_timestamp_prefix ts name Hne Hd).
Qed.



(** *** The candidate list exists for every name the archiver passes *)

Lemma last_char_app pre r : r <> "" -> last_char (pre ++ r) = last_char r.
Proof.
  intros Hr. induction pre as [|c pre IH]; [reflexivity|].
  cbn [append last_char]. rewrite IH.
  destruct (pre ++ r) eqn:E; [|reflexivity].
  destruct pre; [cbn [append] in E; congruence | discriminate].
Qed.

Lemma last_char_lower s : last_char (lower s) = option_map lower_char (last_char s).
Proof.
  induction s as [|c s IH]; [reflexivity|].
  cbn [lower last_char]. destruct s as [|d s]; [reflexivity|].
  cbn [lower] in *. exact IH.
Qed.

Lemma name_suffix_of name : suffix_of (name_suffix name) name.
Proof.
  exists (name_stem name). symmetry. apply stem_suffix_join.
Qed.

Lemma stripped_name name :
  let r := re_sub_anchored pat_timestamp_prefix delete name in
  r = name \/ exists ds, name = ds ++ String "_" r.
Proof.
  cbv zeta. unfold re_sub_anchored, pat_timestamp_prefix.
  destruct (eat_plus is_digit name) as [[g r]|] eqn:E; cbn [bind];
    [|now left].
  destruct (eat_char "_" r) as [r'|] eqn:Ec; cbn [bind]; [|now left].
  right. exists g. apply eat_plus_spec in E. destruct E as [-> _].
  apply eat_char_spec in Ec. now subst r.
Qed.

Lemma str_in_slash s :
  forallb_str (fun c => negb (Ascii.eqb c "/")) s = true -> str_in "/" s = false.
Proof.
  induction s as [|c s IH]; [reflexivity|].
  cbn [forallb_str str_in startswith]. intros H.
  apply andb_true_iff in H. destruct H as [Hc Hs].
  rewrite (IH Hs). rewrite Ascii.eqb_sym.
  destruct (Ascii.eqb c "/"); [discriminate | reflexivity].
Qed.

Lemma supported_last_char sfx :
  mem_str (lower sfx) supported_extensions = true ->
  exists c, last_char sfx = Some c /\ c <> "_"%char /\ c <> "."%char.
Proof.
  intros H. apply mem_str_in in H.
  assert (Hl : exists c, last_char (lower sfx) = Some c /\
                         c <> "_"%char /\ c <> "."%char).
  { unfold supported_extensions in H. cbn [In] in H.
    destruct H as [H|[H|[H|[H|[H|[H|[H|[H|[]]]]]]]]]; rewrite <- H;
      eexists; (split; [reflexivity | split; discriminate]). }
  destruct Hl as (c & Hc & H1 & H2). rewrite last_char_lower in Hc.
  destruct (last_char sfx) as [d|]; [|discriminate].
  exists d. split; [reflexivity|]. cbn [option_map] in Hc. injection Hc as Hc.
  split; intros ->; vm_compute in Hc; congruence.
Qed.

Lemma supported_candidates (dir : Path) (name : string) :
  plain_name name = true ->
  mem_str (lower (name_suffix name)) supported_extensions = true ->
  exists cands, possible_json_extensions (dir ++ [name])%list = Ok cands.
Proof.
  intros Hplain Hsup.
  destruct (supported_last_char _ Hsup) as (c & Hc & Hu & Hdot).
  assert (Hsne : name_suffix name <> "").
  { intros E. rewrite E in Hc. discriminate. }
  destruct (name_suffix_of name) as [pre Hpre].
  assert (Hlast : last_char name = Some c).
  { rewrite Hpre. now rewrite last_char_app. }
  assert (Hnn : name <> "") by (intros E; rewrite E in Hlast; discriminate).
  assert (Hslash : forallb_str (fun c => negb (Ascii.eqb c "/")) name = true).
  { unfold plain_name in Hplain. apply andb_true_iff in Hplain.
    destruct Hplain as [Hplain _]. apply andb_true_iff in Hplain. tauto. }
  unfold possible_json_extensions.
  assert (Hws : forall p sfx, path_name p <> "" ->
            with_suffix p sfx
            = Ok (path_parent p ++ [(name_stem (path_name p) ++ sfx)%string])%list).
  { intros p sfx Hn. unfold with_suffix.
    destruct (String.eqb_spec (path_name p) ""); [contradiction | reflexivity]. }
  cbn [map_result].
  rewrite !Hws by (rewrite path_name_snoc; exact Hnn).
  cbn [rbind]. rewrite path_name_snoc.
  set (r := re_sub_anchored pat_timestamp_prefix delete name).
  assert (Hr : r <> "" /\ r <> "." /\ str_in "/" r = false).
  { destruct (stripped_name name) as [E|[ds E]]; fold r in E.
    - rewrite E. repeat split; trivial.
      + intros E'. rewrite E' in Hlast. cbn in Hlast. congruence.
      + now apply str_in_slash.
    - repeat split.
      + intros E'. rewrite E' in E. rewrite E in Hlast.
        rewrite last_char_app in Hlast by discriminate.
        cbn in Hlast. congruence.
      + intros E'. rewrite E' in E. rewrite E in Hlast.
        rewrite last_char_app in Hlast by discriminate.
        cbn in Hlast. congruence.
      + apply str_in_slash.
        apply (forallb_str_suffix _ r name); [|exact Hslash].
        exists (ds ++ "_"). rewrite E. rewrite string_app_assoc. reflexivity. }
  destruct Hr as (R1 & R2 & R3).
  unfold with_name. rewrite path_name_snoc, path_parent_snoc.
  apply String.eqb_neq in Hnn, R1, R2. rewrite Hnn, R1, R2, R3.
  cbn [orb rbind].
  rewrite !Hws by (rewrite path_name_snoc; now apply String.eqb_neq).
  cbn [rbind]. eexists. reflexivity.
Qed.

(** X9: resolving a date changes no file and forgets no printed line: the
    state after it differs from the state before only by lines added to
    the output, even when it raises. *)
Theorem resolver_only_prints (image_path : Path) (st : state) :
  exists evs,
    fst (get_date_taken image_path st)
    = mk_state (st_fs st) (st_out st ++ evs) (timestamp_int st).
Proof.
  destruct (get_date_taken_out image_path st) as (evs & H & _).
  now exists evs.
Qed.

(** X10: on every file the archiver passes to it (a plain name whose
    lower-cased suffix is supported) the resolver returns, with a date or
    with none, when [exists] answers for each candidate sidecar name:
    unreadable pictures and sidecars are reported and skipped.  (A
    candidate name over 255 bytes makes [exists] raise, outside any
    [try].) *)
Theorem resolver_returns_on_supported (dir : Path) (name : string)
    (st : state)
    (Hplain : plain_name name = true)
    (Hsup : mem_str (lower (name_suffix name)) supported_extensions = true)
    (Hnames : forall cands json_path,
       possible_json_extensions (dir ++ [name])%list = Ok cands ->
       In json_path cands ->
       exists b, py_exists (st_fs st) json_path = Ok b) :
  exists evs d,
    get_date_taken (dir ++ [name])%list st
    = (mk_state (st_fs st) (st_out st ++ evs) (timestamp_int st), Ok d).
Proof.
  destruct (supported_candidates dir name Hplain Hsup) as [cands Hc].
  destruct (get_date_taken_out (dir ++ [name])%list st) as (evs & H & Hok).
  destruct (Hok cands Hc (fun c => Hnames cands c Hc)) as [d Hd].
  exists evs, d.
  destruct (get_date_taken _ st) as [s r]. cbn [fst snd] in *. now subst.
Qed.

(** X11: the candidate list cannot be built for a name that is only a
    timestamp prefix, [<digits>_]: removing the prefix leaves no name, and
    the [ValueError] of [with_name] leaves [get_date_from_json] uncaught. *)
Theorem bare_prefix_name_raises (dir : Path) (ts : string) (st : state)
    (Hne : ts <> "") (Hd : forallb_str is_digit ts = true) :
  get_date_from_json (dir ++ [(ts ++ "_")%string])%list st = (st, Raise ValueError).
Proof.
  unfold get_date_from_json, mbind, lift.
  assert (E : possible_json_extensions (dir ++ [(ts ++ "_")%string])%list
              = Raise ValueError).
  { unfold possible_json_extensions.
    assert (Hnn : ts ++ "_" <> "") by (destruct ts; [congruence | discriminate]).
    cbn [map_result]. unfold with_suffix at 1 2 3 4 5 6 7.
    rewrite path_name_snoc. apply String.eqb_neq in Hnn. rewrite Hnn.
    cbn [rbind].
    pose proof (strip_timestamp_prefix ts "" Hne Hd) as Hs.
    change ("_" ++ "") with "_" in Hs. rewrite Hs.
    unfold with_name. rewrite path_name_snoc, Hnn. reflexivity. }
  now rewrite E.
Qed.

End ResolverMore.

Lemma filename_date_valid_witness :
  exists w, str_in w "IMG_20190314_101500.jpg" = true /\
            String.length w = 8 /\ forallb_str is_digit w = true /\
            2019%Z = digits_value (take 4 w) /\
            3%Z = digits_value (take 2 (drop 4 w)) /\
            14%Z = digits_value (take 2 (drop 6 w)).
Proof.
  exact (proj2 (proj2 (proj2 (proj2 (proj2 (proj2
    (filename_date_valid (P := sample_platform) "IMG_20190314_101500.jpg"
       (mk_datetime 2019 3 14 0 0 0) eq_refl))))))).
Defined.

Lemma filename_leading_digits_before_1900_witness :
  get_date_from_filename (P := sample_platform)
    "1552521600_IMG_20190314.jpg" = None.
Proof.
  exact (filename_leading_digits_before_1900 (P := sample_platform)
           "15525216" "00_IMG_20190314.jpg" eq_refl eq_refl eq_refl).
Defined.

Lemma resolved_date_in_range_witness :
  (1900 <= 2015 <= now_year (Platform := sample_platform))%Z.
Proof.
  exact (resolved_date_in_range (P := sample_platform) ["output"; "pic.jpg"]
           (start (resolver_fs "pic.jpg" "JPEG"))
           (start (resolver_fs "pic.jpg" "JPEG"))
           (mk_datetime 2015 6 1 12 30 5) eq_refl).
Defined.

Lemma resolver_returns_on_supported_witness :
  exists evs d,
    get_date_taken (P := sample_platform) ["output"; "1552521600_IMG.JPG"]
      (start sidecar_1850_fs)
    = (mk_state sidecar_1850_fs ([] ++ evs) None, Ok d).
Proof.
  refine (resolver_returns_on_supported (P := sample_platform) ["output"]
            "1552521600_IMG.JPG" (start sidecar_1850_fs) eq_refl eq_refl _).
  intros cands c Hc Hin. vm_compute in Hc. injection Hc as <-.
  cbn [In] in Hin.
  repeat (destruct Hin as [<- | Hin]; [eexists; vm_compute; reflexivity|]).
  destruct Hin.
Defined.

Lemma bare_prefix_name_raises_witness :
  get_date_from_json (P := sample_platform) ["output"; "1552521600_"]
    (start sidecar_1850_fs)
  = (start sidecar_1850_fs, Raise ValueError).
Proof.
  refine (bare_prefix_name_raises (P := sample_platform) ["output"]
            "1552521600" (start sidecar_1850_fs) _ eq_refl).
  discriminate.
Defined.

Lemma resolver_candidates_witness :
  In ["output"; "1552521600_IMG_0001.jpg.json"]
     [["output"; "1552521600_IMG_0001.jpg.json"];
      ["output"; "1552521600_IMG_0001.jpeg.json"];
      ["output"; "1552521600_IMG_0001.png.json"];
      ["output"; "1552521600_IMG_0001.gif.json"];
      ["output"; "1552521600_IMG_0001.mp4.json"];
      ["output"; "1552521600_IMG_0001.bmp.json"];
      ["output"; "1552521600_IMG_0001.json"];
      ["output"; "IMG_0001.json"];
      ["output"; "IMG_0001.bmp.json"]].
Proof.
  exact (proj1 (resolver_candidates ["output"] "1552521600" "IMG_0001.jpg"
                  _ eq_refl eq_refl eq_refl)).
Defined.

(** ** More on the archiver *)

Section ArchiverMore.
Context {P : Platform}.

Lemma mkdir_exist_ok_frame fs p fs' q :
  mkdir_exist_ok fs p = Ok fs' ->
  fs_lookup fs q <> None -> fs_lookup fs' q = fs_lookup fs q.
Proof.
  intros H Hq. destruct (fs_lookup fs q) as [n|] eqn:E; [|congruence].
  exact (mkdir_exist_ok_lookup _ _ _ _ _ H E).
Qed.

Lemma shutil_move_frame fs src dst fs' q :
  shutil_move fs src dst = Ok fs' ->
  path_name q <> path_name src -> path_name dst = path_name src ->
  fs_lookup fs' q = fs_lookup fs q.
Proof.
  unfold shutil_move. intros H Hq Hd.
  assert (Hqs : src <> q) by (intros ->; congruence).
  assert (Hqd : dst <> q) by (intros <-; congruence).
  assert (Hqr : (dst ++ [path_name src])%list <> q).
  { intros <-. now rewrite path_name_snoc in Hq. }
  destruct (fs_lookup fs src) as [[c t|]|]; try discriminate.
  destruct (is_dir fs dst).
  - destruct (path_exists fs _); [discriminate|]. injection H as <-.
    rewrite lookup_remove_other by exact Hqs.
    now rewrite lookup_write_other by exact Hqr.
  - destruct (path_eqb src dst); [now injection H as <-|].
    destruct (is_dir fs (path_parent dst)); [|discriminate].
    injection H as <-. rewrite lookup_remove_other by exact Hqs.
    now rewrite lookup_write_other by exact Hqd.
Qed.

Lemma archive_file_frame output_dir file_path st st' r q :
  archive_file output_dir file_path st = (st', r) ->
  plain_name (path_name file_path) = true ->
  mem_str (lower (path_suffix q)) supported_extensions = false ->
  fs_lookup (st_fs st) q <> None ->
  fs_lookup (st_fs st') q = fs_lookup (st_fs st) q.
Proof.
  unfold archive_file. unfold mbind at 1. unfold read at 1.
  intros H Hplain Hq Hex.
  destruct (is_file (st_fs st) file_path); [|now injection H as <- _].
  destruct (String.eqb _ ".json" || negb (mem_str _ supported_extensions))
    eqn:Eskip; [now injection H as <- _|].
  apply orb_false_iff in Eskip. destruct Eskip as [_ Esup].
  apply negb_false_iff in Esup.
  assert (Hname : path_name q <> path_name file_path).
  { intros E. unfold path_suffix in Hq, Esup. rewrite E in Hq. congruence. }
  unfold mbind at 1 in H.
  destruct (get_date_taken file_path st) as [st1 [[date|]|e]] eqn:Ed;
    destruct (get_date_taken_frame _ _ _ _ Ed) as [Hfs _].
  2:{ unfold emit in H. injection H as <- _. cbn [st_fs]. now rewrite Hfs. }
  2:{ injection H as <- _. now rewrite Hfs. }
  unfold mbind at 1 in H. unfold update at 1 in H.
  destruct (mkdir_exist_ok (st_fs st1) _) as [fs1|e] eqn:E1.
  2:{ injection H as <- _. now rewrite Hfs. }
  cbn [st_fs st_out timestamp_int] in H.
  assert (H1 : fs_lookup fs1 q = fs_lookup (st_fs st) q).
  { rewrite <- Hfs. apply (mkdir_exist_ok_frame _ _ _ _ E1). now rewrite Hfs. }
  unfold mbind at 1 in H. unfold update at 1 in H.
  cbn [st_fs st_out timestamp_int] in H.
  destruct (mkdir_exist_ok fs1 _) as [fs2|e] eqn:E2.
  2:{ injection H as <- _. exact H1. }
  assert (H2 : fs_lookup fs2 q = fs_lookup (st_fs st) q).
  { rewrite <- H1. apply (mkdir_exist_ok_frame _ _ _ _ E2). now rewrite H1. }
  unfold try_except, mbind, update, emit in H.
  cbn [st_fs st_out timestamp_int] in H.
  destruct (shutil_move fs2 file_path _) as [fs3|e] eqn:E3.
  - injection H as <- _. cbn [st_fs]. rewrite <- H2.
    apply (shutil_move_frame _ _ _ _ _ E3 Hname).
    rewrite (path_join_plain _ _ Hplain). apply path_name_snoc.
  - injection H as <- _. exact H2.
Qed.

Lemma for_each_archive_frame output_dir q :
  mem_str (lower (path_suffix q)) supported_extensions = false ->
  forall files st st' r,
    for_each files (archive_file output_dir) st = (st', r) ->
    (forall f, In f files -> plain_name (path_name f) = true) ->
    fs_lookup (st_fs st) q <> None ->
    fs_lookup (st_fs st') q = fs_lookup (st_fs st) q.
Proof.
  intros Hq. induction files as [|f files IH]; intros st st' r H Hplain Hex.
  - now injection H as <- _.
  - cbn [for_each] in H. unfold mbind in H.
    destruct (archive_file output_dir f st) as [st1 [[]|e]] eqn:E1.
    + pose proof (archive_file_frame _ _ _ _ _ q E1
                    (Hplain f (or_introl eq_refl)) Hq Hex) as H1.
      rewrite <- H1. apply (IH _ _ _ H).
      * intros g Hg. apply Hplain. now right.
      * now rewrite H1.
    + injection H as <- _.
      exact (archive_file_frame _ _ _ _ _ q E1
               (Hplain f (or_introl eq_refl)) Hq Hex).
Qed.

(** X12: the archiver leaves in place, unchanged, everything that exists
    and whose lower-cased suffix is not supported: sidecars, pictures and
    videos of other formats, and folders; whether the run completes or
    raises. *)
Theorem archiver_keeps_unsupported (st st' : state) (r : result unit)
    (q : Path)
    (Hrun : create_date_folders st = (st', r))
    (Hplain : forall f, In f (children (st_fs st) ["output"]) ->
                        plain_name (path_name f) = true)
    (Hq : mem_str (lower (path_suffix q)) supported_extensions = false)
    (Hex : fs_lookup (st_fs st) q <> None) :
  fs_lookup (st_fs st') q = fs_lookup (st_fs st) q.
Proof.
  unfold create_date_folders in Hrun. unfold mbind at 1 in Hrun.
  unfold read at 1 in Hrun.
  destruct (path_exists (st_fs st) ["output"]).
  - unfold mbind at 1 in Hrun. unfold read at 1 in Hrun.
    exact (for_each_archive_frame ["output"] q Hq _ _ _ _ Hrun Hplain Hex).
  - unfold emit in Hrun. now injection Hrun as <- _.
Qed.

(** X13: a regular file in the way of a year folder stops the archiver:
    [mkdir] raises outside any [try], nothing is moved, and the files
    after the one that needed the folder are not visited. *)
Theorem archiver_stops_at_blocked_year_folder
    (output_dir file_path : Path) (rest : list Path) (st st1 : state)
    (date : datetime) (c : content) (t : option Z)
    (Hfile : is_file (st_fs st) file_path = true)
    (Hsup : mem_str (lower (path_suffix file_path)) supported_extensions = true)
    (Hdate : get_date_taken file_path st = (st1, Ok (Some date)))
    (Hblock : fs_lookup (st_fs st)
                (path_join output_dir (string_of_Z (year date)))
              = Some (File c t))
    (Hne : output_dir <> []) :
  for_each (file_path :: rest) (archive_file output_dir) st
  = (st1, Raise OSError) /\
  st_fs st1 = st_fs st.
Proof.
  destruct (get_date_taken_frame _ _ _ _ Hdate) as [Hfs _].
  split; [|exact Hfs].
  cbn [for_each]. unfold mbind at 1. unfold archive_file.
  unfold mbind at 1. unfold read at 1. rewrite Hfile.
  assert (Hj : String.eqb (lower (path_suffix file_path)) ".json" = false).
  { apply String.eqb_neq. intros E. rewrite E in Hsup. discriminate. }
  rewrite Hj, Hsup. cbn [negb orb].
  unfold mbind at 1. rewrite Hdate.
  unfold mbind at 1. unfold update at 1. unfold mkdir_exist_ok.
  rewrite Hfs, Hblock.
  assert (Hp : path_join output_dir (string_of_Z (year date)) <> []).
  { unfold path_join. destruct (startswith _ "/"); [discriminate|].
    destruct output_dir; [congruence | discriminate]. }
  destruct (path_join output_dir (string_of_Z (year date))); [congruence|].
  reflexivity.
Qed.

End ArchiverMore.

Lemma archiver_keeps_unsupported_witness :
  fs_lookup
    (st_fs (fst (create_date_folders (P := sample_platform)
                   (start sidecar_1850_fs))))
    ["output"; "IMG_20190314.json"]
  = fs_lookup sidecar_1850_fs ["output"; "IMG_20190314.json"].
Proof.
  refine (archiver_keeps_unsupported (P := sample_platform)
            (start sidecar_1850_fs) _
            (snd (create_date_folders (start sidecar_1850_fs)))
            ["output"; "IMG_20190314.json"] _ _ eq_refl _).
  - apply surjective_pairing.
  - intros f Hf. vm_compute in Hf. destruct Hf as [<-|[<-|[]]]; reflexivity.
  - discriminate.
Defined.

Lemma archiver_stops_at_blocked_year_folder_witness :
  let fs := [ (["output"], Dir);
              (["output"; "IMG_20190314.png"], File (picture "PNG" None) None);
              (["output"; "2019"], File (OtherFile "notes") None) ] in
  for_each [["output"; "IMG_20190314.png"]; ["output"; "2019"]]
    (archive_file (P := sample_platform) ["output"]) (start fs)
  = (start fs, Raise OSError).
Proof.
  intros fs.
  refine (proj1 (archiver_stops_at_blocked_year_folder (P := sample_platform)
                   ["output"] ["output"; "IMG_20190314.png"]
                   [["output"; "2019"]] (start fs) (start fs)
                   (mk_datetime 2019 3 14 0 0 0) (OtherFile "notes") None
                   eq_refl eq_refl eq_refl eq_refl _)).
  discriminate.
Defined.

(** ** More on the merger *)

Lemma appends_ret {A} (a : A) : appends (ret a).
Proof. intros st st' r [= <- _]. exists []. now rewrite app_nil_r. Qed.

Lemma appends_lift {A} (x : result A) : appends (lift x).
Proof. intros st st' r [= <- _]. exists []. now rewrite app_nil_r. Qed.

Lemma appends_read {A} (f : filesystem -> result A) : appends (read f).
Proof. intros st st' r [= <- _]. exists []. now rewrite app_nil_r. Qed.

Lemma appends_emit ev : appends (emit ev).
Proof. intros st st' r [= <- _]. now exists [ev]. Qed.

Lemma appends_set_timestamp_int z : appends (set_timestamp_int z).
Proof. intros st st' r [= <- _]. exists []. now rewrite app_nil_r. Qed.

Lemma appends_get_timestamp_int : appends get_timestamp_int.
Proof.
  intros st st' r. unfold get_timestamp_int.
  destruct (timestamp_int st); intros [= <- _]; exists [];
    now rewrite app_nil_r.
Qed.

Lemma appends_update f : appends (update f).
Proof.
  intros st st' r. unfold update.
  destruct (f (st_fs st)); intros [= <- _]; exists []; cbn [st_out];
    now rewrite app_nil_r.
Qed.

Lemma appends_bind {A B} (m : M A) (f : A -> M B) :
  appends m -> (forall a, appends (f a)) -> appends (mbind m f).
Proof.
  intros Hm Hf st st' r. unfold mbind.
  destruct (m st) as [st1 [a|e]] eqn:E.
  - intros H. destruct (Hm _ _ _ E) as [evs1 H1].
    destruct (Hf _ _ _ _ H) as [evs2 H2].
    exists (evs1 ++ evs2)%list. now rewrite H2, H1, app_assoc.
  - intros [= <- _]. exact (Hm _ _ _ E).
Qed.

Lemma appends_try_except {A} (m : M A) (h : exn -> M A) :
  appends m -> (forall e, appends (h e)) -> appends (try_except m h).
Proof.
  intros Hm Hh st st' r. unfold try_except.
  destruct (m st) as [st1 [a|e]] eqn:E.
  - intros [= <- _]. exact (Hm _ _ _ E).
  - intros H. destruct (Hm _ _ _ E) as [evs1 H1].
    destruct (Hh _ _ _ _ H) as [evs2 H2].
    exists (evs1 ++ evs2)%list. now rewrite H2, H1, app_assoc.
Qed.

Lemma appends_try_except_only {A} c (m : M A) (h : exn -> M A) :
  appends m -> (forall e, appends (h e)) -> appends (try_except_only c m h).
Proof.
  intros Hm Hh st st' r. unfold try_except_only.
  destruct (m st) as [st1 [a|e]] eqn:E.
  - intros [= <- _]. exact (Hm _ _ _ E).
  - destruct (c e).
    + intros H. destruct (Hm _ _ _ E) as [evs1 H1].
      destruct (Hh _ _ _ _ H) as [evs2 H2].
      exists (evs1 ++ evs2)%list. now rewrite H2, H1, app_assoc.
    + intros [= <- _]. exact (Hm _ _ _ E).
Qed.





Ltac appends_pure :=
  first [ apply appends_ret | apply appends_lift | apply appends_read
        | apply appends_emit | apply appends_set_timestamp_int
        | apply appends_get_timestamp_int | apply appends_update ].

Ltac appends_seq := apply appends_bind; [try appends_pure | intro].

Section MergerMore.
Context {P : Platform}.

Lemma convert_timestamp_appends media timestamp :
  appends (convert_timestamp media timestamp).
Proof.
  unfold convert_timestamp. apply appends_try_except_only.
  - do 3 appends_seq. appends_pure.
  - intros e. appends_pure.
Qed.

Lemma embed_metadata_appends media new_media_path lat lon formatted :
  appends (embed_metadata media new_media_path lat lon formatted).
Proof.
  unfold embed_metadata. apply appends_try_except; [|intros e; appends_pure].
  do 2 appends_seq.
  apply appends_try_except; [|intros e; appends_pure].
  appends_seq. appends_pure.
Qed.

(** The body of the [try] of a step only prints. *)
Ltac step_body_appends :=
  match goal with
  | |- appends (match ?j with Some _ => _ | None => _ end) =>
      destruct j; [|appends_pure]
  end;
  appends_seq;
  match goal with |- appends (if ?b then _ else _) => destruct b end;
    [|appends_pure];
  do 4 appends_seq;
  (apply appends_bind;
   [match goal with |- appends (if ?b then _ else _) => destruct b end;
      [apply convert_timestamp_appends | appends_pure] | intro]);
  do 6 appends_seq;
  match goal with |- appends (if ?b then _ else _) => destruct b end;
    [|appends_pure];
  cbv zeta; appends_seq;
  (apply appends_bind;
   [match goal with |- appends (if ?b then _ else _) => destruct b end;
      [apply embed_metadata_appends | appends_pure] | intro]);
  do 2 appends_seq;
  (apply appends_bind;
   [match goal with |- appends (if ?b then _ else _) => destruct b end;
      appends_pure | intro]);
  appends_seq;
  match goal with |- appends (match ?l with [] => _ | _ => _ end) =>
    destruct l end;
    [appends_pure|];
  appends_seq; appends_pure.

Lemma process_media_appends photo_dir output_dir json_files media :
  appends (process_media photo_dir output_dir json_files media).
Proof.
  unfold process_media.
  apply appends_try_except; [step_body_appends | intros e; appends_pure].
Qed.




Lemma convert_timestamp_fs media timestamp st st' r :
  convert_timestamp media timestamp st = (st', r) -> st_fs st' = st_fs st.
Proof.
  unfold convert_timestamp, try_except_only, mbind, lift, set_timestamp_int,
    ret, emit.
  destruct (int_of_string max_str_digits (py_str timestamp)) as [z|e].
  - cbn [st_fs st_out timestamp_int].
    destruct (fromtimestamp z) as [d|e].
    + now intros [= <- _].
    + destruct (exn_eqb e ValueError || exn_eqb e TypeError);
        now intros [= <- _].
  - destruct (exn_eqb e ValueError || exn_eqb e TypeError);
      now intros [= <- _].
Qed.

(** X15: a step changes the filesystem only after it has read the whole
    sidecar: a sidecar that cannot be loaded, a [photoTakenTime] or
    [geoData] that is no dictionary, a missing or empty timestamp, or a
    [people] entry without [get], leave every file where it was. *)
Theorem merger_changes_need_whole_sidecar
    (photo_dir output_dir : Path) (json_files : list Path) (media : Path)
    (st st' : state) (r : result unit)
    (Hrun : process_media photo_dir output_dir json_files media st = (st', r))
    (Hchanged : st_fs st' <> st_fs st) :
  exists json_file metadata photo_taken_time timestamp geo_data people
         people_names,
    find_json_for_photo media json_files = Some json_file /\
    json_load (st_fs st) json_file = Ok metadata /\
    py_get metadata "photoTakenTime" (VDict []) = Ok photo_taken_time /\
    py_get photo_taken_time "timestamp" VNone = Ok timestamp /\
    truthy timestamp = true /\
    py_get metadata "geoData" (VDict []) = Ok (VDict geo_data) /\
    py_get metadata "people" (VList []) = Ok people /\
    get_people_names people = Ok people_names.
Proof.
  unfold process_media, try_except in Hrun.
  destruct (find_json_for_photo media json_files) as [json_file|].
  2:{ exfalso. apply Hchanged. unfold emit in Hrun. now injection Hrun as <- _. }
  unfold mbind at 1 in Hrun. unfold read at 1 in Hrun.
  destruct (path_exists (st_fs st) json_file).
  2:{ exfalso. apply Hchanged. unfold emit in Hrun. now injection Hrun as <- _. }
  unfold mbind at 1 in Hrun. unfold read at 1 in Hrun.
  destruct (json_load (st_fs st) json_file) as [metadata|e] eqn:Hload.
  2:{ exfalso. apply Hchanged. unfold emit in Hrun. now injection Hrun as <- _. }
  unfold mbind at 1 in Hrun. unfold lift at 1 in Hrun.
  destruct (py_get metadata "photoTakenTime" (VDict [])) as [ptt|e] eqn:Hptt.
  2:{ exfalso. apply Hchanged. unfold emit in Hrun. now injection Hrun as <- _. }
  unfold mbind at 1 in Hrun. unfold lift at 1 in Hrun.
  destruct (py_get ptt "timestamp" VNone) as [timestamp|e] eqn:Hts.
  2:{ exfalso. apply Hchanged. unfold emit in Hrun. now injection Hrun as <- _. }
  unfold mbind at 1 in Hrun. unfold lift at 1 in Hrun.
  destruct (py_get ptt "formatted" (VStr "")) as [formatted|e] eqn:Hfmt.
  2:{ exfalso. apply Hchanged. unfold emit in Hrun. now injection Hrun as <- _. }
  unfold mbind at 1 in Hrun.
  destruct ((if truthy timestamp then convert_timestamp media timestamp
             else ret tt) st) as [stc rc] eqn:Ec.
  assert (Hfs : st_fs stc = st_fs st).
  { destruct (truthy timestamp).
    - exact (convert_timestamp_fs _ _ _ _ _ Ec).
    - unfold ret in Ec. now injection Ec as <- _. }
  destruct rc as [[]|e].
  2:{ exfalso. apply Hchanged. unfold emit in Hrun. injection Hrun as <- _.
      exact Hfs. }
  unfold mbind at 1 in Hrun. unfold lift at 1 in Hrun.
  destruct (py_get metadata "geoData" (VDict [])) as [geo|e] eqn:Hgeo.
  2:{ exfalso. apply Hchanged. unfold emit in Hrun. injection Hrun as <- _.
      exact Hfs. }
  unfold mbind at 1 in Hrun. unfold lift at 1 in Hrun.
  destruct (py_get geo "latitude" (VInt 0)) as [latitude|e] eqn:Hlat.
  2:{ exfalso. apply Hchanged. unfold emit in Hrun. injection Hrun as <- _.
      exact Hfs. }
  assert (Hdict : exists geo_data, geo = VDict geo_data).
  { destruct geo; try discriminate. now eexists. }
  destruct Hdict as [geo_data ->].
  unfold mbind at 1 in Hrun. unfold lift at 1 in Hrun. cbn [py_get] in Hrun.
  unfold mbind at 1 in Hrun. unfold lift at 1 in Hrun.
  unfold mbind at 1 in Hrun. unfold lift at 1 in Hrun.
  destruct (py_get metadata "people" (VList [])) as [people|e] eqn:Hpeople.
  2:{ exfalso. apply Hchanged. unfold emit in Hrun. injection Hrun as <- _.
      exact Hfs. }
  unfold mbind at 1 in Hrun. unfold lift at 1 in Hrun.
  destruct (get_people_names people) as [people_names|e] eqn:Hnames.
  2:{ exfalso. apply Hchanged. unfold emit in Hrun. injection Hrun as <- _.
      exact Hfs. }
  destruct (truthy timestamp) eqn:Htruthy.
  2:{ exfalso. apply Hchanged. unfold emit in Hrun. injection Hrun as <- _.
      exact Hfs. }
  exists json_file, metadata, ptt, timestamp, geo_data, people, people_names.
  repeat split; trivial.
Qed.

(** X16: a latitude that is no number makes the encoder raise
    [TypeError] at [abs], whatever the longitude; the embedding step then
    prints one warning and changes nothing, so the copy keeps the bytes of
    the original and gets no file time. *)
Theorem non_numeric_latitude_skips_embedding
    (media new_media_path : Path) (lat lon formatted_time : pyval)
    (st : state)
    (Hint : forall z, lat <> VInt z) (Hbool : forall b, lat <> VBool b)
    (Hfloat : forall f, lat <> VFloat f) :
  get_exif_gps_dict lat lon = Raise TypeError /\
  embed_metadata media new_media_path lat lon formatted_time st
  = (mk_state (st_fs st)
       (st_out st ++ [WarnExif (path_name media) TypeError])
       (timestamp_int st), Ok tt).
Proof.
  assert (E : get_exif_gps_dict lat lon = Raise TypeError).
  { unfold get_exif_gps_dict.
    destruct lat; try reflexivity;
      [now destruct (Hbool b) | now destruct (Hint z) | now destruct (Hfloat f)]. }
  split; [exact E|].
  unfold embed_metadata, try_except, mbind, lift. now rewrite E.
Qed.

Lemma embed_metadata_fails media new lat lon fmt st c t :
  fs_lookup (st_fs st) new = Some (File c t) ->
  (forall d, exists e, piexif_insert d c = Raise e) ->
  exists e,
    embed_metadata media new lat lon fmt st
    = (mk_state (st_fs st) (st_out st ++ [WarnExif (path_name media) e])
         (timestamp_int st), Ok tt).
Proof.
  intros Hnew Hfail. unfold embed_metadata, try_except, mbind, lift.
  destruct (get_exif_gps_dict lat lon) as [gps|e]; [|now exists e].
  unfold update at 1, piexif_dump_insert. rewrite Hnew.
  match goal with |- context [piexif_insert ?d c] =>
    destruct (Hfail d) as [e He]; rewrite He end.
  cbn [rbind]. now exists e.
Qed.

(** X17: when both copies can be made (the system accepts the two new
    names, among the other conditions), the copy of a media file holds
    the bytes of the original and carries no photo-taken time whenever
    nothing is embedded: for every suffix other than [.jpg] and [.jpeg],
    and for a JPEG when [piexif] rejects the dictionary. The file time is
    only set after a successful embedding. *)
Theorem copy_without_embedding_is_verbatim
    (photo_dir output_dir : Path) (json_files : list Path)
    (media json_file : Path) (st : state)
    (metadata photo_taken_time timestamp formatted_time people : pyval)
    (geo_data : list (string * pyval)) (people_names : list pyval)
    (cm : content) (tm : option Z)
    (Hfind : find_json_for_photo media json_files = Some json_file)
    (Hload : json_load (st_fs st) json_file = Ok metadata)
    (Hptt : py_get metadata "photoTakenTime" (VDict []) = Ok photo_taken_time)
    (Hts : py_get photo_taken_time "timestamp" VNone = Ok timestamp)
    (Hfmt : py_get photo_taken_time "formatted" (VStr "") = Ok formatted_time)
    (Hgeo : py_get metadata "geoData" (VDict []) = Ok (VDict geo_data))
    (Hpeople : py_get metadata "people" (VList []) = Ok people)
    (Hnames : get_people_names people = Ok people_names)
    (Htruthy : truthy timestamp = true)
    (Hconv : forall z e,
       int_of_string max_str_digits (py_str timestamp) = Ok z ->
       fromtimestamp z = Raise e -> e = ValueError \/ e = TypeError)
    (Hmedia : fs_lookup (st_fs st) media = Some (File cm tm))
    (Hplain : plain_name (py_str timestamp ++ "_" ++ path_name media) = true)
    (Haccepted :
       create_error
         (path_join output_dir (py_str timestamp ++ "_" ++ path_name media))
       = None)
    (Haccepted_json :
       create_error
         (path_join output_dir
            ((py_str timestamp ++ "_" ++ path_name media) ++ ".json"))
       = None)
    (Hout : is_dir (st_fs st) output_dir = true)
    (Hnd1 : is_dir (st_fs st)
              (path_join output_dir
                 (py_str timestamp ++ "_" ++ path_name media)) = false)
    (Hnd2 : is_dir (st_fs st)
              (path_join output_dir
                 ((py_str timestamp ++ "_" ++ path_name media) ++ ".json"))
            = false)
    (Hjm : json_file <> media)
    (Hjn : json_file <> path_join output_dir
                          (py_str timestamp ++ "_" ++ path_name media))
    (Hjt : json_file <> path_join output_dir
                          ((py_str timestamp ++ "_" ++ path_name media)
                           ++ ".json"))
    (Hnothing :
       mem_str (lower (path_suffix media)) [".jpg"; ".jpeg"] = false \/
       forall d, exists e, piexif_insert d cm = Raise e) :
  exists st',
    process_media photo_dir output_dir json_files media st = (st', Ok tt) /\
    fs_lookup (st_fs st')
      (path_join output_dir (py_str timestamp ++ "_" ++ path_name media))
    = Some (File cm None).
Proof.
  destruct (process_media_run photo_dir output_dir json_files media
              json_file st metadata photo_taken_time timestamp formatted_time
              people geo_data people_names cm tm Hfind Hload Hptt Hts Hfmt
              Hgeo Hpeople Hnames Htruthy Hconv Hmedia Hplain Haccepted
              Haccepted_json Hout Hnd1 Hnd2 Hjm Hjn Hjt)
    as (st' & Hrun & Hlook & _).
  exists st'. split; [exact Hrun|]. rewrite Hlook. clear Hrun Hlook.
  set (new_media_path :=
         path_join output_dir (py_str timestamp ++ "_" ++ path_name media)).
  set (st1 := mk_state (fs_write (st_fs st) new_media_path (File cm None)) _ _).
  assert (H1 : fs_lookup (st_fs st1) new_media_path = Some (File cm None))
    by apply lookup_write_same.
  destruct (mem_str (lower (path_suffix media)) [".jpg"; ".jpeg"]) eqn:Ej.
  - destruct Hnothing as [Hn|Hfail]; [discriminate|].
    match goal with |- context [embed_metadata ?a ?b ?c ?d ?e st1] =>
      destruct (embed_metadata_fails a b c d e st1 cm None H1 Hfail)
        as [e' He]; rewrite He end.
    exact H1.
  - exact H1.
Qed.

(** X18: the line about the people is printed inside the [try], after
    the originals were deleted: when both copies can be made, a person
    whose name is no string makes [join] raise, and the step ends with
    ["Error processing"] for a file it has in fact copied, renamed and
    deleted. *)
Theorem bad_person_name_reported_after_the_move
    (photo_dir output_dir : Path) (json_files : list Path)
    (media json_file : Path) (st : state)
    (metadata photo_taken_time timestamp formatted_time people : pyval)
    (geo_data : list (string * pyval)) (people_names : list pyval)
    (cm : content) (tm : option Z) (e : exn)
    (Hfind : find_json_for_photo media json_files = Some json_file)
    (Hload : json_load (st_fs st) json_file = Ok metadata)
    (Hptt : py_get metadata "photoTakenTime" (VDict []) = Ok photo_taken_time)
    (Hts : py_get photo_taken_time "timestamp" VNone = Ok timestamp)
    (Hfmt : py_get photo_taken_time "formatted" (VStr "") = Ok formatted_time)
    (Hgeo : py_get metadata "geoData" (VDict []) = Ok (VDict geo_data))
    (Hpeople : py_get metadata "people" (VList []) = Ok people)
    (Hnames : get_people_names people = Ok people_names)
    (Htruthy : truthy timestamp = true)
    (Hconv : forall z e,
       int_of_string max_str_digits (py_str timestamp) = Ok z ->
       fromtimestamp z = Raise e -> e = ValueError \/ e = TypeError)
    (Hmedia : fs_lookup (st_fs st) media = Some (File cm tm))
    (Hplain : plain_name (py_str timestamp ++ "_" ++ path_name media) = true)
    (Haccepted :
       create_error
         (path_join output_dir (py_str timestamp ++ "_" ++ path_name media))
       = None)
    (Haccepted_json :
       create_error
         (path_join output_dir
            ((py_str timestamp ++ "_" ++ path_name media) ++ ".json"))
       = None)
    (Hout : is_dir (st_fs st) output_dir = true)
    (Hnd1 : is_dir (st_fs st)
              (path_join output_dir
                 (py_str timestamp ++ "_" ++ path_name media)) = false)
    (Hnd2 : is_dir (st_fs st)
              (path_join output_dir
                 ((py_str timestamp ++ "_" ++ path_name media) ++ ".json"))
            = false)
    (Hjm : json_file <> media)
    (Hjn : json_file <> path_join output_dir
                          (py_str timestamp ++ "_" ++ path_name media))
    (Hjt : json_file <> path_join output_dir
                          ((py_str timestamp ++ "_" ++ path_name media)
                           ++ ".json"))
    (Hjoin : join_names people_names = Raise e) :
  exists st' evs,
    process_media photo_dir output_dir json_files media st = (st', Ok tt) /\
    fs_lookup (st_fs st') media = None /\
    fs_lookup (st_fs st')
      (path_join output_dir (py_str timestamp ++ "_" ++ path_name media))
    <> None /\
    st_out st'
    = (evs ++ [Processed (path_name media)
                 (py_str timestamp ++ "_" ++ path_name media);
               ErrorProcessing (path_name media) e])%list.
Proof.
  destruct (process_media_run photo_dir output_dir json_files media
              json_file st metadata photo_taken_time timestamp formatted_time
              people geo_data people_names cm tm Hfind Hload Hptt Hts Hfmt
              Hgeo Hpeople Hnames Htruthy Hconv Hmedia Hplain Haccepted
              Haccepted_json Hout Hnd1 Hnd2 Hjm Hjn Hjt)
    as (st' & Hrun & _ & _ & Hgone & _ & _ & Hprinted).
  destruct (proj1 (proj2 (merger_run_facts photo_dir output_dir json_files
              media json_file st metadata photo_taken_time timestamp people
              geo_data people_names cm tm Hfind Hload Hptt Hts Hgeo Hpeople
              Hnames Hmedia))
              Htruthy Hconv Hplain Haccepted Haccepted_json Hout Hnd1 Hnd2
              Hjm Hjn Hjt)
    as (st'' & c & t & Hrun' & Hnew & _).
  rewrite Hrun in Hrun'. injection Hrun' as <-.
  exists st'. eexists. split; [exact Hrun|]. split; [exact Hgone|].
  split; [now rewrite Hnew|].
  rewrite Hprinted, Hjoin.
  destruct people_names as [|n ns]; [discriminate Hjoin | reflexivity].
Qed.

(** X19: the candidate sidecars are listed once, before the loop: a
    sidecar of the source folder that two media files match serves the
    first one only; when the first is processed (both copies can be
    made), the sidecar is deleted with it, and the second file is
    reported as having no metadata and stays where it is. *)
Theorem shared_sidecar_serves_once
    (photo_dir output_dir : Path) (json_files : list Path)
    (media other json_file : Path) (st : state)
    (metadata photo_taken_time timestamp people : pyval)
    (geo_data : list (string * pyval)) (people_names : list pyval)
    (Hfind : find_json_for_photo media json_files = Some json_file)
    (Hfind2 : find_json_for_photo other json_files = Some json_file)
    (Hload : json_load (st_fs st) json_file = Ok metadata)
    (Hptt : py_get metadata "photoTakenTime" (VDict []) = Ok photo_taken_time)
    (Hts : py_get photo_taken_time "timestamp" VNone = Ok timestamp)
    (Hgeo : py_get metadata "geoData" (VDict []) = Ok (VDict geo_data))
    (Hpeople : py_get metadata "people" (VList []) = Ok people)
    (Hnames : get_people_names people = Ok people_names)
    (Htruthy : truthy timestamp = true)
    (Hconv : forall z e,
       int_of_string max_str_digits (py_str timestamp) = Ok z ->
       fromtimestamp z = Raise e -> e = ValueError \/ e = TypeError)
    (Hmedia : is_file (st_fs st) media = true)
    (Hplain : plain_name (py_str timestamp ++ "_" ++ path_name media) = true)
    (Haccepted :
       create_error
         (path_join output_dir (py_str timestamp ++ "_" ++ path_name media))
       = None)
    (Haccepted_json :
       create_error
         (path_join output_dir
            ((py_str timestamp ++ "_" ++ path_name media) ++ ".json"))
       = None)
    (Hout : is_dir (st_fs st) output_dir = true)
    (Hnd1 : is_dir (st_fs st)
              (path_join output_dir
                 (py_str timestamp ++ "_" ++ path_name media)) = false)
    (Hnd2 : is_dir (st_fs st)
              (path_join output_dir
                 ((py_str timestamp ++ "_" ++ path_name media) ++ ".json"))
            = false)
    (Hjm : json_file <> media)
    (Hjn : json_file <> path_join output_dir
                          (py_str timestamp ++ "_" ++ path_name media))
    (Hjt : json_file <> path_join output_dir
                          ((py_str timestamp ++ "_" ++ path_name media)
                           ++ ".json"))
    (Hparent : path_parent json_file = photo_dir)
    (Hroot : json_file <> [])
    (Hother : fs_lookup (st_fs st) other <> None)
    (Hom : other <> media) (Hoj : other <> json_file) :
  exists st1 st2,
    process_media photo_dir output_dir json_files media st = (st1, Ok tt) /\
    fs_lookup (st_fs st1) json_file = None /\
    process_media photo_dir output_dir json_files other st1 = (st2, Ok tt) /\
    st_fs st2 = st_fs st1 /\
    st_out st2 = (st_out st1 ++ [NoJsonFound (path_name other)])%list /\
    fs_lookup (st_fs st2) other <> None.
Proof.
  assert (Hm : exists cm tm, fs_lookup (st_fs st) media = Some (File cm tm)).
  { unfold is_file in Hmedia.
    destruct (fs_lookup (st_fs st) media) as [[cm tm|]|];
      try discriminate. eauto. }
  destruct Hm as (cm & tm & Hm).
  destruct (proj1 (proj2 (merger_run_facts photo_dir output_dir json_files
              media json_file st metadata photo_taken_time timestamp people
              geo_data people_names cm tm Hfind Hload Hptt Hts Hgeo Hpeople
              Hnames Hm))
              Htruthy Hconv Hplain Haccepted Haccepted_json Hout Hnd1 Hnd2
              Hjm Hjn Hjt)
    as (st1 & c & t & Hrun & _ & _ & _ & _ & _ & Hgone & _).
  specialize (Hgone Hparent).
  assert (Hkept : fs_lookup (st_fs st1) other <> None).
  { intros Hnone.
    destruct (process_media_deletes _ _ _ _ _ _ _ other Hrun Hother Hnone)
      as (j & Hj & _ & [E|[E _]]); [now apply Hom|].
    rewrite Hfind in Hj. injection Hj as <-. now apply Hoj. }
  exists st1,
    (mk_state (st_fs st1) (st_out st1 ++ [NoJsonFound (path_name other)])
       (timestamp_int st1)).
  split; [exact Hrun|]. split; [exact Hgone|].
  split; [|cbn [st_fs st_out]; repeat split; exact Hkept].
  apply process_media_no_sidecar. intros j Hj.
  rewrite Hfind2 in Hj. injection Hj as <-.
  unfold path_exists, is_dir, is_file. rewrite Hgone.
  destruct json_file; [congruence | reflexivity].
Qed.

End MergerMore.

Lemma merger_changes_need_whole_sidecar_witness :
  exists json_file metadata photo_taken_time timestamp geo_data people
         people_names,
    find_json_for_photo ["Photos"; "photo.jpg"] [["Photos"; "photo.json"]]
    = Some json_file /\
    json_load ((["output"], Dir) :: export_fs (VStr "1000000000")) json_file
    = Ok metadata /\
    py_get metadata "photoTakenTime" (VDict []) = Ok photo_taken_time /\
    py_get photo_taken_time "timestamp" VNone = Ok timestamp /\
    truthy timestamp = true /\
    py_get metadata "geoData" (VDict []) = Ok (VDict geo_data) /\
    py_get metadata "people" (VList []) = Ok people /\
    get_people_names people = Ok people_names.
Proof.
  set (st := start ((["output"], Dir) :: export_fs (VStr "1000000000"))).
  refine (merger_changes_need_whole_sidecar (P := sample_platform)
            ["Photos"] ["output"] [["Photos"; "photo.json"]]
            ["Photos"; "photo.jpg"] st
            (fst (process_media ["Photos"] ["output"]
                    [["Photos"; "photo.json"]] ["Photos"; "photo.jpg"] st))
            (snd (process_media ["Photos"] ["output"]
                    [["Photos"; "photo.json"]] ["Photos"; "photo.jpg"] st))
            _ _).
  - apply surjective_pairing.
  - vm_compute. discriminate.
Defined.

Lemma non_numeric_latitude_skips_embedding_witness :
  get_exif_gps_dict (VStr "48.85") (VInt 2) = Raise TypeError.
Proof.
  refine (proj1 (non_numeric_latitude_skips_embedding (P := sample_platform)
                   ["Photos"; "photo.jpg"] ["output"; "1_photo.jpg"]
                   (VStr "48.85") (VInt 2) (VStr "") (start []) _ _ _));
    discriminate.
Defined.

Lemma copy_without_embedding_is_verbatim_witness :
  let fs := ((["output"], Dir)
             :: (["Photos"; "photo.png"], File (picture "PNG" None) None)
             :: export_fs (VStr "1000000000"))%list in
  exists st',
    process_media (P := sample_platform) ["Photos"] ["output"]
      [["Photos"; "photo.json"]] ["Photos"; "photo.png"] (start fs)
    = (st', Ok tt) /\
    fs_lookup (st_fs st') ["output"; "1000000000_photo.png"]
    = Some (File (picture "PNG" None) None).
Proof.
  intros fs.
  refine (copy_without_embedding_is_verbatim (P := sample_platform)
            ["Photos"] ["output"] [["Photos"; "photo.json"]]
            ["Photos"; "photo.png"] ["Photos"; "photo.json"] (start fs)
            (VDict [("photoTakenTime", VDict [("timestamp", VStr "1000000000")])])
            (VDict [("timestamp", VStr "1000000000")])
            (VStr "1000000000") (VStr "") (VList []) [] []
            (picture "PNG" None) None
            eq_refl eq_refl eq_refl eq_refl eq_refl eq_refl eq_refl eq_refl
            eq_refl _ eq_refl eq_refl eq_refl eq_refl eq_refl eq_refl eq_refl _ _ _
            (or_introl eq_refl)); try discriminate.
  intros z e Hz He. vm_compute in Hz. injection Hz as <-.
  vm_compute in He. discriminate He.
Defined.

Lemma bad_person_name_reported_after_the_move_witness :
  let metadata :=
    VDict [("photoTakenTime", VDict [("timestamp", VStr "1000000000")]);
           ("people", VList [VDict [("name", VNone)]])] in
  let fs := [ (["Photos"], Dir);
              (["Photos"; "photo.jpg"], File (picture "JPEG" None) None);
              (["Photos"; "photo.json"], File (JsonFile metadata) None);
              (["output"], Dir) ] in
  exists st' evs,
    process_media (P := sample_platform) ["Photos"] ["output"]
      [["Photos"; "photo.json"]] ["Photos"; "photo.jpg"] (start fs)
    = (st', Ok tt) /\
    fs_lookup (st_fs st') ["Photos"; "photo.jpg"] = None /\
    fs_lookup (st_fs st') ["output"; "1000000000_photo.jpg"] <> None /\
    st_out st'
    = (evs ++ [Processed "photo.jpg" "1000000000_photo.jpg";
               ErrorProcessing "photo.jpg" TypeError])%list.
Proof.
  intros metadata fs.
  refine (bad_person_name_reported_after_the_move (P := sample_platform)
            ["Photos"] ["output"] [["Photos"; "photo.json"]]
            ["Photos"; "photo.jpg"] ["Photos"; "photo.json"] (start fs)
            metadata (VDict [("timestamp", VStr "1000000000")])
            (VStr "1000000000") (VStr "") (VList [VDict [("name", VNone)]])
            [] [VNone] (picture "JPEG" None) None TypeError
            eq_refl eq_refl eq_refl eq_refl eq_refl eq_refl eq_refl eq_refl
            eq_refl _ eq_refl eq_refl eq_refl eq_refl eq_refl eq_refl eq_refl _ _ _
            eq_refl); try discriminate.
  intros z e Hz He. vm_compute in Hz. injection Hz as <-.
  vm_compute in He. discriminate He.
Defined.

Lemma shared_sidecar_serves_once_witness :
  let fs := ((["output"], Dir)
             :: (["Photos"; "photo.png"], File (picture "PNG" None) None)
             :: export_fs (VStr "1000000000"))%list in
  exists st1 st2,
    process_media (P := sample_platform) ["Photos"] ["output"]
      [["Photos"; "photo.json"]] ["Photos"; "photo.jpg"] (start fs)
    = (st1, Ok tt) /\
    fs_lookup (st_fs st1) ["Photos"; "photo.json"] = None /\
    process_media (P := sample_platform) ["Photos"] ["output"]
      [["Photos"; "photo.json"]] ["Photos"; "photo.png"] st1
    = (st2, Ok tt) /\
    st_fs st2 = st_fs st1 /\
    st_out st2 = (st_out st1 ++ [NoJsonFound "photo.png"])%list /\
    fs_lookup (st_fs st2) ["Photos"; "photo.png"] <> None.
Proof.
  intros fs.
  refine (shared_sidecar_serves_once (P := sample_platform)
            ["Photos"] ["output"] [["Photos"; "photo.json"]]
            ["Photos"; "photo.jpg"] ["Photos"; "photo.png"]
            ["Photos"; "photo.json"] (start fs)
            (VDict [("photoTakenTime", VDict [("timestamp", VStr "1000000000")])])
            (VDict [("timestamp", VStr "1000000000")])
            (VStr "1000000000") (VList []) [] []
            eq_refl eq_refl eq_refl eq_refl eq_refl eq_refl eq_refl eq_refl
            eq_refl _ eq_refl eq_refl eq_refl eq_refl eq_refl eq_refl eq_refl
            _ _ _ eq_refl _ _ _ _); try discriminate.
  intros z e Hz He. vm_compute in Hz. injection Hz as <-.
  vm_compute in He. discriminate He.
Defined.

(** *** The files a run visits *)

Lemma endswith_app s p : endswith s p = true -> exists pre, s = pre ++ p.
Proof.
  induction s as [|c s IH]; cbn [endswith]; intros H.
  - apply orb_true_iff in H. destruct H as [H|H]; [|discriminate].
    apply String.eqb_eq in H. subst p. now exists "".
  - apply orb_true_iff in H. destruct H as [H|H].
    + apply String.eqb_eq in H. subst p. now exists "".
    + destruct (IH H) as [pre ->]. now exists (String c pre).
Qed.

Lemma rfind_dot_none s :
  forallb_str (fun c => negb (Ascii.eqb c ".")) s = true -> rfind_dot s = None.
Proof.
  induction s as [|c s IH]; [reflexivity|]. cbn [forallb_str rfind_dot].
  intros H. apply andb_true_iff in H. destruct H as [Hc Hs].
  rewrite (IH Hs). now destruct (Ascii.eqb c ".").
Qed.

Lemma rfind_dot_app pre ext :
  rfind_dot ext = None ->
  rfind_dot (pre ++ String "." ext) = Some (String.length pre).
Proof.
  intros He. induction pre as [|c pre IH]; cbn [append rfind_dot String.length].
  - now rewrite He.
  - now rewrite IH.
Qed.

Lemma drop_app pre s : drop (String.length pre) (pre ++ s) = s.
Proof.
  induction pre as [|c pre IH]; cbn [String.length append drop];
    [now destruct s | exact IH].
Qed.

(** The suffix of a name that ends with a dot and letters. *)
Lemma name_suffix_ending name ext :
  forallb_str (fun c => negb (Ascii.eqb c ".")) ext = true ->
  endswith name (String "." ext) = true ->
  name_suffix name = String "." ext \/ name_suffix name = "".
Proof.
  intros Hext He. destruct (endswith_app _ _ He) as [pre ->].
  unfold name_suffix, split_suffix.
  rewrite (rfind_dot_app pre ext (rfind_dot_none _ Hext)).
  destruct (_ && _)%bool; cbn [snd]; [left | now right].
  apply drop_app.
Qed.

(** X20: every media file the merger visits has one of the seven
    lower-case suffixes of its patterns, or no suffix at all (a file named
    just [.jpg]), the patterns being matched with the case they are
    written in: the test for JPEG files never meets [.jpeg] nor an
    upper-case suffix. *)
Theorem visited_media_suffixes (fs : filesystem) (photo_dir media : Path)
    (Hvisited : In media (flat_map (glob_suffix fs photo_dir) media_patterns)) :
  mem_str (path_suffix media) ("" :: media_patterns) = true /\
  (mem_str (lower (path_suffix media)) [".jpg"; ".jpeg"] = true <->
   path_suffix media = ".jpg").
Proof.
  assert (H : mem_str (path_suffix media) ("" :: media_patterns) = true).
  { apply in_flat_map in Hvisited. destruct Hvisited as (ext & Hext & Hm).
    unfold glob_suffix in Hm. apply filter_In in Hm. destruct Hm as [_ He].
    unfold path_suffix. unfold media_patterns in Hext. cbn [In] in Hext.
    destruct Hext as [<-|[<-|[<-|[<-|[<-|[<-|[<-|[]]]]]]]];
      (pose proof (fun Hx => name_suffix_ending _ _ Hx He) as Hs;
       destruct (Hs eq_refl) as [-> | ->]; reflexivity). }
  split; [exact H|].
  apply mem_str_in in H. unfold media_patterns in H. cbn [In] in H.
  destruct H as [H|[H|[H|[H|[H|[H|[H|[H|[]]]]]]]]]; rewrite <- H;
    split; intros E; first [reflexivity | discriminate E].
Qed.

Lemma visited_media_suffixes_witness :
  mem_str (path_suffix ["Photos"; "photo.jpg"]) ("" :: media_patterns) = true.
Proof.
  refine (proj1 (visited_media_suffixes (export_fs (VStr "1")) ["Photos"]
                   ["Photos"; "photo.jpg"] _)).
  left. reflexivity.
Defined.

(** ** The resolver on what the merger wrote *)

Section ResolverMore2.
Context {P : Platform}.

Lemma read_json_date_exists fs p r :
  read_json_date fs p = Ok r -> path_exists fs p = true.
Proof.
  unfold read_json_date, json_load, path_exists, is_file.
  destruct (fs_lookup fs p) as [[c t|]|]; try discriminate.
  intros _. apply orb_true_r.
Qed.

(** X21: the two scripts fit together for JPEG copies: the sidecar the
    merger writes next to [<name>.jpg], named [<name>.jpg.json], is the
    first candidate the resolver tries, so when the picture carries no
    usable embedded date the resolver returns the date of that sidecar. *)
Theorem merged_jpg_dated_by_its_sidecar (output_dir : Path) (name : string)
    (st : state) (date : datetime)
    (Hplain : plain_name name = true)
    (Hjpg : name_suffix name = ".jpg")
    (Hexif : forall d, read_exif_date (st_fs st) (output_dir ++ [name])%list
                       <> Ok (Some d))
    (Hjson : read_json_date (st_fs st)
               (path_join output_dir (name ++ ".json")) = Ok (Some date)) :
  exists evs,
    get_date_taken (output_dir ++ [name])%list st
    = (mk_state (st_fs st) (st_out st ++ evs) (timestamp_int st),
       Ok (Some date)).
Proof.
  rewrite (path_join_plain _ _ (plain_name_json _ Hplain)) in Hjson.
  assert (Hsup : mem_str (lower (name_suffix name)) supported_extensions = true)
    by (now rewrite Hjpg).
  destruct (supported_candidates output_dir name Hplain Hsup) as [cands Hc].
  assert (Hhead : exists rest,
            cands = (output_dir ++ [(name ++ ".json")%string])%list :: rest).
  { unfold possible_json_extensions in Hc.
    destruct (map_result (with_suffix (output_dir ++ [name])%list) _)
      as [tried|] eqn:Et; cbn [rbind] in Hc; [|discriminate].
    destruct (with_name _ _) as [original_path|]; cbn [rbind] in Hc;
      [|discriminate].
    destruct (map_result (with_suffix original_path) _) as [more|];
      cbn [rbind] in Hc; [|discriminate].
    injection Hc as <-.
    cbn [map_result] in Et. unfold with_suffix at 1 in Et.
    rewrite path_name_snoc, path_parent_snoc in Et.
    destruct (String.eqb name ""); [discriminate|]. cbn [rbind] in Et.
    assert (E : name_stem name ++ ".jpg.json" = name ++ ".json").
    { rewrite <- (stem_suffix_join name) at 2. rewrite Hjpg.
      now rewrite string_app_assoc. }
    rewrite E in Et.
    match type of Et with
    | rbind ?x _ = Ok _ => destruct x as [bs|]; cbn [rbind] in Et;
                           [|discriminate]
    end.
    injection Et as <-. cbn [app]. eauto. }
  destruct Hhead as [rest ->].
  assert (Hjs : forall s, st_fs s = st_fs st ->
            get_date_from_json (output_dir ++ [name])%list s
            = (s, Ok (Some date))).
  { intros s Hs. unfold get_date_from_json. unfold mbind at 1. unfold lift.
    rewrite Hc. cbn [json_candidates_loop].
    unfold mbind at 1. unfold read at 1. rewrite Hs.
    unfold py_exists. rewrite (read_json_date_exists _ _ _ Hjson).
    unfold mbind, try_except, read, ret. now rewrite Hs, Hjson. }
  unfold get_date_taken. unfold mbind at 1. unfold try_except, read.
  destruct (read_exif_date (st_fs st) (output_dir ++ [name])%list)
    as [[d|]|e] eqn:Ee.
  - now destruct (Hexif d).
  - unfold mbind. rewrite (Hjs st eq_refl). unfold ret.
    exists []. rewrite app_nil_r. now destruct st.
  - unfold mbind at 1. unfold emit at 1. unfold ret at 1.
    unfold mbind. rewrite Hjs by reflexivity. unfold ret. eauto.
Qed.

End ResolverMore2.

Lemma merged_jpg_dated_by_its_sidecar_witness :
  let fs := [ (["output"], Dir);
              (["output"; "1000000000_photo.jpg"],
               File (picture "JPEG" None) None);
              (["output"; "1000000000_photo.jpg.json"],
               File (json_with_timestamp (VStr "1000000000")) None) ] in
  exists evs,
    get_date_taken (P := sample_platform) ["output"; "1000000000_photo.jpg"]
      (start fs)
    = (mk_state fs ([] ++ evs) None, Ok (Some (mk_datetime 2001 9 9 1 46 40))).
Proof.
  intros fs.
  refine (merged_jpg_dated_by_its_sidecar (P := sample_platform) ["output"]
            "1000000000_photo.jpg" (start fs) (mk_datetime 2001 9 9 1 46 40)
            eq_refl eq_refl _ eq_refl).
  intros d. vm_compute. discriminate.
Defined.

(** ** The archiver's move *)

Section ArchiverMore2.
Context {P : Platform}.

Lemma is_dir_after_move fs src dst n p :
  is_dir fs p = true -> is_dir fs dst = false -> is_file fs src = true ->
  is_dir (fs_remove (fs_write fs dst n) src) p = true.
Proof.
  intros Hp Hd Hs. unfold is_dir in *. destruct p as [|x p]; [reflexivity|].
  assert (Hpd : dst <> x :: p).
  { intros ->. rewrite Hp in Hd. discriminate. }
  assert (Hps : src <> x :: p).
  { intros ->. unfold is_file in Hs.
    destruct (fs_lookup fs (x :: p)) as [[c t|]|]; discriminate. }
  rewrite lookup_remove_other by exact Hps.
  now rewrite lookup_write_other by exact Hpd.
Qed.

Lemma mkdir_exist_ok_keeps_dir fs p fs' q :
  mkdir_exist_ok fs p = Ok fs' -> is_dir fs q = true -> is_dir fs' q = true.
Proof.
  intros H. unfold is_dir. destruct q as [|x q]; [reflexivity|].
  destruct (fs_lookup fs (x :: q)) as [[c t|]|] eqn:E; try discriminate.
  intros _. now rewrite (mkdir_exist_ok_lookup _ _ _ _ _ H E).
Qed.

(** X22: the archiver's move: when the two folders can be made and the
    destination [output/<year>/<month>/<name>] is free, the file ends up
    there with its content and times, it is gone from the output folder,
    both folders exist, one line is printed, and nothing else that
    existed is changed. *)
Theorem archiver_moves_into_month_folder
    (output_dir file_path : Path) (st st1 : state) (date : datetime)
    (fs1 fs2 : filesystem) :
  let year_folder := path_join output_dir (string_of_Z (year date)) in
  let month_folder := path_join year_folder (two_digits (month date)) in
  let name := path_name file_path in
  let dst := path_join month_folder name in
  is_file (st_fs st) file_path = true ->
  mem_str (lower (path_suffix file_path)) supported_extensions = true ->
  get_date_taken file_path st = (st1, Ok (Some date)) ->
  mkdir_exist_ok (st_fs st) year_folder = Ok fs1 ->
  mkdir_exist_ok fs1 month_folder = Ok fs2 ->
  plain_name name = true ->
  path_exists fs2 dst = false ->
  exists st',
    archive_file output_dir file_path st = (st', Ok tt) /\
    fs_lookup (st_fs st') dst = fs_lookup (st_fs st) file_path /\
    fs_lookup (st_fs st') file_path = None /\
    is_dir (st_fs st') year_folder = true /\
    is_dir (st_fs st') month_folder = true /\
    st_out st' = (st_out st1 ++ [Moved name month_folder])%list /\
    forall q, q <> dst -> q <> file_path ->
      fs_lookup (st_fs st) q <> None ->
      fs_lookup (st_fs st') q = fs_lookup (st_fs st) q.
Proof.
  intros year_folder month_folder name dst Hfile Hsup Hdate Hmk1 Hmk2 Hplain
    Hfree.
  destruct (get_date_taken_frame _ _ _ _ Hdate) as [Hfs1 Hti1].
  assert (Hjson : String.eqb (lower (path_suffix file_path)) ".json" = false).
  { apply String.eqb_neq. intros E. rewrite E in Hsup. discriminate. }
  apply orb_false_iff in Hfree. destruct Hfree as [Hnd Hnf].
  pose proof Hfile as Hfile0. unfold is_file in Hfile.
  destruct (fs_lookup (st_fs st) file_path) as [[c0 t0|]|] eqn:Esrc;
    try discriminate.
  assert (Hsrc2 : fs_lookup fs2 file_path = Some (File c0 t0)).
  { eapply mkdir_exist_ok_lookup; [exact Hmk2|].
    eapply mkdir_exist_ok_lookup; [exact Hmk1 | exact Esrc]. }
  assert (Hfile2 : is_file fs2 file_path = true)
    by (unfold is_file; now rewrite Hsrc2).
  assert (Hne : file_path <> dst).
  { intros E. rewrite <- E in Hnf. congruence. }
  assert (Hdst : dst = (month_folder ++ [name])%list)
    by (apply path_join_plain; exact Hplain).
  assert (Hmove : shutil_move fs2 file_path dst
                  = Ok (fs_remove (fs_write fs2 dst (File c0 t0)) file_path)).
  { unfold shutil_move. rewrite Hsrc2, Hnd, (path_eqb_neq _ _ Hne).
    rewrite Hdst at 1. unfold path_parent. rewrite removelast_snoc.
    now rewrite (mkdir_exist_ok_is_dir _ _ _ Hmk2). }
  assert (Hrun :
            archive_file output_dir file_path st
            = (mk_state (fs_remove (fs_write fs2 dst (File c0 t0)) file_path)
                 (st_out st1 ++ [Moved name month_folder])%list
                 (timestamp_int st), Ok tt)).
  { unfold archive_file. unfold mbind at 1. unfold read at 1.
    rewrite Hfile0, Hjson, Hsup. cbn [orb negb].
    unfold mbind at 1. rewrite Hdate.
    fold year_folder. fold month_folder. fold name. fold dst.
    unfold mbind, update, try_except, emit.
    rewrite Hfs1, Hmk1. cbn [st_fs st_out timestamp_int]. rewrite Hmk2.
    cbn [st_fs st_out timestamp_int]. now rewrite Hti1, Hmove. }
  eexists. split; [exact Hrun|]. cbn [st_fs st_out].
  split; [|split; [|split; [|split; [|split; [reflexivity|]]]]].
  - rewrite lookup_remove_other by exact Hne. apply lookup_write_same.
  - apply lookup_remove_same.
  - apply is_dir_after_move; trivial.
    apply (mkdir_exist_ok_keeps_dir _ _ _ _ Hmk2).
    exact (mkdir_exist_ok_is_dir _ _ _ Hmk1).
  - apply is_dir_after_move; trivial.
    exact (mkdir_exist_ok_is_dir _ _ _ Hmk2).
  - intros q Hqd Hqs Hq.
    rewrite lookup_remove_other by congruence.
    rewrite lookup_write_other by congruence.
    destruct (fs_lookup (st_fs st) q) as [n|] eqn:Eq; [|congruence].
    eapply mkdir_exist_ok_lookup; [exact Hmk2|].
    eapply mkdir_exist_ok_lookup; [exact Hmk1 | exact Eq].
Qed.

End ArchiverMore2.

Lemma archiver_moves_into_month_folder_witness :
  exists st',
    archive_file (P := sample_platform) ["output"]
      ["output"; "IMG_20190314.png"] (start sidecar_1850_fs) = (st', Ok tt) /\
    fs_lookup (st_fs st') ["output"; "2019"; "03"; "IMG_20190314.png"]
    = Some (File (picture "PNG" None) None) /\
    fs_lookup (st_fs st') ["output"; "IMG_20190314.png"] = None /\
    fs_lookup (st_fs st') ["output"; "IMG_20190314.json"]
    = fs_lookup sidecar_1850_fs ["output"; "IMG_20190314.json"].
Proof.
  destruct (archiver_moves_into_month_folder (P := sample_platform)
              ["output"] ["output"; "IMG_20190314.png"]
              (start sidecar_1850_fs) (start sidecar_1850_fs)
              (mk_datetime 2019 3 14 0 0 0)
              (fs_write sidecar_1850_fs ["output"; "2019"] Dir)
              (fs_write (fs_write sidecar_1850_fs ["output"; "2019"] Dir)
                 ["output"; "2019"; "03"] Dir)
              eq_refl eq_refl eq_refl eq_refl eq_refl eq_refl eq_refl)
    as (st' & Hrun & Hdst & Hsrc & _ & _ & _ & Hframe).
  exists st'. split; [exact Hrun|]. split; [exact Hdst|].
  split; [exact Hsrc|]. apply Hframe; discriminate.
Defined.
